(** * SURF: content acquisition and normalisation engine

    A shallow embedding of the Python sources of the SURF API
    (app/utils/searx.py, brave.py, duckduckgo.py, search_client.py,
    html_parser.py, web_fetcher.py, app/api/read.py, app/api/search.py)
    and the properties of its specification, proved over that embedding.

    Conventions of the embedding.
    - A Python [str] is a [string]: the sequence of its code points, each
      below 256. On this range whitespace and lower case are Python's;
      upper case is Python's but for the three code points whose upper
      case lies outside the range (181, 223 and 255), which are kept.
    - A Python [int] is a [Z].
    - A value decoded from JSON is a [pyval]; a dict keeps its items in
      insertion order, as CPython does.
    - A call that may raise returns a [result]; [try]/[except] is [catch]
      with the handler's class test.
    - The network, [json.loads], [json.dumps], [urlparse], [urljoin] and
      the HTML parser are not part of the repository: they are parameters
      (oracles) of the functions that call them, and those that may raise
      return a [result]. A parsed page is a tree of tags and strings,
      each string with its class as Beautiful Soup has it. *)

From Stdlib Require Import String Ascii List ZArith Bool Lia Arith.
From Stdlib Require Import DecimalString.
Import ListNotations.
Set Warnings "-register-all".
Local Open Scope string_scope.
Local Open Scope list_scope.

(* ===================================================================== *)
(** ** Python strings *)
(* ===================================================================== *)

Module PyStr.

(** [str.isspace] on one character, which is also the class [\s] of
    [re]: TAB, LF, VT, FF, CR, FS, GS, RS, US, SPACE, NEL (133) and the
    no-break space (160). *)
Definition is_space (c : ascii) : bool :=
  let n := nat_of_ascii c in
  (((9 <=? n) && (n <=? 13)) || ((28 <=? n) && (n <=? 32))
   || (n =? 133) || (n =? 160))%nat.

Fixpoint lstrip (s : string) : string :=
  match s with
  | String c r => if is_space c then lstrip r else s
  | EmptyString => EmptyString
  end.

(** [rstrip] keeps a character when it is not a space or when something
    other than spaces follows it. *)
Fixpoint rstrip (s : string) : string :=
  match s with
  | EmptyString => EmptyString
  | String c r =>
      match rstrip r with
      | EmptyString => if is_space c then EmptyString else String c EmptyString
      | r' => String c r'
      end
  end.

(** [s.strip()] *)
Definition strip (s : string) : string := rstrip (lstrip s).

(** [s.startswith(p)], returning the rest of [s] after [p]. *)
Fixpoint strip_prefix (p s : string) : option string :=
  match p with
  | EmptyString => Some s
  | String a p' =>
      match s with
      | String b s' => if Ascii.eqb a b then strip_prefix p' s' else None
      | EmptyString => None
      end
  end.

Definition startswith (p s : string) : bool :=
  match strip_prefix p s with Some _ => true | None => false end.

(** [sub in s] *)
Fixpoint contains (sub s : string) : bool :=
  startswith sub s ||
  match s with
  | String _ r => contains sub r
  | EmptyString => false
  end.

(** The scanner behind [str.replace] and [re.sub]: [skip] characters of
    the current match remain to be dropped. *)
Fixpoint replace_go (old new : string) (s : string) (skip : nat) : string :=
  match s with
  | EmptyString => EmptyString
  | String c r =>
      match skip with
      | S k => replace_go old new r k
      | O =>
          if startswith old s
          then new ++ replace_go old new r (String.length old - 1)
          else String c (replace_go old new r 0)
      end
  end.

(** [s.replace(old, new)] for a non-empty [old]. *)
Definition replace (old new s : string) : string := replace_go old new s 0.

(** The longest prefix of [s] whose characters satisfy [p], and the rest. *)
Fixpoint span (p : ascii -> bool) (s : string) : string * string :=
  match s with
  | String c r =>
      if p c then let (a, b) := span p r in (String c a, b)
      else (EmptyString, s)
  | EmptyString => (EmptyString, EmptyString)
  end.

(** Every character of [s] satisfies [p]. *)
Fixpoint all_chars (p : ascii -> bool) (s : string) : bool :=
  match s with
  | EmptyString => true
  | String c r => p c && all_chars p r
  end.

(** The head of [s], if it has one, fails [p]. *)
Definition stops_at (p : ascii -> bool) (s : string) : Prop :=
  match s with
  | EmptyString => True
  | String c _ => p c = false
  end.

Definition is_not (c : ascii) : ascii -> bool := fun x => negb (Ascii.eqb x c).

(** [s.split(sep)] for a one-character separator. *)
Fixpoint split (sep : ascii) (s : string) : list string :=
  match s with
  | EmptyString => [EmptyString]
  | String c r =>
      if Ascii.eqb c sep then EmptyString :: split sep r
      else match split sep r with
           | x :: xs => String c x :: xs
           | [] => [String c EmptyString]
           end
  end.

(** The letters of the range: A to Z and 192 to 222 without the
    multiplication sign (215) in upper case, each 32 below its lower
    case. *)
Definition upper_char (c : ascii) : ascii :=
  let n := nat_of_ascii c in
  if (((97 <=? n) && (n <=? 122))
      || ((224 <=? n) && (n <=? 254) && negb (n =? 247)))%nat
  then ascii_of_nat (n - 32) else c.

Definition lower_char (c : ascii) : ascii :=
  let n := nat_of_ascii c in
  if (((65 <=? n) && (n <=? 90))
      || ((192 <=? n) && (n <=? 222) && negb (n =? 215)))%nat
  then ascii_of_nat (n + 32) else c.

Fixpoint map_chars (f : ascii -> ascii) (s : string) : string :=
  match s with
  | EmptyString => EmptyString
  | String c r => String (f c) (map_chars f r)
  end.

Definition upper := map_chars upper_char.
Definition lower := map_chars lower_char.

(** [s[:n]] for [n >= 0] *)
Fixpoint take (n : nat) (s : string) : string :=
  match n, s with
  | S k, String c r => String c (take k r)
  | _, _ => EmptyString
  end.

(** [sep.join(l)] *)
Fixpoint join (sep : string) (l : list string) : string :=
  match l with
  | [] => EmptyString
  | [x] => x
  | x :: xs => x ++ sep ++ join sep xs
  end.

(** [str(n)] for an [int] *)
Definition of_Z (z : Z) : string := NilZero.string_of_int (Z.to_int z).

(** A string is truthy when it is not empty. *)
Definition truthy (s : string) : bool :=
  match s with EmptyString => false | _ => true end.

Definition LF : string := String (ascii_of_nat 10) EmptyString.

(** The double quote character, and the string made of it. *)
Definition dquote : ascii := ascii_of_nat 34.
Definition DQ : string := String dquote EmptyString.

(** The scanner behind [re.findall] and [re.sub] for a pattern that
    matches no empty string: [match_at s] is the match that starts at the
    head of [s], as its length and its value; the scan resumes after a
    match, and one character further where there is none. *)
Fixpoint findall_go {A} (match_at : string -> option (nat * A))
         (s : string) (skip : nat) : list A :=
  match s with
  | EmptyString => []
  | String _ r =>
      match skip with
      | S k => findall_go match_at r k
      | O =>
          match match_at s with
          | Some (n, a) => a :: findall_go match_at r (n - 1)
          | None => findall_go match_at r 0
          end
      end
  end.

Definition findall {A} (match_at : string -> option (nat * A)) (s : string)
  : list A := findall_go match_at s 0.

Fixpoint sub_go (match_at : string -> option nat) (repl : string)
         (s : string) (skip : nat) : string :=
  match s with
  | EmptyString => EmptyString
  | String c r =>
      match skip with
      | S k => sub_go match_at repl r k
      | O =>
          match match_at s with
          | Some n => repl ++ sub_go match_at repl r (n - 1)
          | None => String c (sub_go match_at repl r 0)
          end
      end
  end.

Definition sub (match_at : string -> option nat) (repl s : string) : string :=
  sub_go match_at repl s 0.

End PyStr.

(* ===================================================================== *)
(** ** Python values, exceptions and slices *)
(* ===================================================================== *)

Module Py.

(** The exception classes the sources raise, meet or catch. All of them
    derive from [Exception]; [ClientError] is aiohttp's base class, the
    others of aiohttp derive from it. *)
Inductive aiohttp_error : Type :=
| ClientResponseError
| ContentTypeError
| ClientConnectorError
| ClientConnectionError
| ClientPayloadError
| ServerTimeoutError
| OtherClientError.

Inductive exn : Type :=
| ValueError (msg : string)
| AttributeError (msg : string)
| TypeError (msg : string)
| UnicodeDecodeError
| JSONDecodeError
| TimeoutError
| ClientError (k : aiohttp_error)
| OtherException (name : string).

(** [isinstance(e, aiohttp.ClientError)] *)
Definition is_ClientError (e : exn) : bool :=
  match e with ClientError _ => true | _ => false end.

Inductive result (A : Type) : Type :=
| Ok (a : A)
| Raise (e : exn).
Arguments Ok {A} a.
Arguments Raise {A} e.

Definition bind {A B} (m : result A) (f : A -> result B) : result B :=
  match m with
  | Ok a => f a
  | Raise e => Raise e
  end.

(** [try: m except <class> as e: h e], the class given by its test. *)
Definition catch {A} (m : result A) (cls : exn -> bool) (h : exn -> result A)
  : result A :=
  match m with
  | Ok a => Ok a
  | Raise e => if cls e then h e else Raise e
  end.

(** [except Exception] *)
Definition any_Exception (e : exn) : bool := true.

(** Values decoded from JSON. A float is kept by its [repr]. *)
Inductive pyval : Type :=
| PNone
| PBool (b : bool)
| PInt (z : Z)
| PFloat (repr : string)
| PStr (s : string)
| PList (l : list pyval)
| PDict (items : list (string * pyval)).

(** [d.get(k)] on the items of a dict *)
Fixpoint items_get (k : string) (items : list (string * pyval)) : option pyval :=
  match items with
  | [] => None
  | (k', v) :: r => if String.eqb k k' then Some v else items_get k r
  end.

(** [v.get(k, default)]: only a dict has the method. *)
Definition get (v : pyval) (k : string) (default : pyval) : result pyval :=
  match v with
  | PDict items =>
      Ok (match items_get k items with Some x => x | None => default end)
  | _ => Raise (AttributeError "object has no attribute 'get'")
  end.

Fixpoint chars (s : string) : list pyval :=
  match s with
  | EmptyString => []
  | String c r => PStr (String c EmptyString) :: chars r
  end.

(** [for x in v]: the elements of a list, the keys of a dict, the
    characters of a string; nothing else here is iterable. *)
Definition iterate (v : pyval) : result (list pyval) :=
  match v with
  | PList l => Ok l
  | PDict items => Ok (map (fun kv => PStr (fst kv)) items)
  | PStr s => Ok (chars s)
  | _ => Raise (TypeError "object is not iterable")
  end.

(** [l[:n]]: the first [n] elements, and for a negative [n] all but the
    last [-n]. *)
Definition slice_to {A} (l : list A) (n : Z) : list A :=
  if (0 <=? n)%Z then firstn (Z.to_nat n) l
  else firstn (length l - Z.to_nat (- n)) l.

(** [for x in l: ys.append(f x)], where [f] may raise. *)
Fixpoint for_each {A B} (f : A -> result B) (l : list A) : result (list B) :=
  match l with
  | [] => Ok []
  | x :: r => bind (f x) (fun y => bind (for_each f r) (fun ys => Ok (y :: ys)))
  end.

End Py.

Module PyNotations.
Notation "x <- m ;; k" := (Py.bind m (fun x => k))
  (at level 61, m at next level, right associativity).
End PyNotations.

Import PyNotations.

(* ===================================================================== *)
(** ** app/core/config.py *)
(* ===================================================================== *)

Module Config.

Record SearXNGConfig : Type := {
  instance_url : string;
  auth_username : option string;
  auth_password : option string;
  searxng_timeout : Z;
  searxng_max_results : Z
}.

Record BraveSearchConfig : Type := {
  api_key : option string;
  brave_timeout : Z;
  brave_max_results : Z
}.

Record DuckDuckGoConfig : Type := {
  duckduckgo_timeout : Z;
  duckduckgo_max_results : Z
}.

(** [class SearchProvider(str, Enum)] *)
Inductive SearchProvider : Type := SEARXNG | DUCKDUCKGO | BRAVE.

Definition value (m : SearchProvider) : string :=
  match m with
  | SEARXNG => "searxng"
  | DUCKDUCKGO => "duckduckgo"
  | BRAVE => "brave"
  end.

Definition name (m : SearchProvider) : string :=
  match m with
  | SEARXNG => "SEARXNG"
  | DUCKDUCKGO => "DUCKDUCKGO"
  | BRAVE => "BRAVE"
  end.

(** What [settings.search.provider] holds: the default is not validated,
    so it is the member [DUCKDUCKGO] when SEARCH_PROVIDER is unset and
    the raw string of the environment otherwise. *)
Inductive provider_setting : Type :=
| Member (m : SearchProvider)
| Raw (s : string).

Definition member_eqb (a b : SearchProvider) : bool :=
  match a, b with
  | SEARXNG, SEARXNG | DUCKDUCKGO, DUCKDUCKGO | BRAVE, BRAVE => true
  | _, _ => false
  end.

(** [provider == SearchProvider.M]: a member is a [str] and compares as
    its value. *)
Definition provider_is (p : provider_setting) (m : SearchProvider) : bool :=
  match p with
  | Member m' => member_eqb m' m
  | Raw s => String.eqb s (value m)
  end.

(** [str(provider)] *)
Definition provider_str (p : provider_setting) : string :=
  match p with
  | Member m => "SearchProvider." ++ name m
  | Raw s => s
  end.

Record SearchConfig : Type := {
  provider : provider_setting;
  search_searxng : SearXNGConfig;
  brave : BraveSearchConfig;
  duckduckgo : DuckDuckGoConfig
}.

Record Settings : Type := {
  search : SearchConfig;
  searxng : SearXNGConfig
}.

(** Truthiness of an [Optional[str]] *)
Definition opt_truthy (o : option string) : bool :=
  match o with Some s => PyStr.truthy s | None => false end.

End Config.

(* ===================================================================== *)
(** ** The HTTP client (aiohttp), as an oracle *)
(* ===================================================================== *)

Module Http.

Inductive method : Type := GET | POST.

Record request : Type := {
  meth : method;
  url : string;
  params : list (string * Py.pyval);
  headers : list (string * string);
  auth : option (string * string);
  timeout : Z
}.

(** What came back after the status line and the headers: [text] and
    [json] are what [await response.text()] and [await response.json()]
    return or raise when they read the body. *)
Record response : Type := {
  status : Z;
  resp_headers : list (string * string);
  text : Py.result string;
  json : Py.result Py.pyval
}.

(** Opening the session and sending the request either raises or gives
    a response. *)
Inductive outcome : Type :=
| Failed (e : Py.exn)
| Responded (r : response).

Definition network : Type := request -> outcome.

Definition send (net : network) (rq : request) : Py.result response :=
  match net rq with
  | Failed e => Py.Raise e
  | Responded r => Py.Ok r
  end.

End Http.

(** A normalised search result: the dict with the keys title, url and
    snippet, in that order. *)
Definition search_result (title url snippet : Py.pyval) : Py.pyval :=
  Py.PDict [("title", title); ("url", url); ("snippet", snippet)].

(* ===================================================================== *)
(** ** app/utils/searx.py *)
(* ===================================================================== *)

Module SearXNGClient.
Import Config Http Py.

Record t : Type := {
  self_instance_url : string;
  self_auth : option (string * string)
}.

(** [aiohttp.BasicAuth(login, password)], kept as the pair of its login
    and password: the constructor refuses a login that holds a colon. *)
Definition BasicAuth (login password : string) : result (string * string) :=
  if PyStr.contains ":" login
  then Raise (ValueError ("A " ++ PyStr.DQ ++ ":" ++ PyStr.DQ
                          ++ " is not allowed in login (RFC 1945#section-11.1)"))
  else Ok (login, password).

(** [__init__]: basic authentication only when a user name and a
    password are both configured; it raises what [BasicAuth] raises. *)
Definition init (settings : Settings) : result t :=
  match auth_username (searxng settings), auth_password (searxng settings) with
  | Some u, Some p =>
      if PyStr.truthy u && PyStr.truthy p then
        auth <- BasicAuth u p ;;
        Ok {| self_instance_url := instance_url (searxng settings);
              self_auth := Some auth |}
      else
        Ok {| self_instance_url := instance_url (searxng settings);
              self_auth := None |}
  | _, _ =>
      Ok {| self_instance_url := instance_url (searxng settings);
            self_auth := None |}
  end.

(** The credentials [BasicAuth] refuses: a user name and a password are
    both configured and the user name holds a colon. *)
Definition refused_login (settings : Settings) : bool :=
  match auth_username (searxng settings), auth_password (searxng settings) with
  | Some u, Some p => PyStr.truthy u && PyStr.truthy p && PyStr.contains ":" u
  | _, _ => false
  end.

Definition valid_time_ranges : list (option string) :=
  [None; Some "day"; Some "week"; Some "month"; Some "year"].

Definition opt_string_eqb (a b : option string) : bool :=
  match a, b with
  | None, None => true
  | Some x, Some y => String.eqb x y
  | _, _ => false
  end.

(** One backend result to the common shape. *)
Definition normalise (result : pyval) : Py.result pyval :=
  title <- get result "title" (PStr "") ;;
  url <- get result "url" (PStr "") ;;
  snippet <- get result "content" (PStr "") ;;
  Ok (search_result title url snippet).

Definition search (settings : Settings) (self : t) (net : network)
           (query : string) (num_results : option Z)
           (language time_range : option string) : result (list pyval) :=
  let num_results :=
    match num_results with
    | None => searxng_max_results (searxng settings)
    | Some n => n
    end in
  let language := match language with None => "en-US" | Some l => l end in
  let time_range :=
    if existsb (opt_string_eqb time_range) valid_time_ranges
    then time_range else None in
  let params :=
    [("q", PStr query); ("format", PStr "json"); ("language", PStr language)]
    ++ match time_range with
       | Some tr => if PyStr.truthy tr then [("time_range", PStr tr)] else []
       | None => []
       end in
  catch
    (catch
       (response <- send net
          {| meth := GET;
             url := self_instance_url self ++ "/search";
             params := params;
             headers := [("Accept", "application/json")];
             auth := self_auth self;
             timeout := searxng_timeout (searxng settings) |} ;;
        if negb (status response =? 200)%Z then
          error_text <- text response ;;
          Raise (ValueError ("SearXNG search failed with status code: "
                             ++ PyStr.of_Z (status response)))
        else
          match json response with
          | Raise _ =>
              error_text <- text response ;;
              Ok []
          | Ok response_data =>
              raw <- get response_data "results" (PList []) ;;
              items <- iterate raw ;;
              results <- for_each normalise items ;;
              Ok (slice_to results num_results)
          end)
       is_ClientError (fun _ => Ok []))
    any_Exception (fun _ => Ok []).

End SearXNGClient.

(* ===================================================================== *)
(** ** app/utils/brave.py *)
(* ===================================================================== *)

Module BraveSearchClient.
Import Config Http Py.

Record t : Type := {
  self_api_endpoint : string;
  self_api_key : option string;
  self_timeout : Z
}.

Definition init (settings : Settings) : t :=
  {| self_api_endpoint := "https://api.search.brave.com/res/v1/web/search";
     self_api_key := api_key (brave (search settings));
     self_timeout := brave_timeout (brave (search settings)) |}.

(** [_extract_country_code]. When the language holds a dash the split
    has a second part, so the index 1 is always in range. *)
Definition _extract_country_code (language : string) : string :=
  if PyStr.contains "-" language
  then PyStr.upper (nth 1 (PyStr.split "-" language) "")
  else "US".

Definition _convert_time_range (time_range : string) : string :=
  if String.eqb time_range "day" then "pd"
  else if String.eqb time_range "week" then "pw"
  else if String.eqb time_range "month" then "pm"
  else if String.eqb time_range "year" then "py"
  else "".

Definition normalise (result : pyval) : Py.result pyval :=
  title <- get result "title" (PStr "") ;;
  url <- get result "url" (PStr "") ;;
  snippet <- get result "description" (PStr "") ;;
  Ok (search_result title url snippet).

(** [_process_brave_results]: every entry of [web.results], in order. *)
Definition _process_brave_results (response_data : pyval) : result (list pyval) :=
  web <- get response_data "web" (PDict []) ;;
  raw <- get web "results" (PList []) ;;
  web_results <- iterate raw ;;
  for_each normalise web_results.

Definition search (settings : Settings) (self : t) (net : network)
           (query : string) (num_results : option Z)
           (language time_range : option string) : result (list pyval) :=
  if negb (opt_truthy (self_api_key self)) then Ok [] else
  let num_results :=
    match num_results with
    | None => brave_max_results (brave (search settings))
    | Some n => n
    end in
  let params :=
    [("q", PStr query); ("count", PInt num_results)]
    ++ (if opt_truthy language
        then [("country", PStr (_extract_country_code
                                  (match language with Some l => l | None => "" end)))]
        else [])
    ++ (if opt_truthy time_range
        then [("freshness", PStr (_convert_time_range
                                    (match time_range with Some r => r | None => "" end)))]
        else []) in
  catch
    (catch
       (response <- send net
          {| meth := GET;
             url := self_api_endpoint self;
             params := params;
             headers := [("Accept", "application/json");
                         ("X-Subscription-Token",
                          match self_api_key self with Some k => k | None => "" end)];
             auth := None;
             timeout := self_timeout self |} ;;
        if negb (status response =? 200)%Z then
          error_text <- text response ;;
          Raise (ValueError ("Brave Search failed with status code: "
                             ++ PyStr.of_Z (status response)))
        else
          match json response with
          | Raise _ =>
              error_text <- text response ;;
              Ok []
          | Ok response_data => _process_brave_results response_data
          end)
       is_ClientError (fun _ => Ok []))
    any_Exception (fun _ => Ok []).

End BraveSearchClient.

(* ===================================================================== *)
(** ** app/utils/duckduckgo.py *)
(* ===================================================================== *)

Module DuckDuckGoClient.
Import Config Http Py.
Import PyStr (DQ, dquote, span, is_not, strip_prefix, startswith, truthy).

Record t : Type := {
  self_search_url : string;
  self_timeout : Z
}.

Definition init (settings : Settings) : t :=
  {| self_search_url := "https://html.duckduckgo.com/html/";
     self_timeout := duckduckgo_timeout (duckduckgo (search settings)) |}.

Definition _convert_language (language : string) : string :=
  if String.eqb language "en-US" then "us-en"
  else if String.eqb language "en-GB" then "uk-en"
  else if String.eqb language "en-CA" then "ca-en"
  else if String.eqb language "fr-FR" then "fr-fr"
  else if String.eqb language "de-DE" then "de-de"
  else if String.eqb language "es-ES" then "es-es"
  else if String.eqb language "it-IT" then "it-it"
  else if String.eqb language "ja-JP" then "jp-jp"
  else "wt-wt".

Definition _convert_time_range (time_range : string) : string :=
  if String.eqb time_range "day" then "d"
  else if String.eqb time_range "week" then "w"
  else if String.eqb time_range "month" then "m"
  else if String.eqb time_range "year" then "y"
  else "".

(** *** The two patterns of [_parse_html_results]

    Every character class of the two patterns is followed by a literal
    that the class excludes, so a class can only stop where its run of
    characters ends: the matchers take each run whole. *)

(** The literal head of the result anchor pattern, up to and including
    the quote that opens the href value. *)
Definition title_open : string :=
  "<a rel=" ++ DQ ++ "nofollow" ++ DQ ++ " class=" ++ DQ ++ "result__a" ++ DQ
  ++ " href=" ++ DQ.

(** The result anchor pattern (the first [re.findall]): the literal
    head, a group of one or more characters other than the quote, the
    quote and [>], a group [([^<]+)], then [</a>]. Matched at the head of
    [s]; the value is the length of the match and the pair of groups. *)
Definition match_title (s : string) : option (nat * (string * string)) :=
  match strip_prefix title_open s with
  | None => None
  | Some r1 =>
      let (url, r2) := span (is_not dquote) r1 in
      if negb (truthy url) then None else
      match strip_prefix (DQ ++ ">") r2 with
      | None => None
      | Some r3 =>
          let (title, r4) := span (is_not "<") r3 in
          if negb (truthy title) then None else
          if startswith "</a>" r4
          then Some (String.length title_open + String.length url + 2
                     + String.length title + 4, (url, title))
          else None
      end
  end.

(** The text of a whole match of the anchor pattern. *)
Definition anchor (url title : string) : string :=
  title_open ++ url ++ DQ ++ ">" ++ title ++ "</a>".

(** The literal head of the snippet pattern, up to and including the
    quote that opens the href value. *)
Definition snippet_open : string :=
  "<a class=" ++ DQ ++ "result__snippet" ++ DQ ++ " href=" ++ DQ.

(** One round of [(?:<[^>]+>[^<]+)]: the text it takes and the rest. *)
Definition snippet_round (s : string) : option (string * string) :=
  match strip_prefix "<" s with
  | None => None
  | Some r1 =>
      let (tag, r2) := span (is_not ">") r1 in
      if negb (truthy tag) then None else
      match strip_prefix ">" r2 with
      | None => None
      | Some r3 =>
          let (txt, r4) := span (is_not "<") r3 in
          if negb (truthy txt) then None
          else Some (("<" ++ tag ++ ">" ++ txt)%string, r4)
      end
  end.

(** [(?:<[^>]+>[^<]+)*</a>]: the star is greedy, so a further round is
    tried first and [</a>] is looked for where the rounds end, backing
    off one round at a time. The value is the text of the rounds kept. *)
Fixpoint snippet_rounds (fuel : nat) (s : string) : option string :=
  let stop := if startswith "</a>" s then Some EmptyString else None in
  match fuel with
  | O => stop
  | S fuel' =>
      match snippet_round s with
      | Some (m, rest) =>
          match snippet_rounds fuel' rest with
          | Some more => Some (m ++ more)%string
          | None => stop
          end
      | None => stop
      end
  end.

(** The snippet pattern (the second [re.findall]): the literal head, one
    or more characters other than the quote, the quote and [>], the
    group (a run [[^<]+] and then any number of rounds [<[^>]+>[^<]+]),
    then [</a>]. *)
Definition match_snippet (s : string) : option (nat * string) :=
  match strip_prefix snippet_open s with
  | None => None
  | Some r1 =>
      let (href, r2) := span (is_not dquote) r1 in
      if negb (truthy href) then None else
      match strip_prefix (DQ ++ ">") r2 with
      | None => None
      | Some r3 =>
          let (head, r4) := span (is_not "<") r3 in
          if negb (truthy head) then None else
          match snippet_rounds (String.length r4) r4 with
          | Some more =>
              Some (String.length snippet_open + String.length href + 2
                    + String.length head + String.length more + 4,
                    (head ++ more)%string)
          | None => None
          end
      end
  end.

(** [<[^>]+>] *)
Definition match_tag (s : string) : option nat :=
  match strip_prefix "<" s with
  | None => None
  | Some r1 =>
      let (tag, r2) := span (is_not ">") r1 in
      if negb (truthy tag) then None else
      match strip_prefix ">" r2 with
      | None => None
      | Some _ => Some (String.length tag + 2)
      end
  end.

Definition entities : list (string * string) :=
  [("&quot;", DQ); ("&amp;", "&"); ("&lt;", "<"); ("&gt;", ">"); ("&#x27;", "'")].

Definition replace_entities (s : string) : string :=
  fold_left (fun acc ec => PyStr.replace (fst ec) (snd ec) acc) entities s.

(** The body of the loop over [enumerate(title_matches)]: the record
    appended for the anchor [(url, title)] at index [i]. *)
Definition record_at (i : nat) (url title : string) (snippet_matches : list string)
  : pyval :=
  let snippet :=
    match nth_error snippet_matches i with
    | Some m => PyStr.sub match_tag " " m
    | None => EmptyString
    end in
  let title := PyStr.strip title in
  let snippet := PyStr.strip snippet in
  search_result (PStr (replace_entities title)) (PStr url)
                (PStr (replace_entities snippet)).

(** The loop, from index [i] on. *)
Fixpoint process_results (i : nat) (title_matches : list (string * string))
         (snippet_matches : list string) : list pyval :=
  match title_matches with
  | [] => []
  | (url, title) :: rest =>
      record_at i url title snippet_matches
      :: process_results (S i) rest snippet_matches
  end.

Definition title_matches (html_content : string) : list (string * string) :=
  PyStr.findall match_title html_content.

Definition snippet_matches (html_content : string) : list string :=
  PyStr.findall match_snippet html_content.

(** [_parse_html_results]. Nothing in its [try] block raises on a
    string, so its handler is never entered. *)
Definition _parse_html_results (html_content : string) : list pyval :=
  process_results 0 (title_matches html_content) (snippet_matches html_content).

Definition search (settings : Settings) (self : t) (net : network)
           (query : string) (num_results : option Z)
           (language time_range : option string) : result (list pyval) :=
  let num_results :=
    match num_results with
    | None => duckduckgo_max_results (duckduckgo (search settings))
    | Some n => n
    end in
  let params :=
    [("q", PStr query);
     ("kl", PStr (if opt_truthy language
                  then _convert_language
                         (match language with Some l => l | None => "" end)
                  else "wt-wt"))]
    ++ (if opt_truthy time_range
        then [("df", PStr (_convert_time_range
                             (match time_range with Some r => r | None => "" end)))]
        else []) in
  catch
    (catch
       (response <- send net
          {| meth := POST;
             url := self_search_url self;
             params := params;
             headers :=
               [("User-Agent",
                 "Mozilla/5.0 (Windows NT 10.0; Win64; x64) AppleWebKit/537.36 (KHTML, like Gecko) Chrome/91.0.4472.124 Safari/537.36");
                ("Accept", "text/html,application/xhtml+xml,application/xml")];
             auth := None;
             timeout := self_timeout self |} ;;
        if negb (status response =? 200)%Z then
          error_text <- text response ;;
          Raise (ValueError ("DuckDuckGo search failed with status code: "
                             ++ PyStr.of_Z (status response)))
        else
          html_content <- text response ;;
          let results := _parse_html_results html_content in
          Ok (slice_to results num_results))
       is_ClientError (fun _ => Ok []))
    any_Exception (fun _ => Ok []).

End DuckDuckGoClient.


(* ===================================================================== *)
(** ** app/utils/search_client.py *)
(* ===================================================================== *)

Module SearchClientFactory.
Import Config.

(** [Union[SearXNGClient, DuckDuckGoClient, BraveSearchClient]] *)
Inductive client : Type :=
| SearXNG (c : SearXNGClient.t)
| DuckDuckGo (c : DuckDuckGoClient.t)
| Brave (c : BraveSearchClient.t).

Definition get_client (settings : Settings) : Py.result client :=
  let provider := provider (search settings) in
  if provider_is provider SEARXNG then
    self <- SearXNGClient.init settings ;; Py.Ok (SearXNG self)
  else if provider_is provider DUCKDUCKGO then
    Py.Ok (DuckDuckGo (DuckDuckGoClient.init settings))
  else if provider_is provider BRAVE then
    Py.Ok (Brave (BraveSearchClient.init settings))
  else
    self <- SearXNGClient.init settings ;; Py.Ok (SearXNG self).

(** [search_client.search(...)]: the method of the client's class. *)
Definition client_search (settings : Settings) (c : client) (net : Http.network)
           (query : string) (num_results : option Z)
           (language time_range : option string) : Py.result (list Py.pyval) :=
  match c with
  | SearXNG self =>
      SearXNGClient.search settings self net query num_results language time_range
  | DuckDuckGo self =>
      DuckDuckGoClient.search settings self net query num_results language time_range
  | Brave self =>
      BraveSearchClient.search settings self net query num_results language time_range
  end.

End SearchClientFactory.

(* ===================================================================== *)
(** ** What a backend may do *)
(* ===================================================================== *)

Module Backend.
Import Http Py SearchClientFactory.

(** The endpoint cannot be reached: sending any request raises. *)
Definition unreachable (net : network) : Prop :=
  forall rq, exists e, net rq = Failed e.

(** The backend answers every request with a response that satisfies [P]. *)
Definition answers (net : network) (P : response -> Prop) : Prop :=
  forall rq, exists r, net rq = Responded r /\ P r.

(** A response the adapter cannot read: for the two JSON adapters
    [response.json()] raises; for the scraper [response.text()] raises or
    the page holds no result anchor. *)
Definition unparseable (c : client) (r : response) : Prop :=
  match c with
  | SearXNG _ | Brave _ => exists e, json r = Raise e
  | DuckDuckGo _ =>
      (exists e, text r = Raise e)
      \/ (exists html, text r = Ok html /\ DuckDuckGoClient.title_matches html = [])
  end.

(** The backend gives the response [r] to every request. *)
Definition always (net : network) (r : response) : Prop :=
  forall rq, net rq = Responded r.

End Backend.

(* ===================================================================== *)
(** ** app/api/search.py *)
(* ===================================================================== *)

Module SearchApi.
Import Config Py.

Inductive OutputFormat : Type := json | markdown.

(** What the endpoint hands to the framework: a string, a JSON object
    given by its items, or an [HTTPException]. *)
Inductive reply : Type :=
| Text (s : string)
| Json (items : list (string * pyval))
| HTTPException (status_code : Z) (detail : string).

(** [str(v)] of the values a result field can hold as far as the
    sources' messages need it: a string is itself. *)
Definition field_text (v : pyval) (repr : pyval -> string) : string :=
  match v with
  | PStr s => s
  | _ => repr v
  end.

Section Endpoint.
(** [str()] of a value that is not a string, and of an exception. *)
Variable repr : pyval -> string.
Variable exn_text : exn -> string.

(** One round of the loop of [format_results_as_markdown]; [i] counts
    from 1. *)
Definition format_result (i : nat) (result : pyval) : Py.result string :=
  title <- get result "title" (PStr "No Title") ;;
  url <- get result "url" (PStr "No URL") ;;
  snippet <- get result "snippet" (PStr "No description available.") ;;
  Ok ("## " ++ PyStr.of_Z (Z.of_nat i) ++ ". " ++ field_text title repr
      ++ PyStr.LF ++ PyStr.LF
      ++ "**URL**: " ++ field_text url repr ++ PyStr.LF ++ PyStr.LF
      ++ field_text snippet repr ++ PyStr.LF ++ PyStr.LF
      ++ "---" ++ PyStr.LF ++ PyStr.LF)%string.

Fixpoint format_from (i : nat) (results : list pyval) : Py.result string :=
  match results with
  | [] => Ok EmptyString
  | r :: rest =>
      a <- format_result i r ;;
      b <- format_from (S i) rest ;;
      Ok (a ++ b)%string
  end.

Definition format_results_as_markdown (results : list pyval) : Py.result string :=
  match results with
  | [] => Ok "No results found."
  | _ =>
      body <- format_from 1 results ;;
      Ok ("# Search Results" ++ PyStr.LF ++ PyStr.LF ++ body)%string
  end.

(** The handler of GET /search, after the framework has validated the
    query parameters. *)
Definition search (settings : Settings) (net : Http.network)
           (q : string) (format : OutputFormat) (max_results : Z)
           (language : string) (time_range : option string) : reply :=
  let body :=
    search_client <- SearchClientFactory.get_client settings ;;
    results <- SearchClientFactory.client_search settings search_client net q
                 (Some max_results) (Some language) time_range ;;
    match results with
    | [] =>
        match format with
        | markdown => Ok (Text "No search results found.")
        | json => Ok (Json [("results", PList []); ("query", PStr q)])
        end
    | _ =>
        match format with
        | markdown =>
            md <- format_results_as_markdown results ;;
            Ok (Text md)
        | json =>
            Ok (Json [("results", PList results);
                      ("query", PStr q);
                      ("provider",
                       PStr (provider_str (provider (Config.search settings))))])
        end
    end in
  match body with
  | Ok r => r
  | Raise e =>
      HTTPException 500 ("Search error for query '" ++ q ++ "': " ++ exn_text e)
  end.

End Endpoint.

End SearchApi.

(* ===================================================================== *)
(** ** The parse tree (BeautifulSoup) *)
(* ===================================================================== *)

Module Soup.

(** The classes of strings the parser makes besides the plain
    [NavigableString] and the [Comment]: the string of a CDATA section, of
    a doctype, a declaration or a processing instruction, and the strings
    inside [rt], [rp], [style], [script] and [template]. *)
Inductive string_class : Type :=
| CData
| Doctype
| Declaration
| ProcessingInstruction
| RubyTextString
| RubyParenthesisString
| Stylesheet
| Script
| TemplateString.

(** A page element: a plain string, a comment, a tag with its attributes
    and contents, or a string of another class. The [BeautifulSoup] object
    is the tag [[document]]. *)
Inductive node : Type :=
| Text (s : string)
| Comment (s : string)
| Tag (name : string) (attrs : list (string * string)) (contents : list node)
| Special (class : string_class) (s : string).

(** [tag.descendants]: every element below the tag, in document order. *)
Fixpoint descendants (n : node) : list node :=
  match n with
  | Tag _ _ cs =>
      (fix go (l : list node) : list node :=
         match l with
         | [] => []
         | c :: r => c :: descendants c ++ go r
         end) cs
  | _ => []
  end.

Definition is_tag_named (names : list string) (n : node) : bool :=
  match n with
  | Tag nm _ _ => existsb (String.eqb nm) names
  | _ => false
  end.

(** [tag.find_all(names)] *)
Definition find_all (names : list string) (n : node) : list node :=
  filter (is_tag_named names) (descendants n).

(** [tag.find(name)]: the first of [find_all], or [None]. *)
Definition find (name : string) (n : node) : option node :=
  hd_error (find_all [name] n).

Definition class_eqb (a b : string_class) : bool :=
  match a, b with
  | CData, CData | Doctype, Doctype | Declaration, Declaration
  | ProcessingInstruction, ProcessingInstruction
  | RubyTextString, RubyTextString
  | RubyParenthesisString, RubyParenthesisString
  | Stylesheet, Stylesheet | Script, Script
  | TemplateString, TemplateString => true
  | _, _ => false
  end.

(** The builder's [string_containers]: the class of the strings inside a
    tag of the name, for the five names that have one. *)
Definition string_container (name : string) : option string_class :=
  if String.eqb name "rt" then Some RubyTextString
  else if String.eqb name "rp" then Some RubyParenthesisString
  else if String.eqb name "style" then Some Stylesheet
  else if String.eqb name "script" then Some Script
  else if String.eqb name "template" then Some TemplateString
  else None.

(** What an element gives to a text made of the strings of the
    [interesting] class: of plain strings and CDATA when it is [None]. *)
Definition own_text (interesting : option string_class) (n : node) : string :=
  match interesting, n with
  | None, Text s => s
  | None, Special CData s => s
  | Some c, Special c' s => if class_eqb c c' then s else EmptyString
  | _, _ => EmptyString
  end.

(** [tag.get_text()]: the strings below the tag whose class is among the
    tag's [interesting_string_types], joined. These are the plain strings
    and the CDATA, which leaves out the comments and the strings inside
    [rt], [rp], [style], [script] and [template]; for a tag of one of
    these five names they are the strings of its own class. *)
Definition get_text (n : node) : string :=
  match n with
  | Tag name _ _ =>
      String.concat EmptyString
                    (map (own_text (string_container name)) (descendants n))
  | _ => own_text None n
  end.

(** [tag.string]: the string of a tag whose contents are one string, or
    one tag that has a [.string]; [None] otherwise. *)
Fixpoint tag_string (n : node) : option string :=
  match n with
  | Text s => Some s
  | Comment s => Some s
  | Special _ s => Some s
  | Tag _ _ [c] => tag_string c
  | Tag _ _ _ => None
  end.

Fixpoint attrs_get (k : string) (attrs : list (string * string)) : option string :=
  match attrs with
  | [] => None
  | (k', v) :: r => if String.eqb k k' then Some v else attrs_get k r
  end.

Definition opt_string_eqb (a b : option string) : bool :=
  match a, b with
  | Some x, Some y => String.eqb x y
  | None, None => true
  | _, _ => false
  end.

(** Equality of two attribute dicts: every key of either has the same
    value in both. *)
Definition attrs_eqb (a b : list (string * string)) : bool :=
  forallb (fun kv => opt_string_eqb (attrs_get (fst kv) a) (attrs_get (fst kv) b))
          (a ++ b).

Definition string_content (n : node) : option string :=
  match n with
  | Text s | Comment s | Special _ s => Some s
  | Tag _ _ _ => None
  end.

(** [a == b]: two strings are equal as [str]; two tags are equal when
    they have the same name, attributes and contents, recursively. *)
Fixpoint node_eqb (a b : node) : bool :=
  match a, b with
  | Tag n1 a1 c1, Tag n2 a2 c2 =>
      String.eqb n1 n2 && attrs_eqb a1 a2
      && (fix all2 (l1 l2 : list node) : bool :=
            match l1, l2 with
            | [], [] => true
            | x :: xs, y :: ys => node_eqb x y && all2 xs ys
            | _, _ => false
            end) c1 c2
  | Tag _ _ _, _ | _, Tag _ _ _ => false
  | _, _ =>
      match string_content a, string_content b with
      | Some s, Some t => String.eqb s t
      | _, _ => false
      end
  end.

End Soup.

(* ===================================================================== *)
(** ** app/utils/html_parser.py *)
(* ===================================================================== *)

Module HTMLCleaner.
Import Soup Py.

(** [extract_title]. A tag is always truthy, so [if soup.title] asks
    whether there is a title; [None.strip()] is the [AttributeError]. *)
Definition extract_title (soup : node) : result string :=
  match find "title" soup with
  | Some title =>
      match tag_string title with
      | Some s => Ok (PyStr.strip s)
      | None => Raise (AttributeError "'NoneType' object has no attribute 'strip'")
      end
  | None =>
      match find "h1" soup with
      | Some h1 => Ok (PyStr.strip (get_text h1))
      | None => Ok "No title found"
      end
  end.

(** [[c.get_text().strip() for c in row.find_all(names)]] *)
Definition cell_texts (names : list string) (row : node) : list string :=
  map (fun c => PyStr.strip (get_text c)) (find_all names row).

(** The header cells of a table: the [th] cells of its [thead] when it
    has one, else the cells of its first row. *)
Definition headers (table : node) : list string :=
  match find "thead" table with
  | Some header_row => cell_texts ["th"] header_row
  | None =>
      match find "tr" table with
      | Some first_row => cell_texts ["th"; "td"] first_row
      | None => []
      end
  end.

Definition opt_node_eqb (a : node) (b : option node) : bool :=
  match b with
  | Some b' => node_eqb a b'
  | None => false
  end.

Definition is_None {A} (o : option A) : bool :=
  match o with None => true | Some _ => false end.

Definition nonempty {A} (l : list A) : bool :=
  match l with [] => false | _ => true end.

(** The test before [continue] in the loop over the rows. *)
Definition skipped (table tr : node) : bool :=
  let header_row := find "thead" table in
  opt_node_eqb tr header_row
  || (is_None header_row
      && opt_node_eqb tr (find "tr" table)
      && nonempty (find_all ["th"] tr)).

Definition line (cells : list string) : string :=
  ("| " ++ PyStr.join " | " cells ++ " |")%string.

(** The body of the loop over the rows: the line a row adds, if any. *)
Definition row_lines (table tr : node) : list string :=
  if skipped table tr then []
  else
    let row_data := cell_texts ["td"; "th"] tr in
    if nonempty row_data then [line row_data] else [].

(** The list [markdown_table] built for one table. *)
Definition markdown_table (table : node) : list string :=
  let headers := headers table in
  (if nonempty headers
   then [line headers; line (map (fun _ => "---") headers)]
   else [])
  ++ flat_map (row_lines table) (find_all ["tr"] table).

Section Tables.
(** [BeautifulSoup(markup, 'html.parser')]: the tree, or the exception
    of a markup the parser rejects. *)
Variable html_parser : string -> result node.

(** What one table is replaced with: the parsed [<div>] of its lines
    when [markdown_table] is not empty; nothing otherwise, and then the
    table stays. *)
Definition replacement (table : node) : result (option node) :=
  match markdown_table table with
  | [] => Ok None
  | lines =>
      bind (html_parser ("<div>" ++ PyStr.join PyStr.LF lines ++ "</div>"))
           (fun div => Ok (Some div))
  end.

(** The loop over [soup.find_all('table')] as a pass over the tree.
    The list of tables is taken before any replacement, in document
    order: a table is handled before the tables inside it. A table
    inside one that was replaced is no longer part of the tree, but it
    is still in the list: its lines are parsed as well, and only what
    the parser raises for them shows. *)
Fixpoint convert_node (n : node) : result node :=
  match n with
  | Tag name attrs cs =>
      bind (if String.eqb name "table" then replacement n else Ok None)
           (fun replaced =>
              bind ((fix go (l : list node) : result (list node) :=
                       match l with
                       | [] => Ok []
                       | c :: r =>
                           bind (convert_node c)
                                (fun c' => bind (go r) (fun r' => Ok (c' :: r')))
                       end) cs)
                   (fun cs' =>
                      match replaced with
                      | Some div => Ok div
                      | None => Ok (Tag name attrs cs')
                      end))
  | _ => Ok n
  end.

(** [_convert_tables] on a tag, before [str(soup)]. *)
Definition _convert_tables (content : node) : result node :=
  match content with
  | Tag name attrs cs =>
      bind (for_each convert_node cs) (fun cs' => Ok (Tag name attrs cs'))
  | _ => Ok content
  end.
End Tables.

End HTMLCleaner.

(* ===================================================================== *)
(** ** app/utils/web_fetcher.py *)
(* ===================================================================== *)

Module WebFetcher.
Import Http Py.

Definition MAX_CONTENT_SIZE : Z := 10 * 1024 * 1024.

Definition TEXT_CONTENT_TYPES : list string :=
  ["text/html"; "text/plain"; "application/json"; "application/xml";
   "text/xml"; "application/javascript"; "text/css"; "text/markdown";
   "application/x-yaml"; "text/yaml"].

Definition browser_headers : list (string * string) :=
  [("User-Agent",
    "Mozilla/5.0 (Windows NT 10.0; Win64; x64) AppleWebKit/537.36 (KHTML, like Gecko) Chrome/120.0.0.0 Safari/537.36");
   ("Accept",
    "text/html,application/xhtml+xml,application/xml;q=0.9,image/webp,*/*;q=0.8");
   ("Accept-Language", "en-US,en;q=0.5");
   ("Accept-Encoding", "gzip, deflate, br");
   ("DNT", "1");
   ("Connection", "keep-alive");
   ("Upgrade-Insecure-Requests", "1")].

(** [response.headers.get(name)]: header names compare without case. *)
Fixpoint header_get (name : string) (hs : list (string * string)) : option string :=
  match hs with
  | [] => None
  | (k, v) :: r =>
      if String.eqb (PyStr.lower k) (PyStr.lower name) then Some v
      else header_get name r
  end.

Definition digit (c : ascii) : option Z :=
  let n := nat_of_ascii c in
  if ((48 <=? n) && (n <=? 57))%nat then Some (Z.of_nat (n - 48)) else None.

(** The digits of an [int] literal: single underscores may separate
    digits. [after_digit] says whether the previous character was one. *)
Fixpoint digits (s : string) (acc : Z) (after_digit : bool) : option Z :=
  match s with
  | EmptyString => if after_digit then Some acc else None
  | String c r =>
      match digit c with
      | Some d => digits r (10 * acc + d)%Z true
      | None =>
          if Ascii.eqb c "_" && after_digit then digits r acc false else None
      end
  end.

(** The four separators of the codes 28 to 31: spaces for [str.strip],
    but not for [int]. *)
Definition is_separator (c : ascii) : bool :=
  ((28 <=? nat_of_ascii c) && (nat_of_ascii c <=? 31))%nat.

(** [int(s)] for a string: [None] stands for the [ValueError]. *)
Definition int (s : string) : option Z :=
  if negb (PyStr.all_chars (fun c => negb (is_separator c)) s) then None
  else
    let s := PyStr.strip s in
    match PyStr.strip_prefix "-" s with
    | Some r => option_map Z.opp (digits r 0 false)
    | None =>
        match PyStr.strip_prefix "+" s with
        | Some r => digits r 0 false
        | None => digits s 0 false
        end
    end.

(** What a call does besides returning: reading the body of the
    response, and the log records, each with its level and the head of
    its message. *)
Inductive event : Type :=
| ReadBody
| Warning (head : string)
| Error (head : string).

(** The head of the message of the handler that catches [e]: the inner
    handlers in their order, then [except Exception]. *)
Definition handler_message (e : exn) : string :=
  match e with
  | ClientError ClientResponseError | ClientError ContentTypeError =>
      "Response error for "
  | ClientError ClientConnectorError => "Connection error for "
  | ClientError ClientPayloadError => "Payload error for "
  | ClientError ClientConnectionError | ClientError ServerTimeoutError =>
      "Connection error for "
  | _ => "Error fetching URL "
  end.

(** The GET request of [fetch_url]. *)
Definition request_for (url : string) (timeout : Z) : request :=
  {| meth := GET; url := url; params := []; headers := browser_headers;
     auth := None; timeout := timeout |}.

Section Fetch.
(** [urlparse(url)], as the scheme and the netloc, or the exception
    it raises. *)
Variable urlparse : string -> result (string * string).

Definition fetch_url (net : network) (url : string) (timeout : Z)
  : result (option (string * string)) * list event :=
  match urlparse url with
  | Raise e => (Raise e, [])
  | Ok (scheme, netloc) =>
      if negb (PyStr.truthy scheme) || negb (PyStr.truthy netloc)
      then (Raise (ValueError "Invalid URL provided"), [])
      else
        match net (request_for url timeout) with
        | Failed e => (Ok None, [Error (handler_message e)])
        | Responded response =>
            if negb (status response =? 200)%Z
            then (Ok None, [Warning "Failed to fetch "])
            else
              let content_type :=
                PyStr.lower
                  (hd EmptyString
                      (PyStr.split ";"
                         (match header_get "Content-Type" (resp_headers response) with
                          | Some v => v
                          | None => EmptyString
                          end))) in
              let content_length :=
                header_get "Content-Length" (resp_headers response) in
              let too_large : option bool :=
                match content_length with
                | Some cl =>
                    if PyStr.truthy cl
                    then option_map (fun n => (n >? MAX_CONTENT_SIZE)%Z) (int cl)
                    else Some false
                | None => Some false
                end in
              match too_large with
              | None =>
                  (Ok None, [Error (handler_message (ValueError "invalid literal for int()"))])
              | Some true =>
                  (Ok (Some
                         (("Content too large to process (size: "
                           ++ match content_length with Some cl => cl | None => "" end
                           ++ " bytes, max: " ++ PyStr.of_Z MAX_CONTENT_SIZE
                           ++ " bytes)")%string,
                          "text/plain")),
                   [Warning "Content too large: "])
              | Some false =>
                  let is_text :=
                    existsb (fun text_type => PyStr.contains text_type content_type)
                            TEXT_CONTENT_TYPES in
                  if is_text then
                    match text response with
                    | Ok content => (Ok (Some (content, content_type)), [ReadBody])
                    | Raise UnicodeDecodeError =>
                        (Ok (Some
                               (("Failed to decode content as text (content-type: "
                                 ++ content_type ++ ")")%string,
                                "text/plain")),
                         [ReadBody; Warning "Unicode decode error for "])
                    | Raise e => (Ok None, [ReadBody; Error (handler_message e)])
                    end
                  else
                    (Ok (Some
                           (("Binary content type detected: " ++ content_type
                             ++ ". This content type is not supported for processing.")%string,
                            "text/plain")),
                     [])
              end
        end
  end.
End Fetch.

End WebFetcher.

(* ===================================================================== *)
(** ** app/api/read.py *)
(* ===================================================================== *)

Module ReadApi.
Import Py.

(** The dict with the keys title, url and content. *)
Definition document (title url content : string) : pyval :=
  PDict [("title", PStr title); ("url", PStr url); ("content", PStr content)].

(** The title of a plain text: its first line that is not blank,
    stripped. *)
Fixpoint first_line_title (lines : list string) (title : string) : string :=
  match lines with
  | [] => title
  | line :: rest =>
      if PyStr.truthy (PyStr.strip line) then PyStr.strip line
      else first_line_title rest title
  end.

Definition is_JSONDecodeError (e : exn) : bool :=
  match e with JSONDecodeError => true | _ => false end.

(** The fenced block around a pretty-printed document. *)
Definition fenced (formatted_json : string) : string :=
  ("```json" ++ PyStr.LF ++ formatted_json ++ PyStr.LF ++ "```")%string.

Section Extract.
(** [json.loads], [json.dumps(_, indent=2)], and [str()] of a value
    that is not a string. *)
Variable json_loads : string -> result pyval.
Variable json_dumps : pyval -> string.
Variable repr : pyval -> string.

(** [f"{v}"] *)
Definition format_value (v : pyval) : string :=
  match v with
  | PStr s => s
  | _ => repr v
  end.

(** The loop over the fields title, name, id and key: the first one
    the object has gives the title. *)
Fixpoint json_title (json_data : pyval) (fields : list string) (title : string)
  : string :=
  match fields with
  | [] => title
  | field :: rest =>
      match json_data with
      | PDict items =>
          match items_get field items with
          | Some v => ("JSON: " ++ format_value v)%string
          | None => json_title json_data rest title
          end
      | _ => json_title json_data rest title
      end
  end.

Definition extract_text_content (content content_type url : string)
  : result pyval :=
  if PyStr.contains "text/plain" content_type then
    let lines := PyStr.split (ascii_of_nat 10) content in
    Ok (document (first_line_title lines "Text Document") url content)
  else if PyStr.contains "application/json" content_type then
    catch
      (json_data <- json_loads content ;;
       let formatted_json := json_dumps json_data in
       let title := json_title json_data ["title"; "name"; "id"; "key"]
                               "JSON Document" in
       Ok (document title url
             (fenced formatted_json)))
      is_JSONDecodeError
      (fun _ => Ok (document "Invalid JSON Document" url content))
  else
    Ok (document ("Document (" ++ content_type ++ ")") url
          ("Content type '" ++ content_type
           ++ "' not fully supported. Raw content:" ++ PyStr.LF ++ PyStr.LF
           ++ "```" ++ PyStr.LF ++ PyStr.take 5000 content ++ PyStr.LF
           ++ "```" ++ PyStr.LF ++ PyStr.LF ++ "(Content may be truncated)")).
End Extract.

End ReadApi.

(* ===================================================================== *)
(** ** Concrete configurations and backends *)

Module Examples.
Import Config Http Py.

Definition searxng_config : SearXNGConfig :=
  {| instance_url := "https://searx.be"; auth_username := None;
     auth_password := None; searxng_timeout := 10; searxng_max_results := 10 |}.

(** The settings of a process started with [provider] as its provider and
    [key] as its Brave credential, the rest at the defaults. *)
Definition settings_with (p : provider_setting) (key : option string) : Settings :=
  {| search :=
       {| provider := p;
          search_searxng := searxng_config;
          brave := {| api_key := key; brave_timeout := 10; brave_max_results := 10 |};
          duckduckgo := {| duckduckgo_timeout := 10; duckduckgo_max_results := 10 |} |};
     searxng := searxng_config |}.

(** A backend that answers every request with status 200 and the given
    body, as text and as decoded JSON. *)
Definition respond (body : Py.result string) (decoded : Py.result pyval) : network :=
  fun _ => Responded {| status := 200; resp_headers := [];
                        text := body; json := decoded |}.

(** A Brave response that carries two results. *)
Definition two_results : pyval :=
  PDict [("web",
          PDict [("results",
                  PList [PDict [("title", PStr "one"); ("url", PStr "https://1.example/");
                                ("description", PStr "first")];
                         PDict [("title", PStr "two"); ("url", PStr "https://2.example/");
                                ("description", PStr "second")]])])].

Definition brave_settings : Settings := settings_with (Raw "brave") (Some "token").

(** The settings of a process whose provider is misspelt and whose
    SearXNG user name holds a colon. *)
Definition colon_settings : Settings :=
  {| search := search (settings_with (Raw "duckduckg0") None);
     searxng :=
       {| instance_url := "https://searx.be"; auth_username := Some "user:name";
          auth_password := Some "secret"; searxng_timeout := 10;
          searxng_max_results := 10 |} |}.

(** The SearXNG client of these settings: no credentials. *)
Definition searxng_client : SearXNGClient.t :=
  {| SearXNGClient.self_instance_url := "https://searx.be";
     SearXNGClient.self_auth := None |}.

Definition brave_two : network := respond (Ok "{...}") (Ok two_results).

(** A DuckDuckGo page with two result anchors and one snippet span. *)
Definition page : string :=
  let DQ := PyStr.DQ in
  ("<div>" ++ DuckDuckGoClient.title_open ++ "https://a.example/" ++ DQ
   ++ "> First &amp; best </a>"
   ++ DuckDuckGoClient.snippet_open ++ "https://a.example/" ++ DQ
   ++ ">some <b>bold</b> text</a>"
   ++ DuckDuckGoClient.title_open ++ "https://b.example/" ++ DQ
   ++ ">Second</a></div>")%string.

(** A DuckDuckGo page without any result anchor. *)
Definition empty_page : string := "<html><body>No results.</body></html>".

Definition duckduckgo_settings : Settings := settings_with (Member DUCKDUCKGO) None.

(** A server that announces twenty MiB of video. *)
Definition large_video : network :=
  fun _ => Responded
             {| status := 200;
                resp_headers := [("Content-Type", "video/mp4");
                                 ("content-length", "20971520")];
                text := Raise UnicodeDecodeError;
                json := Raise JSONDecodeError |}.

Definition parse_fixed (url : string) : result (string * string) :=
  Ok ("https", "media.example").

(** The document of the specification's example, with its quotes. *)
Definition title_X : string :=
  let DQ := PyStr.DQ in
  ("{" ++ DQ ++ "title" ++ DQ ++ ":" ++ DQ ++ "X" ++ DQ ++ "}")%string.

Definition title_X_pretty : string :=
  let DQ := PyStr.DQ in
  ("{" ++ PyStr.LF ++ "  " ++ DQ ++ "title" ++ DQ ++ ": " ++ DQ ++ "X" ++ DQ
   ++ PyStr.LF ++ "}")%string.

(** A decoder and a printer that know this one document. *)
Definition loads_X (s : string) : result pyval :=
  if String.eqb s title_X then Ok (PDict [("title", PStr "X")])
  else Raise JSONDecodeError.

Definition dumps_X (v : pyval) : string := title_X_pretty.

(** A number of five thousand digits. *)
Definition long_number : string :=
  String.concat EmptyString (List.repeat "1111111111" 500).

(** A decoder with the limit of the interpreter on the digits of a
    number: a number of more than 4300 digits is refused with a
    [ValueError], and nothing else is known to it. *)
Definition loads_limited (s : string) : result pyval :=
  if PyStr.all_chars (fun c => match WebFetcher.digit c with
                                | Some _ => true
                                | None => false
                                end) s
     && (4300 <? String.length s)%nat
  then Raise (ValueError "Exceeds the limit (4300 digits) for integer string conversion")
  else Raise JSONDecodeError.

End Examples.

(** ** Concrete documents and tables *)

Module HtmlExamples.
Import Soup.

Definition td (s : string) : node := Tag "td" [] [Text s].
Definition th (s : string) : node := Tag "th" [] [Text s].
Definition tr (cells : list node) : node := Tag "tr" [] cells.

(** A table without a [thead] whose first row holds [td] cells only. *)
Definition first_row : node := tr [td "A"; td "B"].
Definition data_table : node := Tag "table" [] [first_row; tr [td "1"; td "2"]].

(** A table without a [thead] whose first row holds [th] cells. *)
Definition th_table : node :=
  Tag "table" [] [tr [th "A"; th "B"]; tr [td "1"; td "2"]].

(** A table with a caption and an empty [thead], and no row. *)
Definition rowless_table : node :=
  Tag "table" [] [Tag "caption" [] [Text "Totals"]; Tag "thead" [] []].

(** A table whose [thead] has no [th] cell, with rows. *)
Definition headless_table : node :=
  Tag "table" []
      [Tag "thead" [] [tr [td "A"]]; Tag "tbody" [] [tr [td "1"]]].

(** A table without a [thead] whose first row has no cell. *)
Definition cellless_row_table : node :=
  Tag "table" [] [tr []; tr [td "1"]].

(** A document with an empty title and a heading. *)
Definition empty_title_page : node :=
  Tag "[document]" []
      [Tag "head" [] [Tag "title" [] []];
       Tag "body" [] [Tag "h1" [] [Text "Hi"]]].

(** A document with a blank title, of spaces and a no-break space, and
    a heading. *)
Definition blank_title_page : node :=
  Tag "[document]" []
      [Tag "head" [] [Tag "title" [] [Text (String " " (String (ascii_of_nat 160) " "))]];
       Tag "body" [] [Tag "h1" [] [Text "Hi"]]].

(** A document with a title and a heading. *)
Definition titled_page : node :=
  Tag "[document]" []
      [Tag "head" [] [Tag "title" [] [Text " Home "]];
       Tag "body" [] [Tag "h1" [] [Text "Hi"]]].

End HtmlExamples.

(* ===================================================================== *)
(** ** Vocabulary for the fetcher's outcomes *)
(* ===================================================================== *)

Module FetchOutcome.
Import Http Py WebFetcher.

(** The media type [fetch_url] reads off a response: the value of
    Content-Type up to its first semicolon, in lower case. *)
Definition content_type_of (response : response) : string :=
  PyStr.lower
    (hd EmptyString
        (PyStr.split ";"
           (match header_get "Content-Type" (resp_headers response) with
            | Some v => v
            | None => EmptyString
            end))).

(** The test [any(text_type in content_type for text_type in
    TEXT_CONTENT_TYPES)]. *)
Definition is_text (content_type : string) : bool :=
  existsb (fun text_type => PyStr.contains text_type content_type)
          TEXT_CONTENT_TYPES.

(** A log record, of either level. *)
Definition is_log (e : event) : bool :=
  match e with
  | Warning _ | Error _ => true
  | ReadBody => false
  end.

End FetchOutcome.

(* ===================================================================== *)
(** ** Vocabulary for the adapters' results and requests *)
(* ===================================================================== *)

Module Results.
Import Py.

(** A normalised result: the dict of the keys title, url and snippet. *)
Definition is_search_result (v : pyval) : Prop :=
  exists title url snippet, v = search_result title url snippet.

Definition is_dict (v : pyval) : bool :=
  match v with
  | PDict _ => true
  | _ => false
  end.

(** [entry.get(key, "")] on an entry that is a dict. *)
Definition field (entry : pyval) (key : string) : pyval :=
  match entry with
  | PDict items =>
      match items_get key items with
      | Some v => v
      | None => PStr EmptyString
      end
  | _ => PStr EmptyString
  end.

(** The record the SearXNG adapter makes of an entry that is a dict. *)
Definition searxng_record (entry : pyval) : pyval :=
  search_result (field entry "title") (field entry "url") (field entry "content").

(** The record the Brave adapter makes of an entry that is a dict. *)
Definition brave_record (entry : pyval) : pyval :=
  search_result (field entry "title") (field entry "url")
                (field entry "description").

End Results.

Module Replies.

(** The reply is an [HTTPException]. *)
Definition is_error (r : SearchApi.reply) : bool :=
  match r with
  | SearchApi.HTTPException _ _ => true
  | _ => false
  end.

End Replies.

Module TableRows.
Import Soup HTMLCleaner.

(** The line a row gives when it is not skipped. *)
Definition body_line (tr : node) : list string :=
  let row_data := cell_texts ["td"; "th"] tr in
  if nonempty row_data then [line row_data] else [].

End TableRows.

(* ===================================================================== *)
(** ** More of [re]: replacement by a function, lazy bodies *)
(* ===================================================================== *)

Module PyRe.
Import PyStr.

(** [re.sub(pattern, function, s)]: each match, found as by [findall], is
    replaced by what the function makes of its value. *)
Fixpoint sub_with_go {A} (match_at : string -> option (nat * A))
         (repl : A -> string) (s : string) (skip : nat) : string :=
  match s with
  | EmptyString => EmptyString
  | String c r =>
      match skip with
      | S k => sub_with_go match_at repl r k
      | O =>
          match match_at s with
          | Some (n, a) => repl a ++ sub_with_go match_at repl r (n - 1)
          | None => String c (sub_with_go match_at repl r 0)
          end
      end
  end.

Definition sub_with {A} (match_at : string -> option (nat * A))
           (repl : A -> string) (s : string) : string :=
  sub_with_go match_at repl s 0.

(** The text before the first occurrence of a literal, and the text
    after it: what a lazy [(.*?)] followed by the literal takes, with
    DOTALL. *)
Fixpoint find_first (literal s : string) : option (string * string) :=
  match strip_prefix literal s with
  | Some rest => Some (EmptyString, rest)
  | None =>
      match s with
      | EmptyString => None
      | String c r =>
          match find_first literal r with
          | Some (before, rest) => Some (String c before, rest)
          | None => None
          end
      end
  end.

(** A pattern [OPEN[^>]*>(.*?)CLOSE] at the head of [s], the two literals
    given: the class runs up to the first [>], the body up to the first
    occurrence of the closing literal. The value is the length of the
    match and the body. *)
Definition match_element (opening closing : string) (s : string)
  : option (nat * string) :=
  match strip_prefix opening s with
  | None => None
  | Some r1 =>
      let (attrs, r2) := span (is_not ">") r1 in
      match strip_prefix ">" r2 with
      | None => None
      | Some r3 =>
          match find_first closing r3 with
          | None => None
          | Some (body, _) =>
              Some (String.length opening + String.length attrs + 1
                    + String.length body + String.length closing, body)
          end
      end
  end.

(** The first alternative that matches. *)
Fixpoint first_match {A} (alternatives : list (string -> option (nat * A)))
         (s : string) : option (nat * A) :=
  match alternatives with
  | [] => None
  | m :: rest =>
      match m s with
      | Some r => Some r
      | None => first_match rest s
      end
  end.

(** A pattern [OPEN[^>]*>] at the head of [s]: the length of the match. *)
Definition match_open_tag (opening : string) (s : string) : option nat :=
  match strip_prefix opening s with
  | None => None
  | Some r1 =>
      let (attrs, r2) := span (is_not ">") r1 in
      match strip_prefix ">" r2 with
      | None => None
      | Some _ => Some (String.length opening + String.length attrs + 1)
      end
  end.

(** A run of one or more spaces at the head of [s]: its length. *)
Definition match_spaces (s : string) : option nat :=
  let (run, _) := span is_space s in
  if truthy run then Some (String.length run) else None.

Definition is_LF (c : ascii) : bool := Ascii.eqb c (ascii_of_nat 10).

(** A run of three or more line feeds at the head of [s]: its length. *)
Definition match_line_feeds (s : string) : option nat :=
  let (run, _) := span is_LF s in
  if (3 <=? String.length run)%nat then Some (String.length run) else None.

End PyRe.

(* ===================================================================== *)
(** ** app/utils/html_parser.py: the conversion to Markdown *)
(* ===================================================================== *)

Module Markdown.
Import PyStr PyRe.

(** [_clean_text]: every run of spaces becomes one space, then the ends
    are stripped. *)
Definition _clean_text (text : string) : string :=
  strip (sub match_spaces " " text).

(** The lines of [_process_list] for the items from number [i] on. *)
Fixpoint list_items (ordered : bool) (i : nat) (items : list string) : list string :=
  match items with
  | [] => []
  | item :: rest =>
      (if ordered
       then (of_Z (Z.of_nat i) ++ ". " ++ _clean_text item)%string
       else ("* " ++ _clean_text item)%string)
      :: list_items ordered (S i) rest
  end.

(** [_process_list]: the bodies of the [li] elements, numbered from 1
    when the list is ordered. *)
Definition _process_list (list_content : string) (ordered : bool) : string :=
  let items := findall (match_element "<li" "</li>") list_content in
  (join LF (list_items ordered 1 items) ++ LF ++ LF)%string.

Definition hashes (i : nat) : string := String.concat EmptyString (repeat "#" i).

(** One round of the loop over the heading levels. *)
Definition convert_heading (i : nat) (html_content : string) : string :=
  let h := ("h" ++ of_Z (Z.of_nat i))%string in
  sub_with (match_element ("<" ++ h) ("</" ++ h ++ ">"))
           (fun body => (hashes i ++ " " ++ _clean_text body ++ LF ++ LF)%string)
           html_content.

(** The pattern of a [pre] element that holds one [code] element: the
    opening tag of [pre], at once the opening tag of [code], the body up
    to the first [</code></pre>]. *)
Definition match_pre_code (s : string) : option (nat * string) :=
  match strip_prefix "<pre" s with
  | None => None
  | Some r1 =>
      let (attrs, r2) := span (is_not ">") r1 in
      match strip_prefix ">" r2 with
      | None => None
      | Some r3 =>
          match match_element "<code" "</code></pre>" r3 with
          | Some (m, body) => Some (4 + String.length attrs + 1 + m, body)
          | None => None
          end
      end
  end.

Definition is_quote (c : ascii) : bool := Ascii.eqb c "'" || Ascii.eqb c dquote.

(** The link pattern from [href=] on: a quote, the value up to the next
    quote, the rest of the tag up to [>], the text up to [</a>]. The
    value is the length taken and the pair of the href and the text. *)
Definition link_tail (s : string) : option (nat * (string * string)) :=
  match strip_prefix "href=" s with
  | None => None
  | Some r1 =>
      match r1 with
      | EmptyString => None
      | String q r2 =>
          if negb (is_quote q) then None else
          let (href, r3) := span (fun c => negb (is_quote c)) r2 in
          match r3 with
          | EmptyString => None
          | String _ r4 =>
              let (more, r5) := span (is_not ">") r4 in
              match strip_prefix ">" r5 with
              | None => None
              | Some r6 =>
                  match find_first "</a>" r6 with
                  | None => None
                  | Some (text, _) =>
                      Some (5 + 1 + String.length href + 1 + String.length more
                            + 1 + String.length text + 4, (href, text))
                  end
              end
          end
      end
  end.

(** The class [[^>]*] before [href=] is greedy: the longest run that
    lets the rest match is taken, so a longer run is tried first. *)
Fixpoint link_head (s : string) : option (nat * (string * string)) :=
  match s with
  | EmptyString => link_tail s
  | String c r =>
      if Ascii.eqb c ">" then link_tail s
      else
        match link_head r with
        | Some (n, groups) => Some (S n, groups)
        | None => link_tail s
        end
  end.

(** The link pattern: [<a ], any attributes, an href in quotes, the rest
    of the tag, the text, [</a>]. *)
Definition match_link (s : string) : option (nat * (string * string)) :=
  match strip_prefix "<a " s with
  | None => None
  | Some r =>
      match link_head r with
      | Some (n, groups) => Some (3 + n, groups)
      | None => None
      end
  end.

Definition blockquote (body : string) : string :=
  (join LF (map (fun line => ("> " ++ line)%string)
                (split (ascii_of_nat 10) (_clean_text body)))
   ++ LF ++ LF)%string.

Definition fence (body : string) : string :=
  ("```" ++ LF ++ _clean_text body ++ LF ++ "```" ++ LF ++ LF)%string.

(** The replacements of the five entities, in the order of the source. *)
Definition decode_entities (s : string) : string :=
  replace "&nbsp;" " "
    (replace "&quot;" DQ
       (replace "&amp;" "&"
          (replace "&gt;" ">"
             (replace "&lt;" "<" s)))).

(** [_convert_content] *)
Definition _convert_content (html_content : string) : string :=
  let html_content := fold_left (fun acc i => convert_heading i acc)
                                [6; 5; 4; 3; 2; 1] html_content in
  let html_content :=
    sub_with (match_element "<p" "</p>")
             (fun body => (_clean_text body ++ LF ++ LF)%string) html_content in
  let html_content :=
    sub_with (match_element "<blockquote" "</blockquote>") blockquote html_content in
  let html_content := sub_with match_pre_code fence html_content in
  let html_content := sub_with (match_element "<pre" "</pre>") fence html_content in
  let html_content :=
    sub_with (match_element "<code" "</code>")
             (fun body => ("`" ++ _clean_text body ++ "`")%string) html_content in
  let html_content :=
    sub_with (first_match [match_element "<strong" "</strong>";
                           match_element "<b" "</b>"])
             (fun body => ("**" ++ _clean_text body ++ "**")%string) html_content in
  let html_content :=
    sub_with (first_match [match_element "<em" "</em>";
                           match_element "<i" "</i>"])
             (fun body => ("*" ++ _clean_text body ++ "*")%string) html_content in
  let html_content :=
    sub_with (match_element "<ul" "</ul>")
             (fun body => _process_list body false) html_content in
  let html_content :=
    sub_with (match_element "<ol" "</ol>")
             (fun body => _process_list body true) html_content in
  let html_content :=
    sub_with match_link
             (fun g => ("[" ++ _clean_text (snd g) ++ "](" ++ fst g ++ ")")%string)
             html_content in
  let html_content :=
    sub (match_open_tag "<hr") (LF ++ "---" ++ LF ++ LF) html_content in
  let html_content := sub DuckDuckGoClient.match_tag EmptyString html_content in
  let html_content := decode_entities html_content in
  sub match_line_feeds (LF ++ LF) html_content.

End Markdown.

(* ===================================================================== *)
(** ** app/utils/html_parser.py: the sanitizer *)
(* ===================================================================== *)

Module Sanitizer.
Import Soup PyStr.

(** The names given to the first [find_all] of [clean_html]. *)
Definition REMOVED : list string :=
  ["script"; "style"; "svg"; "iframe"; "form";
   "noscript"; "canvas"; "video"; "audio"; "source"].

(** [for element in soup.find_all(...): element.decompose()], the filter
    of [find_all] given as the test [p]: the list is taken first, so every
    element below the root that passes the test goes, with what it holds. *)
Fixpoint remove (p : node -> bool) (n : node) : node :=
  match n with
  | Tag name attrs cs =>
      Tag name attrs
          ((fix go (l : list node) : list node :=
              match l with
              | [] => []
              | c :: r => if p c then go r else remove p c :: go r
              end) cs)
  | _ => n
  end.

(** The filter [string=lambda text: isinstance(text, str) and '<!--' in
    text]: a string of any class that holds the mark. *)
Definition holds_comment_mark (n : node) : bool :=
  match n with
  | Text s | Comment s | Special _ s => contains "<!--" s
  | Tag _ _ _ => false
  end.

(** The pattern [display:\s*none|visibility:\s*hidden] at the head of a
    style value. *)
Definition hidden_at (style : string) : bool :=
  match strip_prefix "display:" style with
  | Some r => startswith "none" (lstrip r)
  | None => false
  end
  || match strip_prefix "visibility:" style with
     | Some r => startswith "hidden" (lstrip r)
     | None => false
     end.

(** [pattern.search(style)] *)
Fixpoint search_hidden (style : string) : bool :=
  hidden_at style
  || match style with
     | String _ r => search_hidden r
     | EmptyString => false
     end.

(** The filter [style=re.compile(...)]: a tag whose style attribute
    matches. *)
Definition is_hidden (n : node) : bool :=
  match n with
  | Tag _ attrs _ =>
      match attrs_get "style" attrs with
      | Some style => search_hidden style
      | None => false
      end
  | _ => false
  end.

(** [tag[key] = value] for a key the tag has. *)
Fixpoint set_attr (key value : string) (attrs : list (string * string))
  : list (string * string) :=
  match attrs with
  | [] => []
  | (k, v) :: r =>
      if String.eqb key k then (k, value) :: r
      else (k, v) :: set_attr key value r
  end.

(** What one of the three removing loops takes away. *)
Definition taken (n : node) : bool :=
  is_tag_named REMOVED n || holds_comment_mark n || is_hidden n.

(** [kept_below n d]: [d] is below [n], neither [d] nor an element
    between [n] and [d] is taken away, and no element between them is an
    image. *)
Inductive kept_below : node -> node -> Prop :=
| kept_child (name : string) (attrs : list (string * string)) (cs : list node)
             (c : node) :
    In c cs -> taken c = false -> kept_below (Tag name attrs cs) c
| kept_deeper (name : string) (attrs : list (string * string)) (cs : list node)
              (c d : node) :
    In c cs -> taken c = false -> is_tag_named ["img"] c = false ->
    kept_below c d -> kept_below (Tag name attrs cs) d.

Section Clean.
(** [BeautifulSoup(markup, 'html.parser')] and [urllib.parse.urljoin]:
    the parser raises for a markup it rejects, and [urljoin] raises
    [ValueError] for a URL it cannot split. *)
Variable html_parser : string -> Py.result node.
Variable urljoin : string -> string -> Py.result string.

(** [a_tag['href'] = urljoin(base_url, a_tag['href'])] for the
    attributes of one element. *)
Definition link_attrs (base_url name : string) (attrs : list (string * string))
  : Py.result (list (string * string)) :=
  if String.eqb name "a" then
    match attrs_get "href" attrs with
    | Some href =>
        Py.bind (urljoin base_url href)
                (fun joined => Py.Ok (set_attr "href" joined attrs))
    | None => Py.Ok attrs
    end
  else Py.Ok attrs.

(** The body of the loop over [soup.find_all('a', href=True)], for one
    element and what it holds, in document order: the first link that
    [urljoin] refuses ends the loop. *)
Fixpoint absolute_links (base_url : string) (n : node) : Py.result node :=
  match n with
  | Tag name attrs cs =>
      Py.bind (link_attrs base_url name attrs)
              (fun attrs' =>
                 Py.bind ((fix go (l : list node) : Py.result (list node) :=
                             match l with
                             | [] => Py.Ok []
                             | c :: r =>
                                 Py.bind (absolute_links base_url c)
                                         (fun c' =>
                                            Py.bind (go r)
                                                    (fun r' => Py.Ok (c' :: r')))
                             end) cs)
                         (fun cs' => Py.Ok (Tag name attrs' cs')))
  | _ => Py.Ok n
  end.

(** The text an image is replaced with. *)
Definition placeholder (attrs : list (string * string)) : string :=
  match attrs_get "alt" attrs with
  | Some alt_text =>
      if truthy alt_text then ("[Image: " ++ alt_text ++ "]")%string else "[Image]"
  | None => "[Image]"
  end.

(** The body of the loop over [soup.find_all('img')], for one element
    and what it holds. *)
Fixpoint replace_images (n : node) : node :=
  match n with
  | Tag name attrs cs =>
      if String.eqb name "img" then Text (placeholder attrs)
      else Tag name attrs (map replace_images cs)
  | _ => n
  end.

(** A loop over [find_all] reaches what is below the root, not the root. *)
Definition below (f : node -> node) (soup : node) : node :=
  match soup with
  | Tag name attrs cs => Tag name attrs (map f cs)
  | _ => soup
  end.

(** The loop over the links reaches what is below the root. *)
Definition links_below (base_url : string) (soup : node) : Py.result node :=
  match soup with
  | Tag name attrs cs =>
      Py.bind (Py.for_each (absolute_links base_url) cs)
              (fun cs' => Py.Ok (Tag name attrs cs'))
  | _ => Py.Ok soup
  end.

(** [clean_html] *)
Definition clean_html (html_content base_url : string) : Py.result node :=
  Py.bind (html_parser html_content)
          (fun soup =>
             let soup := remove (is_tag_named REMOVED) soup in
             let soup := remove holds_comment_mark soup in
             let soup := remove is_hidden soup in
             Py.bind (links_below base_url soup)
                     (fun soup => Py.Ok (below replace_images soup))).

End Clean.
End Sanitizer.

(* ===================================================================== *)
(** ** app/utils/html_parser.py: the whole pipeline *)
(* ===================================================================== *)

Module Pipeline.
Import Soup Py.

Section Html.
(** The parser, [urljoin], and [str(soup)]. *)
Variable html_parser : string -> result node.
Variable urljoin : string -> string -> result string.
Variable to_str : node -> string.

(** [soup.find('main') or soup.find('article') or soup.body], and the
    soup itself when there is none of them. *)
Definition main_content (soup : node) : node :=
  match find "main" soup with
  | Some m => m
  | None =>
      match find "article" soup with
      | Some a => a
      | None =>
          match find "body" soup with
          | Some b => b
          | None => soup
          end
      end
  end.

(** [html_to_markdown] *)
Definition html_to_markdown (soup : node) : result string :=
  bind (HTMLCleaner._convert_tables html_parser (main_content soup))
       (fun converted =>
          let markdown_content := to_str converted in
          let markdown_content := Markdown._convert_content markdown_content in
          Ok (PyStr.strip markdown_content)).

(** [process_html] *)
Definition process_html (html_content base_url : string) : result pyval :=
  bind (Sanitizer.clean_html html_parser urljoin html_content base_url)
       (fun soup =>
          bind (HTMLCleaner.extract_title soup)
               (fun title =>
                  bind (html_to_markdown soup)
                       (fun content =>
                          Ok (ReadApi.document title base_url content)))).

End Html.
End Pipeline.

(* ===================================================================== *)
(** ** app/api/read.py: the handler *)
(* ===================================================================== *)

Module ReadEndpoint.
Import Py.

(** What the body of the handler may raise: an exception of the
    interpreter or of a library, or the [HTTPException] it raises itself. *)
Inductive raised : Type :=
| Error (e : exn)
| HTTPError (status_code : Z) (detail : string).

(** [url.startswith(("http://", "https://"))], and the URL with the
    scheme put in front when it has none. *)
Definition with_scheme (url : string) : string :=
  if PyStr.startswith "http://" url || PyStr.startswith "https://" url
  then url else ("https://" ++ url)%string.

(** The enum of the format parameter: [json] and [md]. *)
Inductive OutputFormat : Type := json | markdown.

(** What the handler hands to the framework: the value it returns, or an
    [HTTPException]. *)
Inductive reply : Type :=
| Returned (v : pyval)
| HTTPException (status_code : Z) (detail : string).

(** How the body of the [try] ends. *)
Inductive ending : Type :=
| Return (v : pyval)
| Raised (r : raised).

(** [v[k]] *)
Definition getitem (v : pyval) (k : string) : result pyval :=
  match v with
  | PDict items =>
      match items_get k items with
      | Some x => Ok x
      | None => Raise (OtherException "KeyError")
      end
  | _ => Raise (TypeError "object is not subscriptable")
  end.

Section Handler.
(** The library functions of the fetcher, the cleaner and the extractor,
    and [str()] of an exception and of an [HTTPException]. *)
Variable urlparse : string -> result (string * string).
Variable html_parser : string -> result Soup.node.
Variable urljoin : string -> string -> result string.
Variable to_str : Soup.node -> string.
Variable json_loads : string -> result pyval.
Variable json_dumps : pyval -> string.
Variable repr : pyval -> string.
Variable exn_text : exn -> string.
Variable http_exception_text : Z -> string -> string.

Definition raised_text (r : raised) : string :=
  match r with
  | Error e => exn_text e
  | HTTPError status_code detail => http_exception_text status_code detail
  end.

(** The body of the [try] of [read_url], the URL already with its
    scheme. *)
Definition read_body (net : Http.network) (url : string) (format : OutputFormat)
  : ending :=
  match fst (WebFetcher.fetch_url urlparse net url 30) with
  | Raise e => Raised (Error e)
  | Ok None =>
      Raised (HTTPError 404 ("Failed to fetch URL or URL not found: " ++ url))
  | Ok (Some (content, content_type)) =>
      match (if PyStr.contains "text/html" content_type
             then Pipeline.process_html html_parser urljoin to_str content url
             else ReadApi.extract_text_content json_loads json_dumps repr
                    content content_type url) with
      | Raise e => Raised (Error e)
      | Ok processed_content =>
          match format with
          | markdown =>
              match getitem processed_content "content" with
              | Ok v => Return v
              | Raise e => Raised (Error e)
              end
          | json => Return processed_content
          end
      end
  end.

(** [read_url]: the handler of GET /read/{url}. *)
Definition read_url (net : Http.network) (url : string) (format : OutputFormat)
  : reply :=
  let url := with_scheme url in
  match read_body net url format with
  | Return v => Returned v
  | Raised r =>
      HTTPException 500 ("Error processing URL " ++ url ++ ": " ++ raised_text r)
  end.

End Handler.

End ReadEndpoint.

(* ===================================================================== *)
(** ** app/core/config.py and app/core/security.py: the API keys *)
(* ===================================================================== *)

Module Security.

Record SecurityConfig : Type := {
  api_keys : list string;
  default_key : string;
  auth_enabled : bool
}.

(** The comprehension over [API_KEYS]: the parts between commas that are
    not blank, stripped. *)
Definition keys_of (value : string) : list string :=
  map PyStr.strip
      (filter (fun k => PyStr.truthy (PyStr.strip k)) (PyStr.split "," value)).

Definition getenv (value : option string) (default : string) : string :=
  match value with
  | Some v => v
  | None => default
  end.

(** [SecurityConfig.__init__]: the default key is added when keys are
    required and none is given. *)
Definition init (fields : SecurityConfig) : SecurityConfig :=
  match auth_enabled fields, api_keys fields with
  | true, [] =>
      {| api_keys := [default_key fields];
         default_key := default_key fields;
         auth_enabled := true |}
  | _, _ => fields
  end.

(** [SecurityConfig()], from the three variables of the environment and
    the token [secrets.token_urlsafe(32)] gave. *)
Definition from_env (API_KEYS DEFAULT_API_KEY AUTH_ENABLED : option string)
           (token : string) : SecurityConfig :=
  init {| api_keys := keys_of (getenv API_KEYS EmptyString);
          default_key := getenv DEFAULT_API_KEY token;
          auth_enabled :=
            String.eqb (PyStr.lower (getenv AUTH_ENABLED "True")) "true" |}.

(** What the dependency gives: the value the handler gets, or the
    [HTTPException]. *)
Inductive verdict : Type :=
| Pass (api_key : option string)
| Reject (status_code : Z) (detail : string).

(** [get_api_key]; the header is [None] when the request has none. *)
Definition get_api_key (security : SecurityConfig) (api_key_header : option string)
  : verdict :=
  if negb (auth_enabled security) then Pass None
  else
    match api_key_header with
    | None => Reject 401 "API key is missing"
    | Some key =>
        if negb (PyStr.truthy key) then Reject 401 "API key is missing"
        else if existsb (String.eqb key) (api_keys security) then Pass (Some key)
        else Reject 401 "Invalid API key"
    end.

End Security.

(* ===================================================================== *)
(** ** Concrete sites, pages and configurations *)
(* ===================================================================== *)

Module Samples.
Import Config Http Py Soup.

(** [urlparse] as far as URLs of the scheme https go: the host is what
    stands before the first slash; anything else has no scheme. *)
Definition parse_https (url : string) : result (string * string) :=
  match PyStr.strip_prefix "https://" url with
  | Some rest => Ok ("https", fst (PyStr.span (PyStr.is_not "/") rest))
  | None => Ok (EmptyString, EmptyString)
  end.

Definition home_page : string :=
  "<html><head><title> Home </title></head><body><p>Hi</p></body></html>".

(** A site with one page; every other path gives status 404. *)
Definition site : network :=
  fun rq =>
    if String.eqb (url rq) "https://example.org/"
    then Responded {| status := 200;
                      resp_headers := [("Content-Type", "text/html; charset=utf-8")];
                      text := Ok home_page;
                      json := Raise JSONDecodeError |}
    else Responded {| status := 404; resp_headers := [];
                      text := Ok "Not Found"; json := Raise JSONDecodeError |}.

(** No host can be reached. *)
Definition offline : network := fun _ => Failed (ClientError ClientConnectorError).

(** The backend [net] behind a proxy that lets only the URL [u]
    through. *)
Definition only_at (u : string) (net : network) : network :=
  fun rq => if String.eqb (url rq) u then net rq else Failed TimeoutError.

(** A response with status 200 that decodes to [data]. *)
Definition decoded (data : pyval) : response :=
  {| status := 200; resp_headers := []; text := Ok "{...}"; json := Ok data |}.

Definition constantly (r : response) : network := fun _ => Responded r.


(** [str()] of an exception that carries a message: the message. *)
Definition message_of (e : exn) : string :=
  match e with
  | ValueError msg | AttributeError msg | TypeError msg => msg
  | _ => EmptyString
  end.

(** [str()] of an [HTTPException]: the status, a colon, the detail. *)
Definition status_and_detail (status_code : Z) (detail : string) : string :=
  (PyStr.of_Z status_code ++ ": " ++ detail)%string.

(** Two entries, the second of which is a string instead of an object. *)
Definition mixed_entries : list pyval :=
  [PDict [("title", PStr "one"); ("url", PStr "https://1.example/")];
   PStr "two"].

Definition settings : Settings := Examples.settings_with (Member SEARXNG) (Some "token").

(** A page with a link, a comment, an image, a script and a hidden
    block, and the tree the parser makes of it. *)
Definition nav_markup : string :=
  "<body><a id=nav href=/about>About</a><!-- navigation -->"
  ++ "<img src=logo.png alt=Logo><script>track()</script>"
  ++ "<div style='display: none'>secret</div></body>".

Definition parsed_page : node :=
  Tag "[document]" []
      [Tag "body" []
           [Tag "a" [("id", "nav"); ("href", "/about")] [Text "About"];
            Comment " navigation ";
            Tag "img" [("src", "logo.png"); ("alt", "Logo")] [];
            Tag "script" [] [Special Script "track()"];
            Tag "div" [("style", "display: none")] [Text "secret"]]].

(** The sample page as [clean_html] returns it for the base URL
    https://example.org: the script and the hidden block are gone, the
    link is absolute, the image is a text, and the comment is there. *)
Definition cleaned_page : node :=
  Tag "[document]" []
      [Tag "body" []
           [Tag "a" [("id", "nav"); ("href", "https://example.org/about")]
                [Text "About"];
            Comment " navigation ";
            Text "[Image: Logo]"]].

(** A page with a title and a link that [urljoin] refuses. *)
Definition bracket_markup : string :=
  "<title>Links</title><body><a href=http://[x>x</a></body>".

Definition bracket_page : node :=
  Tag "[document]" []
      [Tag "title" [] [Text "Links"];
       Tag "body" [] [Tag "a" [("href", "http://[x")] [Text "x"]]].

(** The text between [<div>] and [</div>], when the markup is a [div]
    around a text without markup. *)
Definition div_text (markup : string) : option string :=
  match PyStr.strip_prefix "<div>" markup with
  | Some r =>
      let t := String.substring 0 (String.length r - 6) r in
      if String.eqb r (t ++ "</div>")
         && PyStr.all_chars (PyStr.is_not "<") t
         && PyStr.all_chars (PyStr.is_not "&") t
      then Some t else None
  | None => None
  end.

(** The parser on the markups of the samples: the two pages, a [div]
    around a text, and a text without markup. It rejects a markup with a
    marked section, and any markup it does not know. *)
Definition parse_sample (markup : string) : result node :=
  if String.eqb markup nav_markup then Ok parsed_page
  else if String.eqb markup bracket_markup then Ok bracket_page
  else
    match div_text markup with
    | Some t => Ok (Tag "[document]" [] [Tag "div" [] [Text t]])
    | None =>
        if PyStr.truthy markup
           && PyStr.all_chars (PyStr.is_not "<") markup
           && PyStr.all_chars (PyStr.is_not "&") markup
        then Ok (Tag "[document]" [] [Text markup])
        else Raise (OtherException "ParserRejectedMarkup")
    end.

(** [urljoin] for the two kinds of href of the samples: a path that
    starts at the root of the site, and a URL whose host opens a bracket
    that is never closed. *)
Definition join_root (base_url href : string) : result string :=
  if PyStr.startswith "http://[" href && negb (PyStr.contains "]" href)
  then Raise (ValueError "Invalid IPv6 URL")
  else Ok (base_url ++ href)%string.

(** Content with a table of one cell whose text opens a marked
    section. *)
Definition marked_table : node :=
  Tag "div" []
      [Tag "table" [] [Tag "tr" [] [Tag "td" [] [Text "<![x"]]]].

(** Content with the table whose [thead] has no [th]. *)
Definition headless_content : node :=
  Tag "body" [] [HtmlExamples.headless_table].

(** A table with a head and one row in its body. *)
Definition headed_table : node :=
  Tag "table" []
      [Tag "thead" [] [Tag "tr" [] [Tag "th" [] [Text "A"]]];
       Tag "tbody" [] [Tag "tr" [] [Tag "td" [] [Text "1"]]]].

(** A paragraph, as parsed. *)
Definition paragraph : node := Tag "p" [] [Text "Hi"].

End Samples.

(* ===================================================================== *)
(** * Properties *)
(* ===================================================================== *)

(** ** Exceptions and slices *)

Section PyFacts.
Import Py.

(** A [try] whose last handler is [except Exception: return []] always
    returns. *)
Lemma catch_Exception_returns {A} (m : result (list A)) :
  exists l, catch m any_Exception (fun _ => Ok []) = Ok l.
Proof.
  destruct m as [l | e]; simpl; eauto.
Qed.

(** Whatever is raised under the two handlers of an adapter ends as the
    empty list. *)
Lemma handlers_on_raise {A} (e : exn) :
  catch (catch (@Raise (list A) e) is_ClientError (fun _ => Ok []))
        any_Exception (fun _ => Ok []) = Ok [].
Proof.
  destruct e as [ | | | | | | k | ]; reflexivity.
Qed.

Lemma handlers_on_ok {A} (l : list A) :
  catch (catch (Ok l) is_ClientError (fun _ => Ok []))
        any_Exception (fun _ => Ok []) = Ok l.
Proof. reflexivity. Qed.

(** A body that only returns [[]] or raises ends as the empty list. *)
Lemma handlers_on_empty {A} (m : result (list A)) :
  (forall l, m = Ok l -> l = []) ->
  catch (catch m is_ClientError (fun _ => Ok []))
        any_Exception (fun _ => Ok []) = Ok [].
Proof.
  destruct m as [l | e]; intros H.
  - rewrite (H l eq_refl). reflexivity.
  - apply handlers_on_raise.
Qed.

Lemma slice_to_nonneg {A} (l : list A) (n : Z) :
  (0 <= n)%Z -> slice_to l n = firstn (Z.to_nat n) l.
Proof.
  intros H. unfold slice_to.
  destruct (Z.leb_spec 0 n); [reflexivity | lia].
Qed.

Lemma slice_to_length {A} (l : list A) (n : Z) :
  (0 <= n)%Z -> (Z.of_nat (length (slice_to l n)) <= n)%Z.
Proof.
  intros H. rewrite slice_to_nonneg by assumption.
  rewrite length_firstn. lia.
Qed.

(** The result of the two handlers is the body's list or the empty list. *)
Lemma handlers_cases {A} (m : result (list A)) (l : list A) :
  catch (catch m is_ClientError (fun _ => Ok []))
        any_Exception (fun _ => Ok []) = Ok l ->
  m = Ok l \/ l = [].
Proof.
  destruct m as [l' | e].
  - simpl. intros H. left. exact H.
  - rewrite handlers_on_raise. intros H. right. congruence.
Qed.

End PyFacts.

(** ** The search adapters never raise *)

Module AdapterFacts.
Import Config Http Py SearchClientFactory Backend.

Lemma slice_to_nil {A} (n : Z) : slice_to (@nil A) n = [].
Proof.
  unfold slice_to. destruct (0 <=? n)%Z; apply firstn_nil.
Qed.

(** The branch taken on a status other than 200 raises. *)
Lemma status_branch_raises {A} (t : result string) (msg : string) :
  exists e, (error_text <- t ;; @Raise A (ValueError msg)) = Raise e.
Proof.
  destruct t; simpl; eauto.
Qed.

(** The handler of the JSON decoding returns the empty list or raises. *)
Lemma json_handler_empty {A} (t : result string) (l : list A) :
  (error_text <- t ;; Ok []) = Ok l -> l = [].
Proof.
  destruct t; simpl; congruence.
Qed.

(** Replace the request by what the backend does with it: the exception
    [r] of an unreachable endpoint, or the response [r] with its
    property [Hr]. *)
Ltac use_failure H r :=
  unfold unreachable in H;
  match goal with
  | |- context [send ?net ?rq] =>
      unfold send; destruct (H rq) as [r Hnet]; rewrite Hnet; cbn [bind]
  end.

Ltac use_answer H r :=
  unfold answers in H;
  match goal with
  | |- context [send ?net ?rq] =>
      unfold send; destruct (H rq) as [r [Hnet Hr]]; rewrite Hnet; cbn [bind]
  end.

Section SearXNG.
Variables (settings : Settings) (self : SearXNGClient.t) (net : network)
          (query : string) (num_results : option Z)
          (language time_range : option string).
Let run := SearXNGClient.search settings self net query num_results
                                language time_range.

Lemma searxng_returns : exists l, run = Ok l.
Proof. apply catch_Exception_returns. Qed.

Lemma searxng_unreachable : unreachable net -> run = Ok [].
Proof.
  intros H. unfold run, SearXNGClient.search. use_failure H e.
  apply handlers_on_raise.
Qed.

Lemma searxng_bad_status :
  answers net (fun r => status r <> 200%Z) -> run = Ok [].
Proof.
  intros H. unfold run, SearXNGClient.search. use_answer H r.
  destruct (Z.eqb_spec (status r) 200) as [E | _]; [contradiction |].
  cbn [negb].
  destruct (status_branch_raises (A := list pyval) (text r)
              ("SearXNG search failed with status code: "
               ++ PyStr.of_Z (status r))) as [e He].
  rewrite He. apply handlers_on_raise.
Qed.

Lemma searxng_bad_json :
  answers net (fun r => status r = 200%Z /\ exists e, json r = Raise e) ->
  run = Ok [].
Proof.
  intros H. unfold run, SearXNGClient.search. use_answer H r.
  destruct Hr as [Hs [e He]]. rewrite Hs, He. cbn [Z.eqb Pos.eqb negb].
  apply handlers_on_empty. intros l. apply json_handler_empty.
Qed.
End SearXNG.

Lemma split_not_nil (sep : ascii) (s : string) : PyStr.split sep s <> [].
Proof.
  destruct s as [| c r]; simpl; [discriminate |].
  destruct (Ascii.eqb c sep); [discriminate |].
  destruct (PyStr.split sep r); discriminate.
Qed.

(** A language tag that holds a dash splits into at least two parts: the
    index 1 of [_extract_country_code] is in range. *)
Lemma split_on_dash (language : string) :
  PyStr.contains "-" language = true ->
  exists a b rest, PyStr.split "-" language = a :: b :: rest.
Proof.
  induction language as [| c r IH]; simpl; [discriminate |].
  unfold PyStr.startswith. cbn [PyStr.strip_prefix].
  rewrite (Ascii.eqb_sym "-" c).
  destruct (Ascii.eqb c "-") eqn:E.
  - intros _. destruct (PyStr.split "-" r) as [| b rest] eqn:S.
    + contradiction (split_not_nil _ _ S).
    + exists EmptyString, b, rest. reflexivity.
  - cbn [orb]. intros H. destruct (IH H) as [a [b [rest ->]]].
    exists (String c a), b, rest. reflexivity.
Qed.

Section Brave.
Variables (settings : Settings) (self : BraveSearchClient.t) (net : network)
          (query : string) (num_results : option Z)
          (language time_range : option string).
Let run := BraveSearchClient.search settings self net query num_results
                                    language time_range.

Lemma brave_returns : exists l, run = Ok l.
Proof.
  unfold run, BraveSearchClient.search.
  destruct (opt_truthy (BraveSearchClient.self_api_key self)); cbn [negb].
  - apply catch_Exception_returns.
  - eauto.
Qed.

Lemma brave_unreachable : unreachable net -> run = Ok [].
Proof.
  intros H. unfold run, BraveSearchClient.search.
  destruct (opt_truthy (BraveSearchClient.self_api_key self)); cbn [negb];
    [| reflexivity].
  use_failure H e. apply handlers_on_raise.
Qed.

Lemma brave_bad_status :
  answers net (fun r => status r <> 200%Z) -> run = Ok [].
Proof.
  intros H. unfold run, BraveSearchClient.search.
  destruct (opt_truthy (BraveSearchClient.self_api_key self)); cbn [negb];
    [| reflexivity].
  use_answer H r.
  destruct (Z.eqb_spec (status r) 200) as [E | _]; [contradiction |].
  cbn [negb].
  destruct (status_branch_raises (A := list pyval) (text r)
              ("Brave Search failed with status code: "
               ++ PyStr.of_Z (status r))) as [e He].
  rewrite He. apply handlers_on_raise.
Qed.

Lemma brave_bad_json :
  answers net (fun r => status r = 200%Z /\ exists e, json r = Raise e) ->
  run = Ok [].
Proof.
  intros H. unfold run, BraveSearchClient.search.
  destruct (opt_truthy (BraveSearchClient.self_api_key self)); cbn [negb];
    [| reflexivity].
  use_answer H r.
  destruct Hr as [Hs [e He]]. rewrite Hs, He. cbn [Z.eqb Pos.eqb negb].
  apply handlers_on_empty. intros l. apply json_handler_empty.
Qed.

(** Without a credential no request is sent. *)
Lemma brave_no_key :
  opt_truthy (BraveSearchClient.self_api_key self) = false -> run = Ok [].
Proof.
  intros H. unfold run, BraveSearchClient.search. rewrite H. reflexivity.
Qed.
End Brave.

Section DuckDuckGo.
Variables (settings : Settings) (self : DuckDuckGoClient.t) (net : network)
          (query : string) (num_results : option Z)
          (language time_range : option string).
Let run := DuckDuckGoClient.search settings self net query num_results
                                   language time_range.

Lemma duckduckgo_returns : exists l, run = Ok l.
Proof. apply catch_Exception_returns. Qed.

Lemma duckduckgo_unreachable : unreachable net -> run = Ok [].
Proof.
  intros H. unfold run, DuckDuckGoClient.search. use_failure H e.
  apply handlers_on_raise.
Qed.

Lemma duckduckgo_bad_status :
  answers net (fun r => status r <> 200%Z) -> run = Ok [].
Proof.
  intros H. unfold run, DuckDuckGoClient.search. use_answer H r.
  destruct (Z.eqb_spec (status r) 200) as [E | _]; [contradiction |].
  cbn [negb].
  destruct (status_branch_raises (A := list pyval) (text r)
              ("DuckDuckGo search failed with status code: "
               ++ PyStr.of_Z (status r))) as [e He].
  rewrite He. apply handlers_on_raise.
Qed.

Lemma duckduckgo_bad_page :
  answers net (fun r =>
                 status r = 200%Z
                 /\ ((exists e, text r = Raise e)
                     \/ (exists html, text r = Ok html
                                      /\ DuckDuckGoClient.title_matches html = []))) ->
  run = Ok [].
Proof.
  intros H. unfold run, DuckDuckGoClient.search. use_answer H r.
  destruct Hr as [Hs [[e He] | [html [Ht Hm]]]]; rewrite Hs;
    cbn [Z.eqb Pos.eqb negb].
  - rewrite He. cbn [bind]. apply handlers_on_raise.
  - rewrite Ht. cbn [bind].
    unfold DuckDuckGoClient._parse_html_results. rewrite Hm.
    cbn [DuckDuckGoClient.process_results]. rewrite slice_to_nil.
    reflexivity.
Qed.
End DuckDuckGo.

End AdapterFacts.

(** C1. For every query and every transport or parse failure inside an
    adapter, [search] returns a list and never raises past the adapter:
    whatever the client, the backend and the arguments, the call returns;
    and it returns the empty list when the endpoint cannot be reached, when
    the backend answers with a status other than 200, and when the
    response cannot be parsed. *)
Theorem C1_search_never_raises :
  forall (settings : Config.Settings) (c : SearchClientFactory.client)
         (net : Http.network) (query : string) (num_results : option Z)
         (language time_range : option string),
    let run := SearchClientFactory.client_search settings c net query
                 num_results language time_range in
    (exists l, run = Py.Ok l)
    /\ (Backend.unreachable net -> run = Py.Ok [])
    /\ (Backend.answers net (fun r => Http.status r <> 200%Z) ->
        run = Py.Ok [])
    /\ (Backend.answers net
          (fun r => Http.status r = 200%Z /\ Backend.unparseable c r) ->
        run = Py.Ok []).
Proof.
  intros settings c net query num_results language time_range run.
  subst run. destruct c as [self | self | self]; cbn [SearchClientFactory.client_search];
    repeat split.
  - apply AdapterFacts.searxng_returns.
  - apply AdapterFacts.searxng_unreachable.
  - apply AdapterFacts.searxng_bad_status.
  - apply AdapterFacts.searxng_bad_json.
  - apply AdapterFacts.duckduckgo_returns.
  - apply AdapterFacts.duckduckgo_unreachable.
  - apply AdapterFacts.duckduckgo_bad_status.
  - apply AdapterFacts.duckduckgo_bad_page.
  - apply AdapterFacts.brave_returns.
  - apply AdapterFacts.brave_unreachable.
  - apply AdapterFacts.brave_bad_status.
  - apply AdapterFacts.brave_bad_json.
Qed.

(** C1, witness: a SearXNG instance that cannot be reached. *)
Lemma C1_unreachable_witness :
  SearXNGClient.search Examples.duckduckgo_settings Examples.searxng_client
    (fun _ => Http.Failed (Py.ClientError Py.ClientConnectorError))
    "rocq" (Some 5%Z) (Some "en-US") (Some "week")
  = Py.Ok [].
Proof.
  refine (proj1 (proj2
            (C1_search_never_raises Examples.duckduckgo_settings
               (SearchClientFactory.SearXNG Examples.searxng_client)
               (fun _ => Http.Failed (Py.ClientError Py.ClientConnectorError))
               "rocq" (Some 5%Z) (Some "en-US") (Some "week"))) _).
  intros rq. exists (Py.ClientError Py.ClientConnectorError). reflexivity.
Defined.

(** ** The DuckDuckGo result parser *)

Module ParserFacts.
Import Py DuckDuckGoClient.
Local Open Scope string_scope.

Lemma process_results_length (tm : list (string * string)) (sm : list string) :
  forall i, length (process_results i tm sm) = length tm.
Proof.
  induction tm as [| [url title] rest IH]; intros i; simpl.
  - reflexivity.
  - rewrite IH. reflexivity.
Qed.

Lemma process_results_nth (tm : list (string * string)) (sm : list string) :
  forall i k url title,
    nth_error tm k = Some (url, title) ->
    nth_error (process_results i tm sm) k = Some (record_at (i + k) url title sm).
Proof.
  induction tm as [| [u t] rest IH]; intros i k url title H.
  - destruct k; discriminate.
  - destruct k as [| k]; simpl in H |- *.
    + injection H as -> ->. rewrite Nat.add_0_r. reflexivity.
    + rewrite (IH (S i) k url title H).
      replace (S i + k) with (i + S k) by lia. reflexivity.
Qed.

(** Past the last snippet span the snippet of a record is empty. *)
Lemma record_at_no_span (i : nat) (url title : string) (sm : list string) :
  length sm <= i ->
  record_at i url title sm
  = search_result (PStr (replace_entities (PyStr.strip title))) (PStr url)
                  (PStr EmptyString).
Proof.
  intros H. unfold record_at.
  rewrite (proj2 (nth_error_None sm i) H). reflexivity.
Qed.

(** *** What the anchor matcher accepts

    [match_title] succeeds at the head of a text exactly when the text
    starts with the literal head of the pattern, a non-empty run without a
    quote, the quote and [>], a non-empty run without [<], and [</a>]. *)

Lemma append_assoc (a b c : string) : (a ++ b) ++ c = a ++ (b ++ c).
Proof.
  induction a as [| x a IH]; simpl; [reflexivity | rewrite IH; reflexivity].
Qed.

Lemma length_append (a b : string) :
  String.length (a ++ b) = String.length a + String.length b.
Proof.
  induction a as [| x a IH]; simpl; [reflexivity | rewrite IH; reflexivity].
Qed.

Lemma strip_prefix_app (p r : string) : PyStr.strip_prefix p (p ++ r) = Some r.
Proof.
  induction p as [| a p IH]; simpl; [reflexivity |].
  rewrite Ascii.eqb_refl. exact IH.
Qed.

Lemma strip_prefix_Some (p s r : string) : PyStr.strip_prefix p s = Some r -> s = p ++ r.
Proof.
  revert s. induction p as [| a p IH]; intros s H; simpl in H.
  - injection H as ->. reflexivity.
  - destruct s as [| b s]; [discriminate |].
    destruct (Ascii.eqb_spec a b) as [-> |]; [| discriminate].
    simpl. rewrite (IH s H). reflexivity.
Qed.

Lemma span_spec (p : ascii -> bool) (s a b : string) :
  PyStr.span p s = (a, b) -> s = a ++ b /\ PyStr.all_chars p a = true /\ PyStr.stops_at p b.
Proof.
  revert a b. induction s as [| c s IH]; intros a b H; simpl in H.
  - injection H as <- <-. repeat split.
  - destruct (p c) eqn:Hc.
    + destruct (PyStr.span p s) as [a' b'] eqn:E. injection H as <- <-.
      destruct (IH a' b' eq_refl) as [-> [Ha Hb]].
      simpl. rewrite Hc, Ha. repeat split. exact Hb.
    + injection H as <- <-. repeat split. exact Hc.
Qed.

Lemma span_app (p : ascii -> bool) (a b : string) :
  PyStr.all_chars p a = true -> PyStr.stops_at p b -> PyStr.span p (a ++ b) = (a, b).
Proof.
  intros Ha Hb. induction a as [| c a IH].
  - destruct b as [| c b]; [reflexivity |].
    simpl in Hb |- *. rewrite Hb. reflexivity.
  - simpl in Ha |- *. apply andb_prop in Ha. destruct Ha as [Hc Ha].
    rewrite Hc, (IH Ha). reflexivity.
Qed.

Lemma truthy_nonempty (s : string) : PyStr.truthy s = true <-> s <> EmptyString.
Proof.
  destruct s; simpl; split; intros H; try congruence; try discriminate.
Qed.

Lemma startswith_app (p r : string) : PyStr.startswith p (p ++ r) = true.
Proof. unfold PyStr.startswith. rewrite strip_prefix_app. reflexivity. Qed.

Lemma startswith_true (p s : string) :
  PyStr.startswith p s = true -> exists r, s = p ++ r.
Proof.
  unfold PyStr.startswith. destruct (PyStr.strip_prefix p s) as [r |] eqn:E; [| discriminate].
  intros _. exists r. apply strip_prefix_Some, E.
Qed.

Lemma match_title_sound (s : string) (n : nat) (url title : string) :
  match_title s = Some (n, (url, title)) ->
  (exists rest, s = anchor url title ++ rest)
  /\ url <> EmptyString /\ PyStr.all_chars (PyStr.is_not PyStr.dquote) url = true
  /\ title <> EmptyString /\ PyStr.all_chars (PyStr.is_not "<") title = true
  /\ n = String.length (anchor url title).
Proof.
  unfold match_title. intros H.
  destruct (PyStr.strip_prefix title_open s) as [r1 |] eqn:E1; [| discriminate].
  destruct (PyStr.span (PyStr.is_not PyStr.dquote) r1) as [u r2] eqn:E2.
  destruct (PyStr.truthy u) eqn:Tu; cbn [negb] in H; [| discriminate].
  destruct (PyStr.strip_prefix (PyStr.DQ ++ ">") r2) as [r3 |] eqn:E3; [| discriminate].
  destruct (PyStr.span (PyStr.is_not "<") r3) as [t r4] eqn:E4.
  destruct (PyStr.truthy t) eqn:Tt; cbn [negb] in H; [| discriminate].
  destruct (PyStr.startswith "</a>" r4) eqn:E5; [| discriminate].
  injection H as <- <- <-.
  apply strip_prefix_Some in E1, E3.
  apply span_spec in E2, E4.
  destruct E2 as [E2 [Au _]]. destruct E4 as [E4 [At _]].
  apply startswith_true in E5. destruct E5 as [rest E5].
  repeat split.
  - exists rest. subst. unfold anchor. rewrite !append_assoc. reflexivity.
  - apply truthy_nonempty, Tu.
  - exact Au.
  - apply truthy_nonempty, Tt.
  - exact At.
  - unfold anchor. rewrite !length_append. simpl. lia.
Qed.

Lemma match_title_complete (url title rest : string) :
  url <> EmptyString -> PyStr.all_chars (PyStr.is_not PyStr.dquote) url = true ->
  title <> EmptyString -> PyStr.all_chars (PyStr.is_not "<") title = true ->
  match_title (anchor url title ++ rest)
  = Some (String.length (anchor url title), (url, title)).
Proof.
  intros Hu Au Ht At. unfold match_title, anchor.
  rewrite !append_assoc. rewrite strip_prefix_app.
  rewrite (span_app (PyStr.is_not PyStr.dquote) url) by (try exact Au; reflexivity).
  apply truthy_nonempty in Hu. rewrite Hu. cbn [negb].
  change (PyStr.DQ ++ ">" ++ title ++ "</a>" ++ rest)
    with ((PyStr.DQ ++ ">") ++ title ++ "</a>" ++ rest).
  rewrite strip_prefix_app.
  rewrite (span_app (PyStr.is_not "<") title) by (try exact At; reflexivity).
  apply truthy_nonempty in Ht. rewrite Ht. cbn [negb].
  rewrite startswith_app. f_equal. f_equal.
  rewrite !length_append. simpl. lia.
Qed.
(** *** The fuel of [snippet_rounds]

    A round takes at least three characters, so the length of the text
    is fuel enough: more fuel changes nothing. *)

Lemma strip_prefix_length (p s r : string) :
  PyStr.strip_prefix p s = Some r -> String.length s = String.length p + String.length r.
Proof.
  revert s. induction p as [| a p IH]; intros s H; simpl in H.
  - injection H as ->. reflexivity.
  - destruct s as [| b s]; [discriminate |].
    destruct (Ascii.eqb a b); [| discriminate].
    simpl. rewrite (IH s H). reflexivity.
Qed.

Lemma span_length (p : ascii -> bool) (s a b : string) :
  PyStr.span p s = (a, b) -> String.length s = String.length a + String.length b.
Proof.
  revert a b. induction s as [| c s IH]; intros a b H; simpl in H.
  - injection H as <- <-. reflexivity.
  - destruct (p c).
    + destruct (PyStr.span p s) as [a' b'] eqn:E. injection H as <- <-.
      simpl. rewrite (IH a' b' eq_refl). reflexivity.
    + injection H as <- <-. reflexivity.
Qed.

Lemma snippet_round_shorter (s m rest : string) :
  snippet_round s = Some (m, rest) -> String.length rest < String.length s.
Proof.
  unfold snippet_round. intros H.
  destruct (PyStr.strip_prefix "<" s) as [r1 |] eqn:E1; [| discriminate].
  destruct (PyStr.span (PyStr.is_not ">") r1) as [tag r2] eqn:E2.
  destruct (negb (PyStr.truthy tag)); [discriminate |].
  destruct (PyStr.strip_prefix ">" r2) as [r3 |] eqn:E3; [| discriminate].
  destruct (PyStr.span (PyStr.is_not "<") r3) as [txt r4] eqn:E4.
  destruct (negb (PyStr.truthy txt)); [discriminate |].
  injection H as _ <-.
  apply strip_prefix_length in E1, E3. apply span_length in E2, E4.
  simpl in E1, E3. lia.
Qed.

(** Any two amounts of fuel that cover the text give the same result. *)
Lemma snippet_rounds_fuel (fuel : nat) :
  forall fuel' s,
    String.length s <= fuel -> String.length s <= fuel' ->
    snippet_rounds fuel s = snippet_rounds fuel' s.
Proof.
  induction fuel as [| fuel IH]; intros fuel' s H H'.
  - destruct s; [| simpl in H; lia].
    destruct fuel'; reflexivity.
  - destruct fuel' as [| fuel'].
    + destruct s; [reflexivity | simpl in H'; lia].
    + simpl. destruct (snippet_round s) as [[m rest] |] eqn:E; [| reflexivity].
      apply snippet_round_shorter in E.
      rewrite (IH fuel' rest) by lia. reflexivity.
Qed.
End ParserFacts.

(** C10. For every HTML input the DuckDuckGo parser returns exactly one
    record per matched result anchor, in the order of the anchors; every
    record is the dict of the three string fields title, url and snippet,
    its url being the anchor's; and a record whose index is past the last
    matched snippet span has the empty string as its snippet. *)
Theorem C10_one_record_per_anchor :
  forall html : string,
    let anchors := DuckDuckGoClient.title_matches html in
    let spans := DuckDuckGoClient.snippet_matches html in
    let records := DuckDuckGoClient._parse_html_results html in
    length records = length anchors
    /\ forall k url raw_title,
        nth_error anchors k = Some (url, raw_title) ->
        exists title snippet,
          nth_error records k
          = Some (Py.PDict [("title", Py.PStr title); ("url", Py.PStr url);
                            ("snippet", Py.PStr snippet)])
          /\ (length spans <= k -> snippet = EmptyString).
Proof.
  intros html anchors spans records. split.
  - apply ParserFacts.process_results_length.
  - intros k url raw_title H.
    unfold records, DuckDuckGoClient._parse_html_results.
    fold anchors. fold spans.
    rewrite (ParserFacts.process_results_nth anchors spans 0 k url raw_title H).
    simpl Nat.add.
    eexists. eexists. split.
    + reflexivity.
    + intros Hk. rewrite (proj2 (nth_error_None spans k) Hk). reflexivity.
Qed.

(** C10, witness: a page with two anchors and one snippet span; the
    second record has the empty snippet. *)
Lemma C10_second_record_witness :
  exists title,
    nth_error (DuckDuckGoClient._parse_html_results Examples.page) 1
    = Some (Py.PDict [("title", Py.PStr title);
                      ("url", Py.PStr "https://b.example/");
                      ("snippet", Py.PStr EmptyString)]).
Proof.
  destruct (proj2 (C10_one_record_per_anchor Examples.page)
                  1 "https://b.example/" "Second" eq_refl)
    as [title [snippet [Hrec Hsnip]]].
  exists title. rewrite Hrec. rewrite Hsnip; [reflexivity |].
  vm_compute. apply le_n.
Defined.

(** ** The selector *)

Module SelectorFacts.
Import Config SearchClientFactory.

Lemma value_injective (a b : SearchProvider) : value a = value b -> a = b.
Proof.
  destruct a, b; simpl; intros H; try reflexivity; discriminate.
Qed.

(** A setting equals at most one member. *)
Lemma provider_is_unique (p : provider_setting) (a b : SearchProvider) :
  provider_is p a = true -> provider_is p b = true -> a = b.
Proof.
  destruct p as [m | s]; simpl.
  - destruct m, a, b; simpl; intros; try reflexivity; discriminate.
  - intros Ha Hb. apply String.eqb_eq in Ha. apply String.eqb_eq in Hb.
    apply value_injective. congruence.
Qed.

Lemma provider_is_other (p : provider_setting) (a b : SearchProvider) :
  provider_is p a = true -> a <> b -> provider_is p b = false.
Proof.
  intros Ha Hab. destruct (provider_is p b) eqn:Hb; [| reflexivity].
  contradiction Hab. exact (provider_is_unique p a b Ha Hb).
Qed.

End SelectorFacts.

(** C8, as amended. For every configured provider identifier the selector
    returns the adapter of the provider the identifier names when it names
    one of the three, and the SearXNG client when it names none. Selecting
    DuckDuckGo or Brave always returns; making the SearXNG client, by name
    or as the default, raises the [ValueError] of [BasicAuth] when a user
    name and a password are both configured and the user name holds a
    colon, and returns otherwise. *)
Theorem C8_selector_default :
  forall settings : Config.Settings,
    let p := Config.provider (Config.search settings) in
    let client := SearchClientFactory.get_client settings in
    let searxng :=
      Py.bind (SearXNGClient.init settings)
              (fun self => Py.Ok (SearchClientFactory.SearXNG self)) in
    (Config.provider_is p Config.SEARXNG = true -> client = searxng)
    /\ (Config.provider_is p Config.DUCKDUCKGO = true ->
        client
        = Py.Ok (SearchClientFactory.DuckDuckGo (DuckDuckGoClient.init settings)))
    /\ (Config.provider_is p Config.BRAVE = true ->
        client = Py.Ok (SearchClientFactory.Brave (BraveSearchClient.init settings)))
    /\ (Config.provider_is p Config.SEARXNG = false ->
        Config.provider_is p Config.DUCKDUCKGO = false ->
        Config.provider_is p Config.BRAVE = false ->
        client = searxng)
    /\ (if SearXNGClient.refused_login settings
        then exists msg, SearXNGClient.init settings = Py.Raise (Py.ValueError msg)
        else exists self, SearXNGClient.init settings = Py.Ok self).
Proof.
  intros settings p client searxng. subst client searxng.
  unfold SearchClientFactory.get_client. fold p.
  repeat split.
  - intros H. rewrite H. reflexivity.
  - intros H.
    rewrite (SelectorFacts.provider_is_other p _ Config.SEARXNG H) by discriminate.
    rewrite H. reflexivity.
  - intros H.
    rewrite (SelectorFacts.provider_is_other p _ Config.SEARXNG H) by discriminate.
    rewrite (SelectorFacts.provider_is_other p _ Config.DUCKDUCKGO H) by discriminate.
    rewrite H. reflexivity.
  - intros H1 H2 H3. rewrite H1, H2, H3. reflexivity.
  - unfold SearXNGClient.refused_login, SearXNGClient.init, SearXNGClient.BasicAuth.
    destruct (Config.auth_username (Config.searxng settings)) as [u |];
      [| eexists; reflexivity].
    destruct (Config.auth_password (Config.searxng settings)) as [pw |];
      [| eexists; reflexivity].
    destruct (PyStr.truthy u && PyStr.truthy pw); cbn [andb];
      [| eexists; reflexivity].
    destruct (PyStr.contains ":" u); cbn [Py.bind]; eexists; reflexivity.
Qed.

(** C8, witness: a misspelt provider gives the SearXNG client. *)
Lemma C8_typo_witness :
  SearchClientFactory.get_client
    (Examples.settings_with (Config.Raw "duckduckg0") None)
  = Py.Ok (SearchClientFactory.SearXNG Examples.searxng_client).
Proof.
  exact (proj1 (proj2 (proj2 (proj2
           (C8_selector_default (Examples.settings_with (Config.Raw "duckduckg0") None)))))
           eq_refl eq_refl eq_refl).
Defined.

(** C8, counterexample: with a misspelt provider and a colon in the
    SearXNG user name the selector raises instead of returning the
    default. *)
Lemma C8_colon_login_raises :
  exists msg,
    SearchClientFactory.get_client Examples.colon_settings
    = Py.Raise (Py.ValueError msg).
Proof. eexists. reflexivity. Qed.

(** ** Truncation to the requested count *)

Module TruncationFacts.
Import Config Http Py Backend.

Section Count.
Variables (settings : Settings) (net : network) (query : string) (n : Z)
          (language time_range : option string).
Hypothesis n_nonneg : (0 <= n)%Z.

(** On every path the SearXNG adapter returns at most [n] results. *)
Lemma searxng_at_most (self : SearXNGClient.t) (l : list pyval) :
  SearXNGClient.search settings self net query (Some n) language time_range = Ok l ->
  (Z.of_nat (length l) <= n)%Z.
Proof.
  unfold SearXNGClient.search. intros H.
  apply handlers_cases in H. destruct H as [H | ->]; [| simpl; lia].
  unfold send in H. destruct (net _) as [e | r]; cbn [bind] in H; [discriminate |].
  destruct (negb (status r =? 200)%Z).
  - destruct (text r); discriminate.
  - destruct (json r) as [data | e].
    + destruct (get data "results" (PList [])) as [raw | e]; [| discriminate].
      cbn [bind] in H.
      destruct (iterate raw) as [items | e]; [| discriminate].
      cbn [bind] in H.
      destruct (for_each SearXNGClient.normalise items) as [results | e];
        [| discriminate].
      cbn [bind] in H. injection H as <-. apply slice_to_length, n_nonneg.
    + destruct (text r); cbn [bind] in H; [| discriminate].
      injection H as <-. simpl. lia.
Qed.

(** On a response it can read, the SearXNG adapter returns the first [n]
    of the backend's results, normalised, in the backend's order. *)
Lemma searxng_truncates (self : SearXNGClient.t) (r : response)
      (data raw : pyval) (items results : list pyval) :
  always net r -> status r = 200%Z -> json r = Ok data ->
  get data "results" (PList []) = Ok raw ->
  iterate raw = Ok items ->
  for_each SearXNGClient.normalise items = Ok results ->
  SearXNGClient.search settings self net query (Some n) language time_range
  = Ok (firstn (Z.to_nat n) results).
Proof.
  intros Hnet Hs Hj Hg Hi Hf. unfold SearXNGClient.search, send.
  rewrite Hnet. cbn [bind]. rewrite Hs, Hj. cbn [Z.eqb Pos.eqb negb].
  rewrite Hg. cbn [bind]. rewrite Hi. cbn [bind]. rewrite Hf. cbn [bind].
  rewrite slice_to_nonneg by exact n_nonneg. reflexivity.
Qed.

Lemma duckduckgo_at_most (self : DuckDuckGoClient.t) (l : list pyval) :
  DuckDuckGoClient.search settings self net query (Some n) language time_range = Ok l ->
  (Z.of_nat (length l) <= n)%Z.
Proof.
  unfold DuckDuckGoClient.search. intros H.
  apply handlers_cases in H. destruct H as [H | ->]; [| simpl; lia].
  unfold send in H. destruct (net _) as [e | r]; cbn [bind] in H; [discriminate |].
  destruct (negb (status r =? 200)%Z).
  - destruct (text r); discriminate.
  - destruct (text r) as [html | e]; cbn [bind] in H; [| discriminate].
    injection H as <-. apply slice_to_length, n_nonneg.
Qed.

Lemma duckduckgo_truncates (self : DuckDuckGoClient.t) (r : response) (html : string) :
  always net r -> status r = 200%Z -> text r = Ok html ->
  DuckDuckGoClient.search settings self net query (Some n) language time_range
  = Ok (firstn (Z.to_nat n) (DuckDuckGoClient._parse_html_results html)).
Proof.
  intros Hnet Hs Ht. unfold DuckDuckGoClient.search, send.
  rewrite Hnet. cbn [bind]. rewrite Hs, Ht. cbn [Z.eqb Pos.eqb negb bind].
  rewrite slice_to_nonneg by exact n_nonneg. reflexivity.
Qed.

(** The Brave adapter sends [n] as the count parameter and returns every
    result of the response. *)
Lemma brave_returns_all (self : BraveSearchClient.t) (r : response)
      (data : pyval) (results : list pyval) :
  opt_truthy (BraveSearchClient.self_api_key self) = true ->
  always net r -> status r = 200%Z -> json r = Ok data ->
  BraveSearchClient._process_brave_results data = Ok results ->
  BraveSearchClient.search settings self net query (Some n) language time_range
  = Ok results.
Proof.
  intros Hk Hnet Hs Hj Hp. unfold BraveSearchClient.search, send.
  rewrite Hk. cbn [negb]. rewrite Hnet. cbn [bind]. rewrite Hs, Hj.
  cbn [Z.eqb Pos.eqb negb]. rewrite Hp. reflexivity.
Qed.

End Count.

(** The Brave adapter only sends requests whose count parameter is the
    requested count. *)
Lemma brave_sends_count (settings : Settings) (self : BraveSearchClient.t)
      (net net' : network) (query : string) (n : Z)
      (language time_range : option string) :
  (forall rq, items_get "count" (params rq) = Some (PInt n) -> net rq = net' rq) ->
  BraveSearchClient.search settings self net query (Some n) language time_range
  = BraveSearchClient.search settings self net' query (Some n) language time_range.
Proof.
  intros H. unfold BraveSearchClient.search, send.
  destruct (opt_truthy (BraveSearchClient.self_api_key self)); cbn [negb];
    [| reflexivity].
  rewrite H by reflexivity. reflexivity.
Qed.
End TruncationFacts.


(** C6, as the code has it. For every requested count [n >= 0]: the
    SearXNG and the DuckDuckGo adapters return at most [n] results whatever
    the backend does, and on a response they can read they return the
    first [n] of the provider's results in the provider's order; the Brave
    adapter passes [n] to the backend as the count parameter and returns
    every result of the response, in the provider's order, without
    truncating. *)
Theorem C6_truncation_by_adapter :
  forall (settings : Config.Settings) (net : Http.network) (query : string)
         (n : Z) (language time_range : option string),
    (0 <= n)%Z ->
    (forall self l,
        SearXNGClient.search settings self net query (Some n) language time_range
        = Py.Ok l ->
        (Z.of_nat (length l) <= n)%Z)
    /\ (forall self l,
           DuckDuckGoClient.search settings self net query (Some n) language time_range
           = Py.Ok l ->
           (Z.of_nat (length l) <= n)%Z)
    /\ (forall self r data raw items results,
           Backend.always net r -> Http.status r = 200%Z ->
           Http.json r = Py.Ok data ->
           Py.get data "results" (Py.PList []) = Py.Ok raw ->
           Py.iterate raw = Py.Ok items ->
           Py.for_each SearXNGClient.normalise items = Py.Ok results ->
           SearXNGClient.search settings self net query (Some n) language time_range
           = Py.Ok (firstn (Z.to_nat n) results))
    /\ (forall self r html,
           Backend.always net r -> Http.status r = 200%Z ->
           Http.text r = Py.Ok html ->
           DuckDuckGoClient.search settings self net query (Some n) language time_range
           = Py.Ok (firstn (Z.to_nat n) (DuckDuckGoClient._parse_html_results html)))
    /\ (forall self net',
           (forall rq,
               Py.items_get "count" (Http.params rq) = Some (Py.PInt n) ->
               net rq = net' rq) ->
           BraveSearchClient.search settings self net query (Some n) language time_range
           = BraveSearchClient.search settings self net' query (Some n) language
                                      time_range)
    /\ (forall self r data results,
           Config.opt_truthy (BraveSearchClient.self_api_key self) = true ->
           Backend.always net r -> Http.status r = 200%Z ->
           Http.json r = Py.Ok data ->
           BraveSearchClient._process_brave_results data = Py.Ok results ->
           BraveSearchClient.search settings self net query (Some n) language time_range
           = Py.Ok results).
Proof.
  intros settings net query n language time_range Hn.
  split; [| split; [| split; [| split; [| split]]]].
  - intros self l. apply TruncationFacts.searxng_at_most, Hn.
  - intros self l. apply TruncationFacts.duckduckgo_at_most, Hn.
  - intros self r data raw items results.
    apply TruncationFacts.searxng_truncates, Hn.
  - intros self r html. apply TruncationFacts.duckduckgo_truncates, Hn.
  - intros self net'. apply TruncationFacts.brave_sends_count.
  - intros self r data results. apply TruncationFacts.brave_returns_all.
Qed.

(** C6 fails as stated. The Brave adapter, asked for one result, returns
    the two results of the response: more than the requested count. *)
Lemma C6_brave_returns_more_than_requested :
  BraveSearchClient.search Examples.brave_settings
    (BraveSearchClient.init Examples.brave_settings) Examples.brave_two
    "rocq" (Some 1%Z) (Some "en-US") None
  = Py.Ok [search_result (Py.PStr "one") (Py.PStr "https://1.example/")
                         (Py.PStr "first");
           search_result (Py.PStr "two") (Py.PStr "https://2.example/")
                         (Py.PStr "second")]
  /\ ~ (2 <= 1)%Z.
Proof.
  split.
  - vm_compute. reflexivity.
  - lia.
Qed.

(** C6, witness: the DuckDuckGo adapter, asked for one result on a page
    with two anchors, returns the first record only. *)
Lemma C6_truncation_witness :
  (0 <= 1)%Z
  /\ DuckDuckGoClient.search Examples.duckduckgo_settings
       (DuckDuckGoClient.init Examples.duckduckgo_settings)
       (Examples.respond (Py.Ok Examples.page) (Py.Raise Py.JSONDecodeError))
       "rocq" (Some 1%Z) (Some "en-US") None
     = Py.Ok (firstn 1 (DuckDuckGoClient._parse_html_results Examples.page)).
Proof.
  assert (H : (0 <= 1)%Z) by lia.
  split; [exact H |].
  refine (proj1 (proj2 (proj2 (proj2
            (C6_truncation_by_adapter Examples.duckduckgo_settings _ "rocq" 1
               (Some "en-US") None H)))) _ _ Examples.page _ _ _).
  - intros rq. reflexivity.
  - reflexivity.
  - reflexivity.
Defined.

(** ** The search operation *)

Module SearchApiFacts.
Import Config Http Py SearchApi.

Section Reply.
Variables (repr : pyval -> string) (exn_text : exn -> string).
Variables (settings : Settings) (net : network) (q : string) (max_results : Z)
          (language : string) (time_range : option string)
          (client : SearchClientFactory.client).
Hypothesis selected : SearchClientFactory.get_client settings = Ok client.

Let results :=
  SearchClientFactory.client_search settings client net q (Some max_results)
    (Some language) time_range.

(** With results, the JSON reply holds the list, the query, and the
    string of the configured provider. *)
Lemma json_reply_with_results (r : pyval) (rs : list pyval) :
  results = Ok (r :: rs) ->
  search repr exn_text settings net q json max_results language time_range
  = Json [("results", PList (r :: rs)); ("query", PStr q);
          ("provider", PStr (provider_str (provider (Config.search settings))))].
Proof.
  intros H. unfold search. rewrite selected. cbn [bind]. fold results.
  rewrite H. reflexivity.
Qed.

(** Without results, the JSON reply holds the empty list and the query,
    and nothing else. *)
Lemma json_reply_without_results :
  results = Ok [] ->
  search repr exn_text settings net q json max_results language time_range
  = Json [("results", PList []); ("query", PStr q)].
Proof.
  intros H. unfold search. rewrite selected. cbn [bind]. fold results.
  rewrite H. reflexivity.
Qed.

End Reply.
End SearchApiFacts.

(** C9, on the code. A JSON search whose adapter finds nothing (here
    DuckDuckGo answering with a page that has no result anchor) is answered
    with the empty result list and the query only: the reply has no
    provider entry. *)
Theorem C9_empty_reply_has_no_provider :
  forall (repr : Py.pyval -> string) (exn_text : Py.exn -> string),
    let reply :=
      SearchApi.search repr exn_text Examples.duckduckgo_settings
        (Examples.respond (Py.Ok Examples.empty_page) (Py.Raise Py.JSONDecodeError))
        "rocq" SearchApi.json 5%Z "en-US" None in
    reply = SearchApi.Json [("results", Py.PList []); ("query", Py.PStr "rocq")]
    /\ forall items, reply = SearchApi.Json items ->
                     Py.items_get "provider" items = None.
Proof.
  intros repr exn_text reply.
  assert (H : reply
              = SearchApi.Json [("results", Py.PList []); ("query", Py.PStr "rocq")]).
  { apply (SearchApiFacts.json_reply_without_results repr exn_text
             Examples.duckduckgo_settings _ "rocq" 5 "en-US" None
             (SearchClientFactory.DuckDuckGo
                (DuckDuckGoClient.init Examples.duckduckgo_settings)));
      vm_compute; reflexivity. }
  split; [exact H |].
  intros items Hi. rewrite H in Hi. injection Hi as <-. reflexivity.
Qed.

(** ** Titles and tables *)

Module HtmlFacts.
Import Soup HTMLCleaner Py.

Lemma opt_string_eqb_refl (o : option string) : opt_string_eqb o o = true.
Proof.
  destruct o as [s |]; simpl; [apply String.eqb_refl | reflexivity].
Qed.

Lemma attrs_eqb_refl (a : list (string * string)) : attrs_eqb a a = true.
Proof.
  unfold attrs_eqb. apply forallb_forall. intros kv _. apply opt_string_eqb_refl.
Qed.

(** An element equals itself. *)
Lemma node_eqb_refl : forall n : node, node_eqb n n = true.
Proof.
  fix IH 1. intros [s | s | name attrs cs | class s]; simpl.
  - apply String.eqb_refl.
  - apply String.eqb_refl.
  - rewrite String.eqb_refl, attrs_eqb_refl. simpl.
    induction cs as [| c cs IHcs]; [reflexivity |].
    rewrite IH, IHcs. reflexivity.
  - apply String.eqb_refl.
Qed.

(** The order of the names given to [find_all] does not matter. *)
Lemma find_all_td_th (n : node) : find_all ["td"; "th"] n = find_all ["th"; "td"] n.
Proof.
  unfold find_all. apply filter_ext.
  intros [s | s | nm attrs cs | class s]; simpl; try reflexivity.
  rewrite !orb_false_r. apply orb_comm.
Qed.

Lemma cell_texts_td_th (row : node) :
  cell_texts ["td"; "th"] row = cell_texts ["th"; "td"] row.
Proof.
  unfold cell_texts. rewrite find_all_td_th. reflexivity.
Qed.

(** [find] is the head of [find_all]. *)
Lemma find_Some_find_all (name : string) (n first : node) :
  find name n = Some first -> exists rest, find_all [name] n = first :: rest.
Proof.
  unfold find. destruct (find_all [name] n) as [| x rest]; simpl; intros H.
  - discriminate.
  - injection H as ->. exists rest. reflexivity.
Qed.

Lemma find_None_find_all (name : string) (n : node) :
  find name n = None -> find_all [name] n = [].
Proof.
  unfold find. destruct (find_all [name] n); simpl; intros H;
    [reflexivity | discriminate].
Qed.

Lemma find_in_find_all (name : string) (n x : node) :
  find name n = Some x -> In x (find_all [name] n).
Proof.
  intros H. destruct (find_Some_find_all name n x H) as [rest ->]. left. reflexivity.
Qed.

(** Without a [thead], the first row is skipped exactly when it holds a
    [th] cell. *)
Lemma skipped_first_row (table first : node) :
  find "thead" table = None -> find "tr" table = Some first ->
  skipped table first = nonempty (find_all ["th"] first).
Proof.
  intros Hh Hr. unfold skipped. rewrite Hh, Hr. simpl.
  rewrite node_eqb_refl. reflexivity.
Qed.

End HtmlFacts.


(** C3, as the code has it. In a table without a [thead] the header cells
    are the cells ([th] or [td]) of the first [tr]. That row is left out of
    the body when it holds a [th] cell; a first row of [td] cells only is
    emitted again as the first body line. *)
Theorem C3_first_row_as_header :
  forall table first : Soup.node,
    Soup.find "thead" table = None ->
    Soup.find "tr" table = Some first ->
    let cells := HTMLCleaner.cell_texts ["th"; "td"] first in
    HTMLCleaner.headers table = cells
    /\ HTMLCleaner.skipped table first
       = HTMLCleaner.nonempty (Soup.find_all ["th"] first)
    /\ exists rest,
        Soup.find_all ["tr"] table = first :: rest
        /\ HTMLCleaner.markdown_table table
           = (if HTMLCleaner.nonempty cells
              then [HTMLCleaner.line cells;
                    HTMLCleaner.line (map (fun _ => "---") cells)]
              else [])
             ++ (if HTMLCleaner.nonempty (Soup.find_all ["th"] first) then []
                 else if HTMLCleaner.nonempty cells then [HTMLCleaner.line cells]
                      else [])
             ++ flat_map (HTMLCleaner.row_lines table) rest.
Proof.
  intros table first Hh Hr cells.
  assert (Hhd : HTMLCleaner.headers table = cells).
  { unfold HTMLCleaner.headers. rewrite Hh, Hr. reflexivity. }
  pose proof (HtmlFacts.skipped_first_row table first Hh Hr) as Hs.
  split; [exact Hhd | split; [exact Hs |]].
  destruct (HtmlFacts.find_Some_find_all "tr" table first Hr) as [rest Hrest].
  exists rest. split; [exact Hrest |].
  unfold HTMLCleaner.markdown_table. rewrite Hhd, Hrest.
  cbn [flat_map]. unfold HTMLCleaner.row_lines at 1. rewrite Hs.
  rewrite HtmlFacts.cell_texts_td_th. fold cells.
  rewrite app_assoc. reflexivity.
Qed.

(** C3, witness: a table whose first row holds [th] cells; the row gives
    the header line and no body line. *)
Lemma C3_th_row_witness :
  HTMLCleaner.markdown_table HtmlExamples.th_table
  = ["| A | B |"; "| --- | --- |"; "| 1 | 2 |"].
Proof.
  destruct (C3_first_row_as_header HtmlExamples.th_table
              (HtmlExamples.tr [HtmlExamples.th "A"; HtmlExamples.th "B"])
              eq_refl eq_refl) as [_ [_ [rest [Hrest Hm]]]].
  rewrite Hm. injection Hrest as <-. reflexivity.
Defined.

(** C3 fails as stated. A table without a [thead] whose first row holds
    [td] cells: the cells of that row make the header line and are
    repeated as the first body line. *)
Lemma C3_td_row_is_repeated :
  Soup.find "thead" HtmlExamples.data_table = None
  /\ Soup.find "tr" HtmlExamples.data_table = Some HtmlExamples.first_row
  /\ HTMLCleaner.markdown_table HtmlExamples.data_table
     = ["| A | B |"; "| --- | --- |"; "| A | B |"; "| 1 | 2 |"]
  /\ In (HTMLCleaner.line (HTMLCleaner.cell_texts ["th"; "td"] HtmlExamples.first_row))
        (flat_map (HTMLCleaner.row_lines HtmlExamples.data_table)
                  (Soup.find_all ["tr"] HtmlExamples.data_table)).
Proof.
  repeat split. left. reflexivity.
Qed.

(** C4. What title extraction does, case by case. A [title] element
    whose [.string] is defined gives that string, stripped. A [title]
    element whose [.string] is not defined, an empty one for instance,
    makes the extraction raise [AttributeError], whether the document
    has an [h1] or not: this is where the code leaves the claim. Without
    a [title] element the title is the stripped text of the first [h1],
    and without either it is the placeholder. *)
Theorem C4_title_extraction :
  forall soup : Soup.node,
    (forall t,
        Soup.find "title" soup = Some t -> Soup.tag_string t = None ->
        HTMLCleaner.extract_title soup
        = Py.Raise (Py.AttributeError "'NoneType' object has no attribute 'strip'"))
    /\ (forall t s,
           Soup.find "title" soup = Some t -> Soup.tag_string t = Some s ->
           HTMLCleaner.extract_title soup = Py.Ok (PyStr.strip s))
    /\ (forall h,
           Soup.find "title" soup = None -> Soup.find "h1" soup = Some h ->
           HTMLCleaner.extract_title soup = Py.Ok (PyStr.strip (Soup.get_text h)))
    /\ (Soup.find "title" soup = None -> Soup.find "h1" soup = None ->
        HTMLCleaner.extract_title soup = Py.Ok "No title found").
Proof.
  intros soup. unfold HTMLCleaner.extract_title. repeat split.
  - intros t Ht Hs. rewrite Ht, Hs. reflexivity.
  - intros t s Ht Hs. rewrite Ht, Hs. reflexivity.
  - intros h Ht Hh. rewrite Ht, Hh. reflexivity.
  - intros Ht Hh. rewrite Ht, Hh. reflexivity.
Qed.

(** C4, witness: on a document whose [title] element is empty and which
    has an [h1] with the text Hi, title extraction raises instead of
    returning Hi. *)
Lemma C4_empty_title_witness :
  Soup.find "h1" HtmlExamples.empty_title_page
  = Some (Soup.Tag "h1" [] [Soup.Text "Hi"])
  /\ HTMLCleaner.extract_title HtmlExamples.empty_title_page
     = Py.Raise (Py.AttributeError "'NoneType' object has no attribute 'strip'").
Proof.
  split; [reflexivity |].
  exact (proj1 (C4_title_extraction HtmlExamples.empty_title_page)
               (Soup.Tag "title" [] []) eq_refl eq_refl).
Defined.

(** A title, found and stripped; a blank title gives the empty string
    and the [h1] is not looked at. *)
Example titles_found :
  HTMLCleaner.extract_title HtmlExamples.titled_page = Py.Ok "Home"
  /\ HTMLCleaner.extract_title HtmlExamples.blank_title_page = Py.Ok EmptyString.
Proof. split; reflexivity. Qed.

(** ** The size guard of the fetcher *)

Module FetcherFacts.
Import Http Py WebFetcher.

(** [int] accepts no empty string. *)
Lemma int_truthy (s : string) (n : Z) : int s = Some n -> PyStr.truthy s = true.
Proof.
  destruct s as [| c r]; intros H; [discriminate | reflexivity].
Qed.

Lemma cap_text : PyStr.of_Z MAX_CONTENT_SIZE = "10485760".
Proof. reflexivity. Qed.

End FetcherFacts.

(** C5. For every fetched response (the URL is valid and the server
    answers it with status 200) whose Content-Length header is a number
    above 10 MiB, [fetch_url] returns the text/plain outcome whose content
    states the header's value and the cap of 10485760 bytes, and the body
    of the response is not read. *)
Theorem C5_oversized_content :
  forall (urlparse : string -> Py.result (string * string)) (net : Http.network)
         (url : string) (timeout : Z) (scheme netloc : string)
         (response : Http.response) (content_length : string) (size : Z),
    urlparse url = Py.Ok (scheme, netloc) ->
    PyStr.truthy scheme = true -> PyStr.truthy netloc = true ->
    net (WebFetcher.request_for url timeout) = Http.Responded response ->
    Http.status response = 200%Z ->
    WebFetcher.header_get "Content-Length" (Http.resp_headers response)
    = Some content_length ->
    WebFetcher.int content_length = Some size ->
    (size > WebFetcher.MAX_CONTENT_SIZE)%Z ->
    fst (WebFetcher.fetch_url urlparse net url timeout)
    = Py.Ok (Some (("Content too large to process (size: " ++ content_length
                    ++ " bytes, max: 10485760 bytes)")%string,
                   "text/plain"))
    /\ ~ In WebFetcher.ReadBody (snd (WebFetcher.fetch_url urlparse net url timeout)).
Proof.
  intros urlparse net url timeout scheme netloc response content_length size
         Hu Hs Hn Hnet Hst Hcl Hint Hsize.
  unfold WebFetcher.fetch_url. rewrite Hu, Hs, Hn. cbn [negb orb].
  rewrite Hnet, Hst.
  cbn [Z.eqb Pos.eqb negb]. rewrite Hcl.
  rewrite (FetcherFacts.int_truthy content_length size Hint), Hint.
  cbn [option_map].
  replace (size >? WebFetcher.MAX_CONTENT_SIZE)%Z with true
    by (symmetry; apply Z.gtb_lt; lia).
  rewrite FetcherFacts.cap_text. cbn [fst snd]. split.
  - reflexivity.
  - intros [H | []]. discriminate.
Qed.

(** C5, witness: a video of twenty MiB. *)
Lemma C5_large_video_witness :
  fst (WebFetcher.fetch_url Examples.parse_fixed Examples.large_video
         "https://media.example/film.mp4" 30)
  = Py.Ok (Some ("Content too large to process (size: 20971520 bytes, max: 10485760 bytes)",
                 "text/plain")).
Proof.
  refine (proj1 (C5_oversized_content Examples.parse_fixed Examples.large_video
                   "https://media.example/film.mp4" 30 "https" "media.example"
                   _ "20971520" 20971520 eq_refl eq_refl eq_refl eq_refl eq_refl
                   eq_refl eq_refl _)).
  reflexivity.
Defined.

(** ** The extractor for JSON payloads *)

Module ExtractFacts.
Import Py ReadApi.

Section Json.
Variables (json_loads : string -> result pyval) (json_dumps : pyval -> string)
          (repr : pyval -> string).

(** A payload that does not decode is returned as it is. *)
Lemma invalid_json_as_text (content url : string) :
  json_loads content = Raise JSONDecodeError ->
  extract_text_content json_loads json_dumps repr content "application/json" url
  = Ok (document "Invalid JSON Document" url content).
Proof.
  intros H. unfold extract_text_content.
  change (PyStr.contains "text/plain" "application/json") with false.
  change (PyStr.contains "application/json" "application/json") with true.
  cbn iota. rewrite H. reflexivity.
Qed.

(** An object with a title entry is named after it. *)
Lemma json_object_with_title (content url : string)
      (items : list (string * pyval)) (v : pyval) :
  json_loads content = Ok (PDict items) ->
  items_get "title" items = Some v ->
  extract_text_content json_loads json_dumps repr content "application/json" url
  = Ok (document ("JSON: " ++ format_value repr v) url
                 (fenced (json_dumps (PDict items)))).
Proof.
  intros Hl Ht. unfold extract_text_content.
  change (PyStr.contains "text/plain" "application/json") with false.
  change (PyStr.contains "application/json" "application/json") with true.
  cbn iota. rewrite Hl. cbn [bind catch json_title]. rewrite Ht. reflexivity.
Qed.

(** The handler names [JSONDecodeError] only: what [json.loads] raises
    besides is raised by the extractor. *)
Lemma other_failure_is_raised (content url : string) (e : exn) :
  json_loads content = Raise e -> e <> JSONDecodeError ->
  extract_text_content json_loads json_dumps repr content "application/json" url
  = Raise e.
Proof.
  intros H He. unfold extract_text_content.
  change (PyStr.contains "text/plain" "application/json") with false.
  change (PyStr.contains "application/json" "application/json") with true.
  cbn iota. rewrite H. cbn [bind catch].
  destruct e; try reflexivity. contradiction He. reflexivity.
Qed.

End Json.

End ExtractFacts.

(** C7. What the extractor does with a payload reported as
    application/json. When [json.loads] raises [JSONDecodeError] the
    payload is returned as plain text, its content untouched and its
    title the placeholder for an invalid document. When [json.loads]
    raises anything else, the [ValueError] for a number of too many
    digits or the [RecursionError] of a deep nesting for instance, the
    handler does not take it and the extractor raises it: this is where
    the code leaves the claim. A payload that decodes to an object with a
    title entry [v] is returned with the title JSON: [v] and the
    pretty-printed document in a fenced block. *)
Theorem C7_json_extraction :
  forall (json_loads : string -> Py.result Py.pyval)
         (json_dumps : Py.pyval -> string) (repr : Py.pyval -> string)
         (content url : string),
    (json_loads content = Py.Raise Py.JSONDecodeError ->
     ReadApi.extract_text_content json_loads json_dumps repr content
                                  "application/json" url
     = Py.Ok (ReadApi.document "Invalid JSON Document" url content))
    /\ (forall e,
           json_loads content = Py.Raise e -> e <> Py.JSONDecodeError ->
           ReadApi.extract_text_content json_loads json_dumps repr content
                                        "application/json" url
           = Py.Raise e)
    /\ (forall items v,
           json_loads content = Py.Ok (Py.PDict items) ->
           Py.items_get "title" items = Some v ->
           ReadApi.extract_text_content json_loads json_dumps repr content
                                        "application/json" url
           = Py.Ok (ReadApi.document
                      ("JSON: " ++ ReadApi.format_value repr v) url
                      ("```json" ++ PyStr.LF ++ json_dumps (Py.PDict items)
                       ++ PyStr.LF ++ "```"))).
Proof.
  intros json_loads json_dumps repr content url. split; [| split].
  - apply ExtractFacts.invalid_json_as_text.
  - intros e. apply ExtractFacts.other_failure_is_raised.
  - intros items v. apply ExtractFacts.json_object_with_title.
Qed.

(** C7, witness: a payload of five thousand digits, for which
    [json.loads] raises a [ValueError] that is no [JSONDecodeError]; the
    extractor raises it. *)
Lemma C7_long_number_witness :
  ReadApi.extract_text_content Examples.loads_limited Examples.dumps_X
    (fun _ => EmptyString) Examples.long_number "application/json"
    "https://e.example/n"
  = Py.Raise (Py.ValueError "Exceeds the limit (4300 digits) for integer string conversion").
Proof.
  refine (proj1 (proj2 (C7_json_extraction Examples.loads_limited Examples.dumps_X
                          (fun _ => EmptyString) Examples.long_number
                          "https://e.example/n"))
                _ _ _).
  - vm_compute. reflexivity.
  - discriminate.
Defined.

(** The example of the specification, and a payload that is not JSON. *)
Example json_examples :
  ReadApi.extract_text_content Examples.loads_X Examples.dumps_X
    (fun _ => EmptyString) Examples.title_X "application/json" "https://e.example/x"
  = Py.Ok (ReadApi.document "JSON: X" "https://e.example/x"
             (ReadApi.fenced Examples.title_X_pretty))
  /\ ReadApi.extract_text_content Examples.loads_X Examples.dumps_X
       (fun _ => EmptyString) "{oops" "application/json" "https://e.example/x"
     = Py.Ok (ReadApi.document "Invalid JSON Document" "https://e.example/x" "{oops").
Proof. split; reflexivity. Qed.

(** ** The model at work *)

Module Evaluation.

(** The example of the specification for the country code. *)
Example country_code_of_fr_FR :
  BraveSearchClient._extract_country_code "fr-FR" = "FR"
  /\ BraveSearchClient._extract_country_code "de" = "US".
Proof. split; reflexivity. Qed.

(** The two records of the example page: the entity of the first title is
    decoded, the tags of its snippet become spaces, and the second record
    has no snippet. *)
Example records_of_page :
  DuckDuckGoClient._parse_html_results Examples.page
  = [search_result (Py.PStr "First & best") (Py.PStr "https://a.example/")
                   (Py.PStr "some  bold  text");
     search_result (Py.PStr "Second") (Py.PStr "https://b.example/")
                   (Py.PStr EmptyString)].
Proof. vm_compute. reflexivity. Qed.

(** [int] on header values. *)
Example int_of_header_values :
  WebFetcher.int " 12_3 " = Some 123%Z
  /\ WebFetcher.int "+5" = Some 5%Z
  /\ WebFetcher.int "1__2" = None
  /\ WebFetcher.int "12 bytes" = None.
Proof. repeat split; reflexivity. Qed.

(** A response with another status is a failed fetch, whatever its
    headers announce. *)
Example not_found_is_no_outcome :
  WebFetcher.fetch_url Examples.parse_fixed
    (fun _ => Http.Responded
                {| Http.status := 404;
                   Http.resp_headers := [("Content-Length", "20971520")];
                   Http.text := Py.Ok "gone";
                   Http.json := Py.Raise Py.JSONDecodeError |})
    "https://media.example/film.mp4" 30
  = (Py.Ok None, [WebFetcher.Warning "Failed to fetch "]).
Proof. reflexivity. Qed.

(** A JSON search with results names the configured provider. *)
Example reply_with_results :
  forall (repr : Py.pyval -> string) (exn_text : Py.exn -> string),
    SearchApi.search repr exn_text Examples.duckduckgo_settings
      (Examples.respond (Py.Ok Examples.page) (Py.Raise Py.JSONDecodeError))
      "rocq" SearchApi.json 1%Z "en-US" None
    = SearchApi.Json
        [("results",
          Py.PList [search_result (Py.PStr "First & best")
                                  (Py.PStr "https://a.example/")
                                  (Py.PStr "some  bold  text")]);
         ("query", Py.PStr "rocq");
         ("provider", Py.PStr "SearchProvider.DUCKDUCKGO")].
Proof. intros repr exn_text. vm_compute. reflexivity. Qed.

End Evaluation.

(* ===================================================================== *)
(** * Further properties of the sources *)
(* ===================================================================== *)

(** ** The fetcher *)

Module FetchFacts.
Import Http Py WebFetcher FetchOutcome.

(** Case analysis on every test of [fetch_url]. *)
Ltac fetch_cases :=
  repeat match goal with
         | H : context [match ?x with _ => _ end] |- _ => destruct x eqn:?
         | |- context [match ?x with _ => _ end] => destruct x eqn:?
         end.

Section Fetch.
Variables (urlparse : string -> result (string * string)) (net : network)
          (url : string) (timeout : Z).

(** Every outcome carries a media type of the list of text types: the
    declared one when the body was read, text/plain for a placeholder. *)
Lemma outcome_type_is_text (content content_type : string) :
  fst (fetch_url urlparse net url timeout) = Ok (Some (content, content_type)) ->
  is_text content_type = true.
Proof.
  unfold fetch_url, is_text. intros H.
  fetch_cases; cbn [fst] in H; try discriminate;
    injection H as <- <-; try reflexivity; assumption.
Qed.

(** Once the URL has a scheme and a host, nothing is raised: every
    failure of the network or of the server ends as [None]. *)
Lemma valid_url_never_raises (scheme netloc : string) :
  urlparse url = Ok (scheme, netloc) ->
  PyStr.truthy scheme = true -> PyStr.truthy netloc = true ->
  exists outcome, fst (fetch_url urlparse net url timeout) = Ok outcome.
Proof.
  intros Hu Hs Hn. unfold fetch_url. rewrite Hu, Hs, Hn. cbn [negb orb].
  fetch_cases; cbn [fst]; eauto.
Qed.

(** A URL without a scheme or without a host is refused before anything
    is sent. *)
Lemma invalid_url_raises (scheme netloc : string) :
  urlparse url = Ok (scheme, netloc) ->
  PyStr.truthy scheme && PyStr.truthy netloc = false ->
  fetch_url urlparse net url timeout
  = (Raise (ValueError "Invalid URL provided"), []).
Proof.
  intros Hu H. unfold fetch_url. rewrite Hu.
  destruct (PyStr.truthy scheme), (PyStr.truthy netloc);
    try discriminate; reflexivity.
Qed.

(** The body is read only from a response with status 200 whose declared
    type is a text type. *)
Lemma body_read_only_if_text :
  In ReadBody (snd (fetch_url urlparse net url timeout)) ->
  exists response,
    net (request_for url timeout) = Responded response
    /\ status response = 200%Z
    /\ is_text (content_type_of response) = true.
Proof.
  unfold fetch_url, is_text, content_type_of. intros H.
  fetch_cases; cbn [snd In] in H;
    try (exfalso; intuition discriminate);
    (eexists; split; [reflexivity | split;
      [ match goal with
        | E : negb (_ =? 200)%Z = false |- _ =>
            apply negb_false_iff, Z.eqb_eq in E; exact E
        end
      | repeat match goal with
               | E : header_get "Content-Type" _ = _ |- _ => rewrite E; clear E
               end; assumption ]]).
Qed.

(** A fetch that gives no outcome leaves a log record. *)
Lemma failure_is_logged :
  fst (fetch_url urlparse net url timeout) = Ok None ->
  existsb is_log (snd (fetch_url urlparse net url timeout)) = true.
Proof.
  unfold fetch_url. intros H.
  fetch_cases; cbn [fst] in H; try discriminate; reflexivity.
Qed.

End Fetch.
End FetchFacts.

(** ** The results of the adapters *)

Module ResultFacts.
Import Config Http Py Backend Results.

Lemma search_result_is_result (title url snippet : pyval) :
  is_search_result (search_result title url snippet).
Proof. exists title, url, snippet. reflexivity. Qed.

(** A loop that appends normalised results only yields normalised
    results. *)
Lemma for_each_results (f : pyval -> result pyval) (items results : list pyval) :
  (forall x y, f x = Ok y -> is_search_result y) ->
  for_each f items = Ok results -> Forall is_search_result results.
Proof.
  intros Hf. revert results. induction items as [| x items IH]; intros results H.
  - injection H as <-. constructor.
  - simpl in H. destruct (f x) as [y | e] eqn:Hx; [| discriminate].
    cbn [bind] in H.
    destruct (for_each f items) as [ys | e]; [| discriminate].
    injection H as <-. constructor; [exact (Hf x y Hx) | apply IH; reflexivity].
Qed.

Lemma searxng_normalise_result (x y : pyval) :
  SearXNGClient.normalise x = Ok y -> is_search_result y.
Proof.
  unfold SearXNGClient.normalise. intros H.
  destruct (get x "title" (PStr "")); [| discriminate].
  destruct (get x "url" (PStr "")); [| discriminate].
  destruct (get x "content" (PStr "")); [| discriminate].
  injection H as <-. apply search_result_is_result.
Qed.

Lemma brave_normalise_result (x y : pyval) :
  BraveSearchClient.normalise x = Ok y -> is_search_result y.
Proof.
  unfold BraveSearchClient.normalise. intros H.
  destruct (get x "title" (PStr "")); [| discriminate].
  destruct (get x "url" (PStr "")); [| discriminate].
  destruct (get x "description" (PStr "")); [| discriminate].
  injection H as <-. apply search_result_is_result.
Qed.

Lemma firstn_Forall {A} (P : A -> Prop) (n : nat) (l : list A) :
  Forall P l -> Forall P (firstn n l).
Proof.
  intros H. revert n. induction H as [| x l Hx Hl IH]; intros [| n]; simpl;
    constructor; auto.
Qed.

Lemma slice_to_Forall {A} (P : A -> Prop) (l : list A) (n : Z) :
  Forall P l -> Forall P (slice_to l n).
Proof.
  intros H. unfold slice_to. destruct (0 <=? n)%Z; apply firstn_Forall, H.
Qed.

Lemma process_results_Forall (tm : list (string * string)) (sm : list string) :
  forall i, Forall is_search_result (DuckDuckGoClient.process_results i tm sm).
Proof.
  induction tm as [| [url title] rest IH]; intros i; simpl; constructor.
  - apply search_result_is_result.
  - apply IH.
Qed.

Section Adapters.
Variables (settings : Settings) (net : network) (query : string)
          (num_results : option Z) (language time_range : option string).

Lemma searxng_results (self : SearXNGClient.t) (l : list pyval) :
  SearXNGClient.search settings self net query num_results language time_range
  = Ok l ->
  Forall is_search_result l.
Proof.
  unfold SearXNGClient.search. intros H.
  apply handlers_cases in H. destruct H as [H | ->]; [| constructor].
  unfold send in H. destruct (net _) as [e | r]; cbn [bind] in H; [discriminate |].
  destruct (negb (status r =? 200)%Z).
  - destruct (text r); discriminate.
  - destruct (json r) as [data | e].
    + destruct (get data "results" (PList [])) as [raw | e]; [| discriminate].
      cbn [bind] in H.
      destruct (iterate raw) as [items | e]; [| discriminate].
      cbn [bind] in H.
      destruct (for_each SearXNGClient.normalise items) as [results | e] eqn:Hf;
        [| discriminate].
      cbn [bind] in H. injection H as <-. apply slice_to_Forall.
      exact (for_each_results _ _ _ searxng_normalise_result Hf).
    + destruct (text r); cbn [bind] in H; [| discriminate].
      injection H as <-. constructor.
Qed.

Lemma brave_results (self : BraveSearchClient.t) (l : list pyval) :
  BraveSearchClient.search settings self net query num_results language time_range
  = Ok l ->
  Forall is_search_result l.
Proof.
  unfold BraveSearchClient.search. intros H.
  destruct (negb (opt_truthy (BraveSearchClient.self_api_key self))).
  { injection H as <-. constructor. }
  apply handlers_cases in H. destruct H as [H | ->]; [| constructor].
  unfold send in H. destruct (net _) as [e | r]; cbn [bind] in H; [discriminate |].
  destruct (negb (status r =? 200)%Z).
  - destruct (text r); discriminate.
  - destruct (json r) as [data | e].
    + unfold BraveSearchClient._process_brave_results in H.
      destruct (get data "web" (PDict [])) as [web | e]; [| discriminate].
      cbn [bind] in H.
      destruct (get web "results" (PList [])) as [raw | e]; [| discriminate].
      cbn [bind] in H.
      destruct (iterate raw) as [items | e]; [| discriminate].
      cbn [bind] in H.
      exact (for_each_results _ _ _ brave_normalise_result H).
    + destruct (text r); cbn [bind] in H; [| discriminate].
      injection H as <-. constructor.
Qed.

Lemma duckduckgo_results (self : DuckDuckGoClient.t) (l : list pyval) :
  DuckDuckGoClient.search settings self net query num_results language time_range
  = Ok l ->
  Forall is_search_result l.
Proof.
  unfold DuckDuckGoClient.search. intros H.
  apply handlers_cases in H. destruct H as [H | ->]; [| constructor].
  unfold send in H. destruct (net _) as [e | r]; cbn [bind] in H; [discriminate |].
  destruct (negb (status r =? 200)%Z).
  - destruct (text r); discriminate.
  - destruct (text r) as [html | e]; cbn [bind] in H; [| discriminate].
    injection H as <-. apply slice_to_Forall.
    apply process_results_Forall.
Qed.

(** Whatever the client and the backend, every result is normalised. *)
Lemma client_results (c : SearchClientFactory.client) (l : list pyval) :
  SearchClientFactory.client_search settings c net query num_results
                                    language time_range = Ok l ->
  Forall is_search_result l.
Proof.
  destruct c as [self | self | self]; cbn [SearchClientFactory.client_search].
  - apply searxng_results.
  - apply duckduckgo_results.
  - apply brave_results.
Qed.

End Adapters.
End ResultFacts.

(** ** The search operation as a whole *)

Module EndpointFacts.
Import Config Http Py Results SearchApi.

Section Format.
Variable repr : pyval -> string.

Lemma format_result_ok (i : nat) (r : pyval) :
  is_search_result r -> exists s, format_result repr i r = Ok s.
Proof.
  intros [title [url [snippet ->]]]. eexists. reflexivity.
Qed.

Lemma format_from_ok (results : list pyval) :
  Forall is_search_result results ->
  forall i, exists s, format_from repr i results = Ok s.
Proof.
  induction 1 as [| r rs Hr Hrs IH]; intros i; simpl.
  - eauto.
  - destruct (format_result_ok i r Hr) as [a ->].
    destruct (IH (S i)) as [b ->]. cbn [bind]. eauto.
Qed.

(** Formatting normalised results never raises. *)
Lemma format_results_ok (results : list pyval) :
  Forall is_search_result results ->
  exists s, format_results_as_markdown repr results = Ok s.
Proof.
  intros H. unfold format_results_as_markdown.
  destruct results as [| r rs]; [eauto |].
  destruct (format_from_ok (r :: rs) H 1) as [body ->]. cbn [bind]. eauto.
Qed.

End Format.

(** Every client's search returns. *)
Lemma client_returns (settings : Settings) (c : SearchClientFactory.client)
      (net : network) (query : string) (num_results : option Z)
      (language time_range : option string) :
  exists l,
    SearchClientFactory.client_search settings c net query num_results
                                      language time_range = Ok l.
Proof.
  destruct c as [self | self | self]; cbn [SearchClientFactory.client_search].
  - apply AdapterFacts.searxng_returns.
  - apply AdapterFacts.duckduckgo_returns.
  - apply AdapterFacts.brave_returns.
Qed.

(** Once the client is made the handler of GET /search does not answer
    with an [HTTPException]: the adapters return normalised results or
    nothing, and formatting those cannot raise. *)
Lemma search_with_client (repr : pyval -> string) (exn_text : exn -> string)
      (settings : Settings) (net : network) (q : string) (format : OutputFormat)
      (max_results : Z) (language : string) (time_range : option string)
      (c : SearchClientFactory.client) :
  SearchClientFactory.get_client settings = Ok c ->
  Replies.is_error
    (search repr exn_text settings net q format max_results language time_range)
  = false.
Proof.
  intros Hc. unfold search. rewrite Hc. cbn [bind].
  destruct (client_returns settings c
              net q (Some max_results) (Some language) time_range) as [l Hl].
  rewrite Hl. cbn [bind].
  pose proof (ResultFacts.client_results _ _ _ _ _ _ _ _ Hl) as Hres.
  destruct l as [| r rs]; destruct format; try reflexivity.
  destruct (format_results_ok repr (r :: rs) Hres) as [md ->]. reflexivity.
Qed.

(** What the constructor of the client raises is answered with status
    500. *)
Lemma search_without_client (repr : pyval -> string) (exn_text : exn -> string)
      (settings : Settings) (net : network) (q : string) (format : OutputFormat)
      (max_results : Z) (language : string) (time_range : option string)
      (e : exn) :
  SearchClientFactory.get_client settings = Raise e ->
  search repr exn_text settings net q format max_results language time_range
  = HTTPException 500 ("Search error for query '" ++ q ++ "': " ++ exn_text e).
Proof.
  intros Hc. unfold search. rewrite Hc. reflexivity.
Qed.

(** The selector raises exactly when it makes the SearXNG client from
    credentials that [BasicAuth] refuses. *)
Lemma get_client_raises (settings : Settings) :
  (exists e, SearchClientFactory.get_client settings = Raise e)
  <-> provider_is (provider (Config.search settings)) DUCKDUCKGO = false
      /\ provider_is (provider (Config.search settings)) BRAVE = false
      /\ SearXNGClient.refused_login settings = true.
Proof.
  assert (Hinit : (exists e, bind (SearXNGClient.init settings)
                               (fun self => Ok (SearchClientFactory.SearXNG self))
                             = Raise e)
                  <-> SearXNGClient.refused_login settings = true).
  { unfold SearXNGClient.refused_login, SearXNGClient.init, SearXNGClient.BasicAuth.
    destruct (auth_username (searxng settings)) as [u |];
      [| split; [intros [e H]; discriminate | discriminate]].
    destruct (auth_password (searxng settings)) as [pw |];
      [| split; [intros [e H]; discriminate | discriminate]].
    destruct (PyStr.truthy u && PyStr.truthy pw); cbn [andb];
      [| split; [intros [e H]; discriminate | discriminate]].
    destruct (PyStr.contains ":" u); cbn [bind];
      split; try (intros [e H]; discriminate); try discriminate;
      [reflexivity | intros _; eexists; reflexivity]. }
  unfold SearchClientFactory.get_client.
  destruct (provider_is (provider (Config.search settings)) SEARXNG) eqn:E1.
  - rewrite (SelectorFacts.provider_is_other _ _ DUCKDUCKGO E1) by discriminate.
    rewrite (SelectorFacts.provider_is_other _ _ BRAVE E1) by discriminate.
    rewrite Hinit. tauto.
  - destruct (provider_is (provider (Config.search settings)) DUCKDUCKGO) eqn:E2.
    + split; [intros [e H]; discriminate | intros [H _]; discriminate].
    + destruct (provider_is (provider (Config.search settings)) BRAVE) eqn:E3.
      * split; [intros [e H]; discriminate | intros [_ [H _]]; discriminate].
      * rewrite Hinit. tauto.
Qed.

End EndpointFacts.

(** ** Entries of a JSON response *)

Module EntryFacts.
Import Config Http Py Backend Results.

(** A loop stops at the first element on which its body raises, and
    the results gathered so far are lost. *)
Lemma for_each_raises {A B} (f : A -> result B) (items : list A) (x : A) :
  In x items -> (exists e, f x = Raise e) ->
  exists e, for_each f items = Raise e.
Proof.
  intros Hin Hx. induction items as [| y items IH]; [contradiction |].
  simpl. destruct (f y) as [b | e] eqn:Hy; cbn [bind]; [| eexists; reflexivity].
  destruct Hin as [-> | Hin].
  - destruct Hx as [e He]. congruence.
  - destruct (IH Hin) as [e ->]. cbn [bind]. eauto.
Qed.

Lemma for_each_map {A B} (f : A -> result B) (g : A -> B) (items : list A) :
  (forall x, In x items -> f x = Ok (g x)) ->
  for_each f items = Ok (map g items).
Proof.
  induction items as [| x items IH]; intros H; simpl; [reflexivity |].
  rewrite (H x (or_introl eq_refl)). cbn [bind].
  rewrite IH by (intros y Hy; apply H; right; exact Hy). reflexivity.
Qed.

Lemma get_of_dict (entry : pyval) (key : string) :
  is_dict entry = true -> get entry key (PStr "") = Ok (field entry key).
Proof.
  destruct entry; try discriminate. reflexivity.
Qed.

Lemma get_of_other (entry : pyval) (key : string) (default : pyval) :
  is_dict entry = false -> exists e, get entry key default = Raise e.
Proof.
  destruct entry; try discriminate; intros _; eexists; reflexivity.
Qed.

Lemma searxng_normalise_dict (entry : pyval) :
  is_dict entry = true ->
  SearXNGClient.normalise entry = Ok (searxng_record entry).
Proof.
  intros H. unfold SearXNGClient.normalise.
  rewrite !(get_of_dict entry _ H). reflexivity.
Qed.

Lemma searxng_normalise_other (entry : pyval) :
  is_dict entry = false -> exists e, SearXNGClient.normalise entry = Raise e.
Proof.
  intros H. unfold SearXNGClient.normalise.
  destruct (get_of_other entry "title" (PStr "") H) as [e ->].
  cbn [bind]. eexists. reflexivity.
Qed.

Lemma brave_normalise_dict (entry : pyval) :
  is_dict entry = true ->
  BraveSearchClient.normalise entry = Ok (brave_record entry).
Proof.
  intros H. unfold BraveSearchClient.normalise.
  rewrite !(get_of_dict entry _ H). reflexivity.
Qed.

Lemma brave_normalise_other (entry : pyval) :
  is_dict entry = false -> exists e, BraveSearchClient.normalise entry = Raise e.
Proof.
  intros H. unfold BraveSearchClient.normalise.
  destruct (get_of_other entry "title" (PStr "") H) as [e ->].
  cbn [bind]. eexists. reflexivity.
Qed.

Section Entries.
Variables (settings : Settings) (net : network) (query : string)
          (num_results : option Z) (language time_range : option string).
Variables (r : response) (top : list (string * pyval)) (entries : list pyval).
Hypothesis net_r : always net r.
Hypothesis status_r : status r = 200%Z.
Hypothesis json_r : json r = Ok (PDict top).

(** The SearXNG adapter keeps the entries in order, each as the record
    of its title, url and content, a missing field being the empty
    string. *)
Lemma searxng_maps_entries (self : SearXNGClient.t) :
  items_get "results" top = Some (PList entries) ->
  forallb is_dict entries = true ->
  SearXNGClient.search settings self net query num_results language time_range
  = Ok (slice_to (map searxng_record entries)
                 (match num_results with
                  | Some n => n
                  | None => searxng_max_results (searxng settings)
                  end)).
Proof.
  intros Hres Hall. unfold SearXNGClient.search, send.
  rewrite net_r. cbn [bind]. rewrite status_r, json_r. cbn [Z.eqb Pos.eqb negb].
  cbn [get]. rewrite Hres. cbn [bind iterate].
  rewrite (for_each_map SearXNGClient.normalise searxng_record).
  - cbn [bind]. destruct num_results; reflexivity.
  - intros x Hx. apply searxng_normalise_dict.
    rewrite forallb_forall in Hall. exact (Hall x Hx).
Qed.

(** One entry that is not an object voids the whole SearXNG response. *)
Lemma searxng_bad_entry (self : SearXNGClient.t) (x : pyval) :
  items_get "results" top = Some (PList entries) ->
  In x entries -> is_dict x = false ->
  SearXNGClient.search settings self net query num_results language time_range
  = Ok [].
Proof.
  intros Hres Hin Hx. unfold SearXNGClient.search, send.
  rewrite net_r. cbn [bind]. rewrite status_r, json_r. cbn [Z.eqb Pos.eqb negb].
  cbn [get]. rewrite Hres. cbn [bind iterate].
  destruct (for_each_raises SearXNGClient.normalise entries x Hin
              (searxng_normalise_other x Hx)) as [e ->].
  cbn [bind]. apply handlers_on_raise.
Qed.

(** The Brave adapter keeps every entry of [web.results], in order. *)
Lemma brave_maps_entries (self : BraveSearchClient.t) (web : list (string * pyval)) :
  opt_truthy (BraveSearchClient.self_api_key self) = true ->
  items_get "web" top = Some (PDict web) ->
  items_get "results" web = Some (PList entries) ->
  forallb is_dict entries = true ->
  BraveSearchClient.search settings self net query num_results language time_range
  = Ok (map brave_record entries).
Proof.
  intros Hk Hweb Hres Hall. unfold BraveSearchClient.search, send.
  rewrite Hk. cbn [negb]. rewrite net_r. cbn [bind].
  rewrite status_r, json_r. cbn [Z.eqb Pos.eqb negb].
  unfold BraveSearchClient._process_brave_results.
  cbn [get]. rewrite Hweb. cbn [bind get]. rewrite Hres. cbn [bind iterate].
  rewrite (for_each_map BraveSearchClient.normalise brave_record).
  - reflexivity.
  - intros x Hx. apply brave_normalise_dict.
    rewrite forallb_forall in Hall. exact (Hall x Hx).
Qed.

Lemma brave_bad_entry (self : BraveSearchClient.t) (web : list (string * pyval))
      (x : pyval) :
  items_get "web" top = Some (PDict web) ->
  items_get "results" web = Some (PList entries) ->
  In x entries -> is_dict x = false ->
  BraveSearchClient.search settings self net query num_results language time_range
  = Ok [].
Proof.
  intros Hweb Hres Hin Hx. unfold BraveSearchClient.search, send.
  destruct (negb (opt_truthy (BraveSearchClient.self_api_key self)));
    [reflexivity |].
  rewrite net_r. cbn [bind]. rewrite status_r, json_r. cbn [Z.eqb Pos.eqb negb].
  unfold BraveSearchClient._process_brave_results.
  cbn [get]. rewrite Hweb. cbn [bind get]. rewrite Hres. cbn [bind iterate].
  destruct (for_each_raises BraveSearchClient.normalise entries x Hin
              (brave_normalise_other x Hx)) as [e ->].
  apply handlers_on_raise.
Qed.

End Entries.
End EntryFacts.

(** ** The request an adapter sends *)

Module RequestFacts.
Import Config Http Py.

(** Use the agreement [H] of two backends at the request of the goal. *)
Ltac at_request H :=
  match goal with
  | |- context [send ?net ?rq] =>
      unfold send; rewrite (H rq); [reflexivity | try reflexivity ..]
  end.

Section Requests.
Variables (settings : Settings) (net net' : network) (query : string)
          (num_results : option Z).

(** The SearXNG adapter consults the backend at one request only: a GET
    of [/search] under the instance URL, with the query, the JSON format,
    the language (en-US when none is given), and the time range when it
    is one of day, week, month and year, and no time range otherwise. *)
Lemma searxng_request (self : SearXNGClient.t) (language time_range : option string) :
  (forall rq,
      meth rq = GET ->
      url rq = (SearXNGClient.self_instance_url self ++ "/search")%string ->
      items_get "q" (params rq) = Some (PStr query) ->
      items_get "format" (params rq) = Some (PStr "json") ->
      items_get "language" (params rq)
      = Some (PStr (match language with Some l => l | None => "en-US" end)) ->
      items_get "time_range" (params rq)
      = match time_range with
        | Some t =>
            if existsb (String.eqb t) ["day"; "week"; "month"; "year"]
            then Some (PStr t) else None
        | None => None
        end ->
      net rq = net' rq) ->
  SearXNGClient.search settings self net query num_results language time_range
  = SearXNGClient.search settings self net' query num_results language time_range.
Proof.
  intros H. unfold SearXNGClient.search.
  destruct time_range as [t |]; [| at_request H].
  cbn [existsb SearXNGClient.valid_time_ranges SearXNGClient.opt_string_eqb orb].
  cbn [existsb] in H.
  destruct (String.eqb t "day") eqn:E1;
    [apply String.eqb_eq in E1; subst t; at_request H |].
  destruct (String.eqb t "week") eqn:E2;
    [apply String.eqb_eq in E2; subst t; at_request H |].
  destruct (String.eqb t "month") eqn:E3;
    [apply String.eqb_eq in E3; subst t; at_request H |].
  destruct (String.eqb t "year") eqn:E4;
    [apply String.eqb_eq in E4; subst t; at_request H |].
  at_request H.
Qed.



End Requests.
End RequestFacts.

(** ** Trimmed strings *)

Module StripFacts.
Import PyStr.

Lemma rstrip_idempotent (s : string) : rstrip (rstrip s) = rstrip s.
Proof.
  induction s as [| c r IH]; [reflexivity |].
  simpl. destruct (rstrip r) as [| d t] eqn:E.
  - destruct (is_space c) eqn:Hc; [reflexivity |].
    simpl. rewrite Hc. reflexivity.
  - change (rstrip (String c (String d t))) with
      (match rstrip (String d t) with
       | EmptyString => if is_space c then EmptyString else String c EmptyString
       | r' => String c r'
       end).
    rewrite IH. reflexivity.
Qed.

(** [lstrip] leaves a string that does not start with a space. *)
Lemma lstrip_head (s : string) :
  match lstrip s with
  | EmptyString => True
  | String c _ => is_space c = false
  end.
Proof.
  induction s as [| c r IH]; simpl; [exact I |].
  destruct (is_space c) eqn:Hc; [exact IH | exact Hc].
Qed.

(** [rstrip] keeps a first character that is not a space. *)
Lemma rstrip_head (c : ascii) (r : string) :
  is_space c = false -> exists r', rstrip (String c r) = String c r'.
Proof.
  intros Hc. simpl. destruct (rstrip r); [rewrite Hc |]; eauto.
Qed.

(** Stripping twice is stripping once: a stripped string is trimmed. *)
Lemma strip_idempotent (s : string) : strip (strip s) = strip s.
Proof.
  unfold strip. pose proof (lstrip_head s) as H.
  destruct (lstrip s) as [| c r]; [reflexivity |].
  destruct (rstrip_head c r H) as [r' E]. rewrite E.
  simpl lstrip. rewrite H. rewrite <- E. apply rstrip_idempotent.
Qed.

Lemma lstrip_spaces (s : string) : all_chars is_space s = true -> lstrip s = EmptyString.
Proof.
  induction s as [| c r IH]; simpl; [reflexivity |].
  destruct (is_space c); simpl; [exact IH | discriminate].
Qed.

(** A string of spaces strips to nothing. *)
Lemma strip_spaces (s : string) : all_chars is_space s = true -> strip s = EmptyString.
Proof.
  intros H. unfold strip. rewrite (lstrip_spaces s H). reflexivity.
Qed.

(** A stripped string is empty only if the string was all spaces. *)
Lemma strip_empty (s : string) : strip s = EmptyString -> all_chars is_space s = true.
Proof.
  unfold strip. induction s as [| c r IH]; [reflexivity |].
  simpl. destruct (is_space c) eqn:Hc; [exact IH |].
  intros H. destruct (rstrip_head c r Hc) as [r' E]. rewrite E in H. discriminate.
Qed.

End StripFacts.

(** ** Titles *)

Module TitleFacts.
Import Soup HTMLCleaner Py.

(** The title returned is trimmed. *)
Lemma title_is_trimmed (soup : node) (title : string) :
  extract_title soup = Ok title -> PyStr.strip title = title.
Proof.
  unfold extract_title. intros H.
  destruct (find "title" soup) as [t |].
  - destruct (tag_string t) as [s |]; [| discriminate].
    injection H as <-. apply StripFacts.strip_idempotent.
  - destruct (find "h1" soup) as [h |]; injection H as <-.
    + apply StripFacts.strip_idempotent.
    + reflexivity.
Qed.

(** A title element that holds only spaces gives the empty title, also
    when the document has a heading. *)
Lemma blank_title_wins (soup t : node) (s : string) :
  find "title" soup = Some t -> tag_string t = Some s ->
  PyStr.all_chars PyStr.is_space s = true ->
  extract_title soup = Ok EmptyString.
Proof.
  intros Ht Hs Hall. unfold extract_title. rewrite Ht, Hs.
  rewrite (StripFacts.strip_spaces s Hall). reflexivity.
Qed.

(** The title is empty exactly when the text it is taken from is all
    spaces: the string of the title element, or without a title element
    the text of the first heading. *)
Lemma empty_title_iff (soup : node) :
  extract_title soup = Ok EmptyString
  <-> (exists t s,
          find "title" soup = Some t /\ tag_string t = Some s
          /\ PyStr.all_chars PyStr.is_space s = true)
      \/ (exists h,
             find "title" soup = None /\ find "h1" soup = Some h
             /\ PyStr.all_chars PyStr.is_space (get_text h) = true).
Proof.
  unfold extract_title. split.
  - intros H. destruct (find "title" soup) as [t |] eqn:Ht.
    + destruct (tag_string t) as [s |] eqn:Hs; [| discriminate].
      injection H as H. left. exists t, s.
      split; [reflexivity | split; [exact Hs |]].
      apply StripFacts.strip_empty, H.
    + destruct (find "h1" soup) as [h |] eqn:Hh; [| discriminate].
      injection H as H. right. exists h.
      split; [reflexivity | split; [reflexivity |]].
      apply StripFacts.strip_empty, H.
  - intros [[t [s [Ht [Hs Hall]]]] | [h [Ht [Hh Hall]]]].
    + rewrite Ht, Hs, (StripFacts.strip_spaces s Hall). reflexivity.
    + rewrite Ht, Hh, (StripFacts.strip_spaces _ Hall). reflexivity.
Qed.

End TitleFacts.

(** ** The extractor for payloads that are not HTML *)

Module PayloadFacts.
Import Py ReadApi.

(** The title of a plain text is never empty. *)
Lemma first_line_title_truthy (lines : list string) (title : string) :
  PyStr.truthy title = true ->
  PyStr.truthy (first_line_title lines title) = true.
Proof.
  intros H. induction lines as [| line rest IH]; simpl; [exact H |].
  destruct (PyStr.truthy (PyStr.strip line)) eqn:E; [exact E | exact IH].
Qed.

(** The title of a plain text is the placeholder or a trimmed line of
    the text. *)
Lemma first_line_title_trimmed (lines : list string) (title : string) :
  PyStr.strip title = title ->
  PyStr.strip (first_line_title lines title) = first_line_title lines title.
Proof.
  intros H. induction lines as [| line rest IH]; simpl; [exact H |].
  destruct (PyStr.truthy (PyStr.strip line));
    [apply StripFacts.strip_idempotent | exact IH].
Qed.

Section Extract.
Variables (json_loads : string -> result pyval) (json_dumps : pyval -> string)
          (repr : pyval -> string).

(** A payload whose type holds text/plain comes back untouched, under
    the given URL, with a title that is not empty. *)
Lemma plain_text_document (content content_type url : string) :
  PyStr.contains "text/plain" content_type = true ->
  exists title,
    extract_text_content json_loads json_dumps repr content content_type url
    = Ok (document title url content)
    /\ PyStr.truthy title = true.
Proof.
  intros H. unfold extract_text_content. rewrite H.
  eexists. split; [reflexivity |].
  apply first_line_title_truthy. reflexivity.
Qed.

(** The extractor gives a document under the given URL, whatever the
    type and the payload; the one exception is an error of [json.loads]
    that is not a decoding error, which is passed on. *)
Lemma extract_returns_document (content content_type url : string) :
  (exists title body,
      extract_text_content json_loads json_dumps repr content content_type url
      = Ok (document title url body))
  \/ (exists e,
         json_loads content = Raise e /\ e <> JSONDecodeError
         /\ extract_text_content json_loads json_dumps repr content content_type url
            = Raise e).
Proof.
  unfold extract_text_content.
  destruct (PyStr.contains "text/plain" content_type); [left; eauto |].
  destruct (PyStr.contains "application/json" content_type); [| left; eauto].
  destruct (json_loads content) as [data | e] eqn:Hl; cbn [bind catch].
  - left. eauto.
  - destruct e; cbn [is_JSONDecodeError];
      try (right; eexists; repeat split; [discriminate]);
      left; eauto.
Qed.

End Extract.
End PayloadFacts.

(** ** Parse trees *)

Module TreeFacts.
Import Soup.

(** Induction on a parse tree, with the property known for the contents
    of a tag. *)
Lemma node_induction (P : node -> Prop) :
  (forall s, P (Text s)) -> (forall s, P (Comment s)) ->
  (forall name attrs cs, Forall P cs -> P (Tag name attrs cs)) ->
  (forall class s, P (Special class s)) ->
  forall n, P n.
Proof.
  intros HT HC HG HS. fix IH 1. intros [s | s | name attrs cs | class s].
  - apply HT.
  - apply HC.
  - apply HG. induction cs as [| c cs IHcs]; constructor; [apply IH | exact IHcs].
  - apply HS.
Qed.

Lemma descendants_Tag (name : string) (attrs : list (string * string))
      (cs : list node) :
  descendants (Tag name attrs cs) = flat_map (fun c => c :: descendants c) cs.
Proof.
  simpl. induction cs as [| c cs IH]; [reflexivity |].
  simpl. rewrite IH. reflexivity.
Qed.

Lemma child_is_descendant (name : string) (attrs : list (string * string))
      (cs : list node) (c : node) :
  In c cs -> In c (descendants (Tag name attrs cs)).
Proof.
  intros H. rewrite descendants_Tag. apply in_flat_map. exists c.
  split; [exact H | left; reflexivity].
Qed.

Lemma descendant_of_child (name : string) (attrs : list (string * string))
      (cs : list node) (c d : node) :
  In c cs -> In d (descendants c) -> In d (descendants (Tag name attrs cs)).
Proof.
  intros H Hd. rewrite descendants_Tag. apply in_flat_map. exists c.
  split; [exact H | right; exact Hd].
Qed.

Lemma descendants_inv (name : string) (attrs : list (string * string))
      (cs : list node) (d : node) :
  In d (descendants (Tag name attrs cs)) ->
  exists c, In c cs /\ (d = c \/ In d (descendants c)).
Proof.
  rewrite descendants_Tag. intros H. apply in_flat_map in H.
  destruct H as [c [Hc [<- | Hd]]]; exists c; auto.
Qed.

(** What [find_all] returns are tags of the names asked for, taken from
    below the element. *)
Lemma find_all_In (names : list string) (n d : node) :
  In d (find_all names n) <-> In d (descendants n) /\ is_tag_named names d = true.
Proof. unfold find_all. apply filter_In. Qed.

Lemma find_all_nil (names : list string) (n : node) :
  find_all names n = [] <->
  forall d, In d (descendants n) -> is_tag_named names d = false.
Proof.
  unfold find_all. split.
  - intros H d Hd. destruct (is_tag_named names d) eqn:E; [| reflexivity].
    assert (Hin : In d (filter (is_tag_named names) (descendants n)))
      by (apply filter_In; auto).
    rewrite H in Hin. contradiction.
  - intros H. induction (descendants n) as [| x l IH]; [reflexivity |].
    simpl. rewrite (H x (or_introl eq_refl)). apply IH.
    intros d Hd. apply H. right. exact Hd.
Qed.

Lemma is_tag_named_one (name : string) (d : node) :
  is_tag_named [name] d = true -> exists attrs cs, d = Tag name attrs cs.
Proof.
  destruct d as [s | s | nm attrs cs | class s]; simpl; try discriminate.
  rewrite orb_false_r. intros H. apply String.eqb_eq in H. subst nm. eauto.
Qed.

Lemma find_is_tag (name : string) (n x : node) :
  find name n = Some x -> exists attrs cs, x = Tag name attrs cs.
Proof.
  intros H. apply HtmlFacts.find_in_find_all in H.
  apply find_all_In in H. destruct H as [_ H]. exact (is_tag_named_one name x H).
Qed.

(** Tags of different names are not equal. *)
Lemma node_eqb_names (n1 n2 : string) (a1 a2 : list (string * string))
      (c1 c2 : list node) :
  n1 <> n2 -> node_eqb (Tag n1 a1 c1) (Tag n2 a2 c2) = false.
Proof.
  intros H. simpl. destruct (String.eqb_spec n1 n2); [contradiction | reflexivity].
Qed.

Lemma flat_map_ext_In {A B} (f g : A -> list B) (l : list A) :
  (forall x, In x l -> f x = g x) -> flat_map f l = flat_map g l.
Proof.
  induction l as [| x l IH]; intros H; simpl; [reflexivity |].
  rewrite (H x (or_introl eq_refl)), IH; [reflexivity |].
  intros y Hy. apply H. right. exact Hy.
Qed.

Lemma map_id_In {A} (f : A -> A) (l : list A) :
  (forall x, In x l -> f x = x) -> map f l = l.
Proof.
  induction l as [| x l IH]; intros H; simpl; [reflexivity |].
  rewrite (H x (or_introl eq_refl)), IH; [reflexivity |].
  intros y Hy. apply H. right. exact Hy.
Qed.

End TreeFacts.

(** ** Loops whose body may raise *)

Module LoopFacts.
Import Py.

(** A loop whose body returns every element as it is returns the list. *)
Lemma for_each_unchanged {A} (f : A -> result A) (l : list A) :
  (forall x, In x l -> f x = Ok x) -> for_each f l = Ok l.
Proof.
  induction l as [| x l IH]; intros H; [reflexivity |].
  cbn [for_each]. rewrite (H x (or_introl eq_refl)). cbn [bind].
  rewrite IH by (intros y Hy; apply H; right; exact Hy). reflexivity.
Qed.

(** When the loop returns, every element of its result is what the body
    returned for an element of the list, and the other way round. *)
Lemma for_each_source {A B} (f : A -> result B) (l : list A) (l' : list B) (y : B) :
  for_each f l = Ok l' -> In y l' -> exists x, In x l /\ f x = Ok y.
Proof.
  revert l'. induction l as [| x l IH]; intros l' H Hy; cbn [for_each] in H.
  - injection H as <-. contradiction.
  - destruct (f x) as [b |] eqn:Hx; cbn [bind] in H; [| discriminate].
    destruct (for_each f l) as [bs |]; cbn [bind] in H; [| discriminate].
    injection H as <-. destruct Hy as [<- | Hy].
    + exists x. split; [left; reflexivity | exact Hx].
    + destruct (IH bs eq_refl Hy) as [x0 [H0 E]]. exists x0. split; [right |]; assumption.
Qed.

Lemma for_each_image {A B} (f : A -> result B) (l : list A) (l' : list B) (x : A) :
  for_each f l = Ok l' -> In x l -> exists y, In y l' /\ f x = Ok y.
Proof.
  revert l'. induction l as [| x0 l IH]; intros l' H Hx; [contradiction |].
  cbn [for_each] in H.
  destruct (f x0) as [b |] eqn:H0; cbn [bind] in H; [| discriminate].
  destruct (for_each f l) as [bs |]; cbn [bind] in H; [| discriminate].
  injection H as <-. destruct Hx as [<- | Hx].
  - exists b. split; [left; reflexivity | exact H0].
  - destruct (IH bs eq_refl Hx) as [y [Hy E]]. exists y. split; [right |]; assumption.
Qed.

End LoopFacts.

(** ** Tables *)

Module TableFacts.
Import Soup HTMLCleaner TreeFacts TableRows Py LoopFacts.

(** With a [thead] in the table no row is skipped: the comparison of a
    row with the [thead] element never holds. *)
Lemma thead_skips_nothing (table h tr : node) :
  find "thead" table = Some h ->
  In tr (find_all ["tr"] table) ->
  skipped table tr = false.
Proof.
  intros Hh Htr. unfold skipped. rewrite Hh. cbn [is_None andb orb opt_node_eqb].
  rewrite orb_false_r.
  destruct (find_is_tag "thead" table h Hh) as [a [cs ->]].
  apply find_all_In in Htr. destruct Htr as [_ Htr].
  destruct (is_tag_named_one "tr" tr Htr) as [a' [cs' ->]].
  apply node_eqb_names. discriminate.
Qed.

Lemma thead_table_lines (table h : node) :
  find "thead" table = Some h ->
  markdown_table table
  = (if nonempty (cell_texts ["th"] h)
     then [line (cell_texts ["th"] h);
           line (map (fun _ => "---") (cell_texts ["th"] h))]
     else [])
    ++ flat_map body_line (find_all ["tr"] table).
Proof.
  intros Hh. unfold markdown_table, headers. rewrite Hh. f_equal.
  apply flat_map_ext_In. intros tr Htr. unfold row_lines.
  rewrite (thead_skips_nothing table h tr Hh Htr). reflexivity.
Qed.

(** Equal elements have the same name, and what is below them is equal
    in pairs. *)
Lemma node_eqb_named (names : list string) (a b : node) :
  node_eqb a b = true -> is_tag_named names a = is_tag_named names b.
Proof.
  destruct a as [s | s | n1 a1 c1 | k s], b as [t | t | n2 a2 c2 | k' t];
    simpl; try discriminate; try reflexivity.
  intros H. apply andb_true_iff in H as [H _]. apply andb_true_iff in H as [H _].
  apply String.eqb_eq in H. subst n2. reflexivity.
Qed.

Lemma node_eqb_descendants :
  forall a b, node_eqb a b = true ->
              Forall2 (fun x y => node_eqb x y = true) (descendants a) (descendants b).
Proof.
  fix IH 1.
  intros [s | s | n1 a1 c1 | k s] [t | t | n2 a2 c2 | k' t] H;
    try discriminate H; try (simpl; constructor).
  rewrite !descendants_Tag. simpl in H. apply andb_true_iff in H as [_ H].
  revert c2 H. induction c1 as [| x xs IHxs]; intros [| y ys] H;
    try discriminate H; [constructor |].
  apply andb_true_iff in H as [Hxy Hr]. simpl.
  constructor; [exact Hxy |].
  apply Forall2_app; [exact (IH x y Hxy) | exact (IHxs ys Hr)].
Qed.

Lemma node_eqb_find_all (names : list string) (a b : node) :
  node_eqb a b = true ->
  nonempty (find_all names a) = nonempty (find_all names b).
Proof.
  intros H. unfold find_all.
  induction (node_eqb_descendants a b H) as [| x y l l' Hxy _ IHl]; [reflexivity |].
  simpl. rewrite (node_eqb_named names x y Hxy).
  destruct (is_tag_named names y); [reflexivity | exact IHl].
Qed.

(** What it is to have no header cell: a [thead] without a [th], or no
    [thead] and a first row without a cell, or no row at all. *)
Lemma headers_empty (table : node) :
  headers table = [] <->
  match find "thead" table with
  | Some header_row => find_all ["th"] header_row = []
  | None =>
      match find "tr" table with
      | Some first_row => find_all ["th"; "td"] first_row = []
      | None => True
      end
  end.
Proof.
  unfold headers, cell_texts.
  destruct (find "thead" table) as [h |].
  - split; intros H; [exact (map_eq_nil _ _ H) | rewrite H; reflexivity].
  - destruct (find "tr" table) as [r |].
    + split; intros H; [exact (map_eq_nil _ _ H) | rewrite H; reflexivity].
    + split; auto.
Qed.

(** When no header cell is found, no row is skipped. *)
Lemma headerless_skips_nothing (table tr : node) :
  headers table = [] ->
  In tr (find_all ["tr"] table) ->
  skipped table tr = false.
Proof.
  intros Hh Htr. apply headers_empty in Hh.
  destruct (find "thead" table) as [h |] eqn:E.
  - exact (thead_skips_nothing table h tr E Htr).
  - unfold skipped. rewrite E. cbn [opt_node_eqb is_None orb andb].
    destruct (find "tr" table) as [first |]; [| reflexivity].
    cbn [opt_node_eqb]. destruct (node_eqb tr first) eqn:Q; [| reflexivity].
    rewrite (node_eqb_find_all ["th"] tr first Q).
    assert (Hth : find_all ["th"] first = []).
    { apply find_all_nil. intros d Hd.
      rewrite find_all_nil in Hh. specialize (Hh d Hd).
      destruct d as [s | s | nm attrs cs | k s]; try reflexivity.
      simpl in Hh |- *. rewrite orb_false_r in Hh |- *.
      apply orb_false_iff in Hh as [Hh _]. exact Hh. }
    rewrite Hth. reflexivity.
Qed.

(** Without a header cell the lines of a table are the lines of its
    rows, one for each row that holds a cell. *)
Lemma headerless_table_lines (table : node) :
  headers table = [] ->
  markdown_table table = flat_map body_line (find_all ["tr"] table).
Proof.
  intros Hh. unfold markdown_table. rewrite Hh. cbn [nonempty app].
  apply flat_map_ext_In. intros tr Htr. unfold row_lines.
  rewrite (headerless_skips_nothing table tr Hh Htr). reflexivity.
Qed.

Lemma flat_map_nil {A B} (f : A -> list B) (l : list A) :
  flat_map f l = [] <-> forall x, In x l -> f x = [].
Proof.
  induction l as [| x l IH]; simpl.
  - split; [intros _ y [] | reflexivity].
  - split.
    + intros H. apply app_eq_nil in H as [Hx Hl].
      intros y [<- | Hy]; [exact Hx | exact (proj1 IH Hl y Hy)].
    + intros H. rewrite (H x (or_introl eq_refl)). simpl.
      apply IH. intros y Hy. apply H. right. exact Hy.
Qed.

Lemma body_line_nil (tr : node) :
  body_line tr = [] <-> cell_texts ["td"; "th"] tr = [].
Proof.
  unfold body_line. destruct (cell_texts ["td"; "th"] tr); simpl.
  - split; reflexivity.
  - split; discriminate.
Qed.

Section Convert.
Variable html_parser : string -> result node.

(** The pass over one element: its own replacement when it is a table,
    then the pass over what it holds. *)
Lemma convert_node_Tag (name : string) (attrs : list (string * string))
      (cs : list node) :
  convert_node html_parser (Tag name attrs cs)
  = bind (if String.eqb name "table"
          then replacement html_parser (Tag name attrs cs) else Ok None)
         (fun replaced =>
            bind (for_each (convert_node html_parser) cs)
                 (fun cs' =>
                    match replaced with
                    | Some div => Ok div
                    | None => Ok (Tag name attrs cs')
                    end)).
Proof.
  cbn [convert_node].
  destruct (if String.eqb name "table"
            then replacement html_parser (Tag name attrs cs) else Ok None)
    as [replaced | e]; cbn [bind]; [| reflexivity].
  f_equal. induction cs as [| c cs IH]; [reflexivity |].
  cbn [for_each]. rewrite IH. reflexivity.
Qed.

Lemma convert_node_without_table :
  forall n,
    is_tag_named ["table"] n = false ->
    (forall d, In d (descendants n) -> is_tag_named ["table"] d = false) ->
    convert_node html_parser n = Ok n.
Proof.
  induction n as [s | s | name attrs cs IH | class s] using node_induction;
    intros Hn Hd; [reflexivity | reflexivity | | reflexivity].
  rewrite convert_node_Tag. simpl in Hn. rewrite orb_false_r in Hn.
  rewrite String.eqb_sym in Hn. rewrite String.eqb_sym, Hn. cbn [bind].
  rewrite for_each_unchanged; [reflexivity |]. intros c Hc.
  rewrite Forall_forall in IH. apply (IH c Hc).
  - apply Hd. apply child_is_descendant, Hc.
  - intros d Hdc. apply Hd. exact (descendant_of_child _ _ _ c d Hc Hdc).
Qed.

(** Content without a table goes through [_convert_tables] unchanged,
    and the parser is not called. *)
Lemma convert_tables_without_table (content : node) :
  find_all ["table"] content = [] ->
  _convert_tables html_parser content = Ok content.
Proof.
  intros H. rewrite find_all_nil in H.
  destruct content as [s | s | name attrs cs | class s];
    [reflexivity | reflexivity | | reflexivity].
  cbn [_convert_tables]. rewrite for_each_unchanged; [reflexivity |].
  intros c Hc. apply convert_node_without_table.
  - apply H. apply child_is_descendant, Hc.
  - intros d Hd. apply H. exact (descendant_of_child _ _ _ c d Hc Hd).
Qed.

End Convert.
End TableFacts.

(** C2, as the code has it. For a table from which no header cell is
    extracted (a [thead] without a [th]; or no [thead] and a first row
    without a cell, or no row at all) the converter writes no header line
    and no separator line, but it still writes one pipe-delimited line
    for every row of the table that holds a cell. Nothing is written for
    the table, which then stays in place, exactly when none of its rows
    holds a cell; otherwise the table is replaced by what the parser
    makes of these lines. *)
Theorem C2_table_without_header_cells :
  forall (html_parser : string -> Py.result Soup.node) (table : Soup.node),
    HTMLCleaner.headers table = [] ->
    HTMLCleaner.markdown_table table
    = flat_map TableRows.body_line (Soup.find_all ["tr"] table)
    /\ (HTMLCleaner.markdown_table table = []
        <-> forall tr, In tr (Soup.find_all ["tr"] table) ->
                       HTMLCleaner.cell_texts ["td"; "th"] tr = [])
    /\ (HTMLCleaner.markdown_table table = [] ->
        HTMLCleaner.replacement html_parser table = Py.Ok None)
    /\ (HTMLCleaner.markdown_table table <> [] ->
        HTMLCleaner.replacement html_parser table
        = Py.bind (html_parser
                     ("<div>"
                      ++ PyStr.join PyStr.LF (HTMLCleaner.markdown_table table)
                      ++ "</div>")%string)
                  (fun div => Py.Ok (Some div))).
Proof.
  intros html_parser table Hh.
  pose proof (TableFacts.headerless_table_lines table Hh) as Hm.
  split; [exact Hm | split; [| split]].
  - rewrite Hm, TableFacts.flat_map_nil. split; intros H tr Htr.
    + apply TableFacts.body_line_nil. exact (H tr Htr).
    + apply TableFacts.body_line_nil. exact (H tr Htr).
  - intros H. unfold HTMLCleaner.replacement. rewrite H. reflexivity.
  - intros H. unfold HTMLCleaner.replacement.
    destruct (HTMLCleaner.markdown_table table); [contradiction | reflexivity].
Qed.

(** C2, witness: a table whose first row has no cell; its second row
    gives the only line. *)
Lemma C2_cellless_first_row_witness :
  HTMLCleaner.headers HtmlExamples.cellless_row_table = []
  /\ HTMLCleaner.markdown_table HtmlExamples.cellless_row_table = ["| 1 |"].
Proof.
  split; [reflexivity |].
  rewrite (proj1 (C2_table_without_header_cells Samples.parse_sample
                    HtmlExamples.cellless_row_table eq_refl)).
  reflexivity.
Defined.

(** C2 fails as stated. A table whose [thead] has no [th] cell gives no
    header, yet each of its two rows is written as a pipe-delimited line,
    and the converted content holds these lines in the place of the
    table. *)
Lemma C2_rows_without_header :
  Soup.find_all ["th"] HtmlExamples.headless_table = []
  /\ HTMLCleaner.headers HtmlExamples.headless_table = []
  /\ HTMLCleaner.markdown_table HtmlExamples.headless_table = ["| A |"; "| 1 |"]
  /\ HTMLCleaner._convert_tables Samples.parse_sample Samples.headless_content
     = Py.Ok (Soup.Tag "body" []
                [Soup.Tag "[document]" []
                   [Soup.Tag "div" []
                      [Soup.Text ("| A |" ++ PyStr.LF ++ "| 1 |")%string]]]).
Proof. repeat split. Qed.

(** A table without a row, which is how the claim words its condition:
    nothing is written for it and it stays in the content. *)
Example rowless_table_stays :
  HTMLCleaner.markdown_table HtmlExamples.rowless_table = []
  /\ HTMLCleaner._convert_tables Samples.parse_sample
       (Soup.Tag "body" [] [HtmlExamples.rowless_table])
     = Py.Ok (Soup.Tag "body" [] [HtmlExamples.rowless_table]).
Proof. split; reflexivity. Qed.

(* ===================================================================== *)
(** ** Scanning: parts of a string, and what a scan leaves alone *)
(* ===================================================================== *)

Module ScanFacts.
Local Open Scope string_scope.
Import PyStr PyRe.

Lemma startswith_of_part (x a t : string) :
  startswith x a = true -> startswith x (a ++ t) = true.
Proof.
  unfold startswith. revert a. induction x as [| c x IH]; intros a H; [reflexivity |].
  destruct a as [| d a]; simpl in H |- *; [discriminate |].
  destruct (Ascii.eqb c d); [exact (IH a H) | discriminate].
Qed.

Lemma startswith_cons (a c : ascii) (p r : string) :
  startswith (String a p) (String c r) = Ascii.eqb a c && startswith p r.
Proof.
  unfold startswith. cbn [strip_prefix]. destruct (Ascii.eqb a c); reflexivity.
Qed.

Lemma contains_cons (x : string) (c : ascii) (r : string) :
  contains x (String c r) = startswith x (String c r) || contains x r.
Proof. reflexivity. Qed.

(** What a part of a string holds, the string holds. *)
Lemma contains_app_l (x a t : string) :
  contains x a = true -> contains x (a ++ t) = true.
Proof.
  induction a as [| c a IH]; intros H.
  - simpl in H. rewrite orb_false_r in H.
    destruct x as [| d x]; [| discriminate].
    destruct t; reflexivity.
  - simpl in H. apply orb_true_iff in H as [H | H].
    + change (contains x (String c a ++ t))
        with (startswith x (String c a ++ t) || contains x (a ++ t)).
      rewrite (startswith_of_part x (String c a) t H). reflexivity.
    + change (contains x (String c a ++ t))
        with (startswith x (String c a ++ t) || contains x (a ++ t)).
      rewrite (IH H). apply orb_true_r.
Qed.

Lemma contains_app_r (x a t : string) :
  contains x t = true -> contains x (a ++ t) = true.
Proof.
  intros H. induction a as [| c a IH]; [exact H |].
  change (contains x (String c a ++ t))
    with (startswith x (String c a ++ t) || contains x (a ++ t)).
  rewrite IH. apply orb_true_r.
Qed.

Lemma all_chars_app (p : ascii -> bool) (a b : string) :
  all_chars p (a ++ b) = all_chars p a && all_chars p b.
Proof.
  induction a as [| c a IH]; simpl; [reflexivity |].
  rewrite IH. apply andb_assoc.
Qed.

(** [lstrip] keeps an end of the string, [rstrip] a beginning. *)
Lemma lstrip_suffix (s : string) : exists t, s = t ++ lstrip s.
Proof.
  induction s as [| c r [t IH]]; [exists EmptyString; reflexivity |].
  simpl. destruct (is_space c).
  - exists (String c t). simpl. rewrite <- IH. reflexivity.
  - exists EmptyString. reflexivity.
Qed.

Lemma rstrip_prefix (s : string) : exists t, s = rstrip s ++ t.
Proof.
  induction s as [| c r [t IH]]; [exists EmptyString; reflexivity |].
  simpl. destruct (rstrip r) as [| d r'] eqn:E.
  - destruct (is_space c).
    + exists (String c r). reflexivity.
    + exists t. simpl in IH. subst t. reflexivity.
  - exists t. simpl. simpl in IH. rewrite <- IH. reflexivity.
Qed.

(** A stripped string is a part of the string. *)
Lemma strip_part (s : string) : exists a b, s = a ++ strip s ++ b.
Proof.
  destruct (lstrip_suffix s) as [a Ha].
  destruct (rstrip_prefix (lstrip s)) as [b Hb].
  exists a, b. unfold strip. rewrite <- Hb. exact Ha.
Qed.

(** What a string does not hold, its stripped form does not hold. *)
Lemma strip_contains (x s : string) :
  contains x s = false -> contains x (strip s) = false.
Proof.
  intros H. destruct (strip_part s) as [a [b E]].
  destruct (contains x (strip s)) eqn:C; [| reflexivity].
  rewrite E in H. rewrite (contains_app_r x a _ (contains_app_l x _ b C)) in H.
  discriminate.
Qed.

Lemma strip_all_chars (p : ascii -> bool) (s : string) :
  all_chars p s = true -> all_chars p (strip s) = true.
Proof.
  intros H. destruct (strip_part s) as [a [b E]].
  rewrite E in H. rewrite !all_chars_app in H.
  apply andb_true_iff in H as [_ H]. apply andb_true_iff in H as [H _]. exact H.
Qed.

(** Dropping the characters of a match leads to what follows it. *)
Lemma sub_go_skip (m : string -> option nat) (repl a b : string) :
  sub_go m repl (a ++ b) (String.length a) = sub_go m repl b 0.
Proof.
  induction a as [| c a IH]; [destruct b; reflexivity | exact IH].
Qed.

(** A match that is the run of [p] at the head is replaced, and the scan
    goes on behind the run. *)
Lemma sub_go_run (m : string -> option nat) (repl : string) (p : ascii -> bool)
      (s a b : string) :
  span p s = (a, b) -> truthy a = true -> m s = Some (String.length a) ->
  sub_go m repl s 0 = repl ++ sub_go m repl b 0.
Proof.
  intros Hs Ha Hm.
  destruct (ParserFacts.span_spec p s a b Hs) as [-> _].
  destruct a as [| c a]; [discriminate |].
  simpl. simpl in Hm. rewrite Hm. simpl. rewrite Nat.sub_0_r.
  rewrite sub_go_skip. reflexivity.
Qed.

(** Where nothing matches the scan copies the character. *)
Lemma sub_go_none (m : string -> option nat) (repl : string) (c : ascii) (r : string) :
  m (String c r) = None ->
  sub_go m repl (String c r) 0 = String c (sub_go m repl r 0).
Proof. intros H. simpl. rewrite H. reflexivity. Qed.

(** A scan whose pattern starts with a character the string does not
    hold changes nothing. *)
Lemma sub_with_absent {A} (m : string -> option (nat * A)) (repl : A -> string)
      (a : ascii) (s : string) :
  (forall c r, Ascii.eqb c a = false -> m (String c r) = None) ->
  all_chars (is_not a) s = true -> sub_with m repl s = s.
Proof.
  intros Hm. unfold sub_with. induction s as [| c r IH]; intros H; [reflexivity |].
  simpl in H. apply andb_true_iff in H as [Hc Hr].
  unfold is_not in Hc. apply negb_true_iff in Hc.
  simpl. rewrite (Hm c r Hc). rewrite (IH Hr). reflexivity.
Qed.

Lemma sub_absent (m : string -> option nat) (repl : string) (a : ascii) (s : string) :
  (forall c r, Ascii.eqb c a = false -> m (String c r) = None) ->
  all_chars (is_not a) s = true -> sub m repl s = s.
Proof.
  intros Hm. unfold sub. induction s as [| c r IH]; intros H; [reflexivity |].
  simpl in H. apply andb_true_iff in H as [Hc Hr].
  unfold is_not in Hc. apply negb_true_iff in Hc.
  simpl. rewrite (Hm c r Hc). rewrite (IH Hr). reflexivity.
Qed.

Lemma replace_absent (a : ascii) (old new s : string) :
  all_chars (is_not a) s = true -> replace (String a old) new s = s.
Proof.
  unfold replace. induction s as [| c r IH]; intros H; [reflexivity |].
  simpl in H. apply andb_true_iff in H as [Hc Hr].
  unfold is_not in Hc. apply negb_true_iff in Hc.
  simpl. unfold startswith. simpl. rewrite Ascii.eqb_sym, Hc.
  rewrite (IH Hr). reflexivity.
Qed.

Lemma strip_prefix_head (a c : ascii) (p r : string) :
  Ascii.eqb c a = false -> strip_prefix (String a p) (String c r) = None.
Proof. intros H. simpl. rewrite Ascii.eqb_sym, H. reflexivity. Qed.

End ScanFacts.

(* ===================================================================== *)
(** ** The conversion to Markdown *)
(* ===================================================================== *)

Module MarkdownFacts.
Local Open Scope string_scope.
Import PyStr PyRe Markdown ScanFacts.


(** *** Runs of spaces *)

Lemma match_spaces_space (c : ascii) (r : string) :
  is_space c = true ->
  exists a b, span is_space (String c r) = (a, b) /\ truthy a = true
              /\ match_spaces (String c r) = Some (String.length a).
Proof.
  intros Hc. unfold match_spaces. simpl. rewrite Hc.
  destruct (span is_space r) as [a b]. exists (String c a), b. repeat split.
Qed.

Lemma match_spaces_other (c : ascii) (r : string) :
  is_space c = false -> match_spaces (String c r) = None.
Proof. intros Hc. unfold match_spaces. simpl. rewrite Hc. reflexivity. Qed.

Lemma span_shorter (p : ascii -> bool) (s a b : string) :
  span p s = (a, b) -> String.length b <= String.length s.
Proof. intros H. rewrite (ParserFacts.span_length p s a b H). lia. Qed.

(** After the scan every space is the blank, no two blanks meet, and a
    text that starts with no space still does. *)
Lemma spaces_collapsed (n : nat) (s : string) :
  String.length s <= n ->
  all_chars (fun c => negb (is_space c) || Ascii.eqb c " ") (sub match_spaces " " s) = true
  /\ contains "  " (sub match_spaces " " s) = false
  /\ (stops_at is_space s -> startswith " " (sub match_spaces " " s) = false).
Proof.
  unfold sub. revert s. induction n as [| n IH]; intros s Hn.
  - destruct s; [| simpl in Hn; lia]. repeat split.
  - destruct s as [| c r]; [repeat split |].
    destruct (is_space c) eqn:Hc.
    + destruct (match_spaces_space c r Hc) as [a [b [Hs [Ha Hm]]]].
      rewrite (sub_go_run _ _ _ _ _ _ Hs Ha Hm).
      destruct (ParserFacts.span_spec _ _ _ _ Hs) as [E [_ Hb]].
      assert (Hlen : String.length b <= n).
      { pose proof (ParserFacts.span_length _ _ _ _ Hs) as L.
        destruct a; [discriminate |]. simpl in L, Hn. lia. }
      destruct (IH b Hlen) as [H1 [H2 H3]].
      split; [| split].
      * simpl. exact H1.
      * change (" " ++ sub_go match_spaces " " b 0)
          with (String " " (sub_go match_spaces " " b 0)).
        rewrite contains_cons, H2, orb_false_r, startswith_cons, Ascii.eqb_refl.
        exact (H3 Hb).
      * intros Hst. simpl in Hst. congruence.
    + rewrite (sub_go_none _ _ _ _ (match_spaces_other c r Hc)).
      simpl in Hn. destruct (IH r ltac:(lia)) as [H1 [H2 H3]].
      assert (Hne : Ascii.eqb " " c = false).
      { destruct (Ascii.eqb_spec " " c) as [<- |]; [discriminate | reflexivity]. }
      split; [| split].
      * simpl. rewrite Hc. simpl. exact H1.
      * rewrite contains_cons, H2, startswith_cons, Hne. reflexivity.
      * intros _. rewrite startswith_cons, Hne. reflexivity.
Qed.

(** [_clean_text] gives a text in which every space is a single blank
    between two words, and which it leaves as it is. *)
Lemma clean_text_normal (text : string) :
  all_chars (fun c => negb (is_space c) || Ascii.eqb c " ") (_clean_text text) = true
  /\ contains "  " (_clean_text text) = false
  /\ strip (_clean_text text) = _clean_text text.
Proof.
  unfold _clean_text.
  destruct (spaces_collapsed _ text (le_n _)) as [H1 [H2 _]].
  split; [| split].
  - apply strip_all_chars. exact H1.
  - apply strip_contains. exact H2.
  - apply StripFacts.strip_idempotent.
Qed.

(** *** Runs of line feeds *)

Lemma startswith_longer (x y t : string) :
  startswith x t = false -> startswith (x ++ y) t = false.
Proof.
  revert t. induction x as [| a x IH]; intros t H; [discriminate |].
  destruct t as [| c t]; [reflexivity |].
  change (String a x ++ y) with (String a (x ++ y)).
  rewrite startswith_cons in H |- *.
  destruct (Ascii.eqb a c); [exact (IH t H) | reflexivity].
Qed.

Lemma starts_LF (c : ascii) (r : string) : startswith LF (String c r) = is_LF c.
Proof.
  unfold LF, is_LF. rewrite startswith_cons, Ascii.eqb_sym.
  destruct r; apply andb_true_r.
Qed.

Lemma starts_LF2 (c : ascii) (r : string) :
  startswith (LF ++ LF) (String c r) = is_LF c && startswith LF r.
Proof.
  unfold LF, is_LF. cbn [append]. rewrite startswith_cons, Ascii.eqb_sym. reflexivity.
Qed.

Lemma starts_LF3 (c : ascii) (r : string) :
  startswith (LF ++ LF ++ LF) (String c r) = is_LF c && startswith (LF ++ LF) r.
Proof.
  unfold LF, is_LF. cbn [append]. rewrite startswith_cons, Ascii.eqb_sym. reflexivity.
Qed.

(** A run that is not matched has fewer than three line feeds. *)
Lemma match_line_feeds_None (c : ascii) (r : string) :
  match_line_feeds (String c r) = None -> is_LF c = true ->
  startswith (LF ++ LF) r = false.
Proof.
  intros H Hc. destruct r as [| c1 r1]; [reflexivity |].
  rewrite starts_LF2. destruct (is_LF c1) eqn:H1; [| reflexivity].
  destruct r1 as [| c2 r2]; [reflexivity |].
  rewrite starts_LF. destruct (is_LF c2) eqn:H2; [| reflexivity].
  unfold match_line_feeds in H. cbn [span] in H. rewrite Hc, H1, H2 in H.
  destruct (span is_LF r2). discriminate.
Qed.

(** A match is the whole run at the head, of three line feeds or more. *)
Lemma match_line_feeds_Some (c : ascii) (r : string) (k : nat) :
  match_line_feeds (String c r) = Some k ->
  exists a b, span is_LF (String c r) = (a, b) /\ truthy a = true
              /\ k = String.length a /\ is_LF c = true /\ startswith LF r = true.
Proof.
  unfold match_line_feeds. intros H.
  destruct (span is_LF (String c r)) as [a b] eqn:Hs.
  destruct (3 <=? String.length a)%nat eqn:L; [| discriminate].
  injection H as <-. exists a, b.
  destruct (ParserFacts.span_spec _ _ _ _ Hs) as [E [Ha _]].
  destruct a as [| c0 [| c1 a]]; [discriminate | discriminate |].
  simpl in E. injection E as -> ->.
  simpl in Ha. apply andb_true_iff in Ha as [H0 Ha].
  apply andb_true_iff in Ha as [H1 _].
  repeat split; [exact H0 |].
  change (String c1 a ++ b) with (String c1 (a ++ b)).
  rewrite starts_LF. exact H1.
Qed.

(** After the scan no three line feeds follow one another, and a text
    that starts with fewer than two still does. *)
Lemma line_feeds_collapsed (n : nat) (s : string) :
  String.length s <= n ->
  contains (LF ++ LF ++ LF) (sub match_line_feeds (LF ++ LF) s) = false
  /\ (startswith LF s = false ->
      startswith LF (sub match_line_feeds (LF ++ LF) s) = false)
  /\ (startswith (LF ++ LF) s = false ->
      startswith (LF ++ LF) (sub match_line_feeds (LF ++ LF) s) = false).
Proof.
  unfold sub. revert s. induction n as [| n IH]; intros s Hn.
  - destruct s; [| simpl in Hn; lia]. repeat split.
  - destruct s as [| c r]; [repeat split |].
    destruct (match_line_feeds (String c r)) as [k |] eqn:M.
    + destruct (match_line_feeds_Some c r k M) as [a [b [Hs [Ha [-> [Hc Hr]]]]]].
      rewrite (sub_go_run _ _ _ _ _ _ Hs Ha M).
      destruct (ParserFacts.span_spec _ _ _ _ Hs) as [E [_ Hb]].
      assert (Hlen : String.length b <= n).
      { pose proof (ParserFacts.span_length _ _ _ _ Hs) as L.
        destruct a; [discriminate |]. simpl in L, Hn. lia. }
      destruct (IH b Hlen) as [H1 [H2 _]].
      assert (Hb' : startswith LF b = false).
      { destruct b as [| d b]; [reflexivity |]. rewrite starts_LF. exact Hb. }
      specialize (H2 Hb').
      split; [| split].
      * change ((LF ++ LF) ++ sub_go match_line_feeds (LF ++ LF) b 0)
          with (String (ascii_of_nat 10)
                  (String (ascii_of_nat 10) (sub_go match_line_feeds (LF ++ LF) b 0))).
        rewrite !contains_cons, H1, starts_LF3, starts_LF2, starts_LF3, H2.
        rewrite (startswith_longer LF LF _ H2).
        rewrite !andb_false_r. reflexivity.
      * rewrite starts_LF. congruence.
      * rewrite starts_LF2, Hc, Hr. discriminate.
    + rewrite (sub_go_none _ _ _ _ M).
      simpl in Hn. destruct (IH r ltac:(lia)) as [H1 [H2 H3]].
      split; [| split].
      * rewrite contains_cons, H1, starts_LF3, orb_false_r.
        destruct (is_LF c) eqn:Hc; [| reflexivity].
        rewrite (H3 (match_line_feeds_None c r M Hc)). reflexivity.
      * rewrite !starts_LF. trivial.
      * rewrite !starts_LF2. intros H.
        destruct (is_LF c); [| reflexivity].
        simpl in H |- *. exact (H2 H).
Qed.

(** The converted text holds no run of three line feeds. *)
Lemma convert_content_spacing (html_content : string) :
  contains (LF ++ LF ++ LF) (_convert_content html_content) = false.
Proof.
  unfold _convert_content. cbv zeta.
  exact (proj1 (line_feeds_collapsed _ _ (le_n _))).
Qed.

(** *** Text without markup *)

Lemma match_element_head (opening closing : string) (c : ascii) (r : string) :
  Ascii.eqb c "<" = false ->
  match_element (String "<" opening) closing (String c r) = None.
Proof.
  intros H. unfold match_element. rewrite (strip_prefix_head _ _ _ _ H). reflexivity.
Qed.

(** A text with no [<] and no [&] is changed by the last step only. *)
Lemma convert_content_plain (text : string) :
  all_chars (is_not "<") text = true -> all_chars (is_not "&") text = true ->
  _convert_content text = sub match_line_feeds (LF ++ LF) text.
Proof.
  intros Hlt Hamp. unfold _convert_content, convert_heading. cbn [fold_left].
  cbv zeta.
  repeat (rewrite (sub_with_absent _ _ "<" text);
          [| intros c r Hc;
             cbn [first_match append];
             unfold match_pre_code, match_link;
             rewrite ?(match_element_head _ _ _ _ Hc), ?(strip_prefix_head _ _ _ _ Hc);
             reflexivity
           | exact Hlt]).
  rewrite (sub_absent _ _ "<" text);
    [| intros c r Hc; unfold match_open_tag;
       rewrite (strip_prefix_head _ _ _ _ Hc); reflexivity
     | exact Hlt].
  rewrite (sub_absent _ _ "<" text);
    [| intros c r Hc; unfold DuckDuckGoClient.match_tag;
       rewrite (strip_prefix_head _ _ _ _ Hc); reflexivity
     | exact Hlt].
  unfold decode_entities.
  rewrite !(replace_absent "&" _ _ text Hamp). reflexivity.
Qed.

End MarkdownFacts.
(* ===================================================================== *)
(** ** The sanitizer *)
(* ===================================================================== *)

Module SanitizerFacts.
Local Open Scope string_scope.
Import Soup Sanitizer TreeFacts LoopFacts.

Lemma remove_Tag (p : node -> bool) (name : string) (attrs : list (string * string))
      (cs : list node) :
  remove p (Tag name attrs cs)
  = Tag name attrs (map (remove p) (filter (fun c => negb (p c)) cs)).
Proof.
  simpl. f_equal. induction cs as [| c cs IH]; [reflexivity |].
  simpl. destruct (p c); simpl; rewrite IH; reflexivity.
Qed.

(** What is left below an element after a removal comes from what was
    below it and did not pass the test. *)
Lemma remove_origin (p : node -> bool) (n d : node) :
  In d (descendants (remove p n)) ->
  exists d0, In d0 (descendants n) /\ p d0 = false /\ d = remove p d0.
Proof.
  revert d. induction n as [s | s | name attrs cs IH | class s] using node_induction;
    intros d H; try contradiction.
  rewrite remove_Tag in H. apply descendants_inv in H.
  destruct H as [c' [Hc' Hd]].
  apply in_map_iff in Hc'. destruct Hc' as [c [<- Hc]].
  apply filter_In in Hc. destruct Hc as [Hc Hp]. apply negb_true_iff in Hp.
  destruct Hd as [-> | Hd].
  - exists c. repeat split; [exact (child_is_descendant _ _ _ _ Hc) | exact Hp].
  - rewrite Forall_forall in IH.
    destruct (IH c Hc d Hd) as [d0 [H0 [Hp0 E]]].
    exists d0. repeat split; [exact (descendant_of_child _ _ _ _ _ Hc H0) | exact Hp0 | exact E].
Qed.

(** The same for a loop that changes the elements and drops none. *)
Lemma below_origin (f : node -> node) (soup d : node) :
  (forall c x, In x (descendants (f c)) -> exists x0, In x0 (descendants c) /\ x = f x0) ->
  In d (descendants (below f soup)) ->
  exists d0, In d0 (descendants soup) /\ d = f d0.
Proof.
  intros Hf H. destruct soup as [s | s | name attrs cs | class s]; try contradiction.
  simpl below in H. apply descendants_inv in H.
  destruct H as [c' [Hc' Hd]].
  apply in_map_iff in Hc'. destruct Hc' as [c [<- Hc]].
  destruct Hd as [-> | Hd].
  - exists c. split; [exact (child_is_descendant _ _ _ _ Hc) | reflexivity].
  - destruct (Hf c d Hd) as [x0 [H0 E]].
    exists x0. split; [exact (descendant_of_child _ _ _ _ _ Hc H0) | exact E].
Qed.

Lemma replace_images_origin (n d : node) :
  In d (descendants (replace_images n)) ->
  exists d0, In d0 (descendants n) /\ d = replace_images d0.
Proof.
  revert d. induction n as [s | s | name attrs cs IH | class s] using node_induction;
    intros d H; try contradiction.
  simpl replace_images in H. destruct (String.eqb name "img"); [contradiction |].
  apply descendants_inv in H.
  destruct H as [c' [Hc' Hd]].
  apply in_map_iff in Hc'. destruct Hc' as [c [<- Hc]].
  destruct Hd as [-> | Hd].
  - exists c. split; [exact (child_is_descendant _ _ _ _ Hc) | reflexivity].
  - rewrite Forall_forall in IH.
    destruct (IH c Hc d Hd) as [d0 [H0 E]].
    exists d0. split; [exact (descendant_of_child _ _ _ _ _ Hc H0) | exact E].
Qed.

(** A test that looks at the name and the attributes of a tag, or at a
    string, gives the same before and after a removal below it. *)
Lemma named_after_remove (names : list string) (p : node -> bool) (d : node) :
  is_tag_named names (remove p d) = is_tag_named names d.
Proof.
  destruct d; [reflexivity | reflexivity | rewrite remove_Tag; reflexivity | reflexivity].
Qed.

Lemma mark_after_remove (p : node -> bool) (d : node) :
  holds_comment_mark (remove p d) = holds_comment_mark d.
Proof.
  destruct d; [reflexivity | reflexivity | rewrite remove_Tag; reflexivity | reflexivity].
Qed.

Lemma hidden_after_remove (p : node -> bool) (d : node) :
  is_hidden (remove p d) = is_hidden d.
Proof.
  destruct d; [reflexivity | reflexivity | rewrite remove_Tag; reflexivity | reflexivity].
Qed.

Lemma attrs_get_set_same (key value : string) (attrs : list (string * string)) :
  attrs_get key attrs <> None -> attrs_get key (set_attr key value attrs) = Some value.
Proof.
  induction attrs as [| [k v] r IH]; intros H; [contradiction |].
  simpl in H |- *. destruct (String.eqb key k) eqn:E; simpl; rewrite E; auto.
Qed.

Lemma attrs_get_set_other (key key' value : string) (attrs : list (string * string)) :
  String.eqb key' key = false ->
  attrs_get key' (set_attr key value attrs) = attrs_get key' attrs.
Proof.
  intros Hk. induction attrs as [| [k v] r IH]; [reflexivity |].
  simpl. destruct (String.eqb key k) eqn:E; simpl.
  - apply String.eqb_eq in E. subst k. rewrite Hk. reflexivity.
  - rewrite IH. reflexivity.
Qed.

(** An image gives a string; another element keeps its name and its
    attributes. *)
Lemma replace_images_Tag (d : node) (name : string) (attrs : list (string * string))
      (cs : list node) :
  replace_images d = Tag name attrs cs ->
  String.eqb name "img" = false /\ exists cs0, d = Tag name attrs cs0.
Proof.
  destruct d as [s | s | nm a c | class s]; simpl; try discriminate.
  destruct (String.eqb nm "img") eqn:E; [discriminate |].
  intros H. injection H as <- <- _. split; [exact E | eauto].
Qed.

Section Clean.
Variables (html_parser : string -> Py.result node)
          (urljoin : string -> string -> Py.result string).

(** The loop over the links for one element: its own href, then what it
    holds. *)
Lemma absolute_links_Tag (base_url name : string) (attrs : list (string * string))
      (cs : list node) :
  absolute_links urljoin base_url (Tag name attrs cs)
  = Py.bind (link_attrs urljoin base_url name attrs)
            (fun attrs' =>
               Py.bind (Py.for_each (absolute_links urljoin base_url) cs)
                       (fun cs' => Py.Ok (Tag name attrs' cs'))).
Proof.
  cbn [absolute_links].
  destruct (link_attrs urljoin base_url name attrs) as [attrs' | e];
    cbn [Py.bind]; [| reflexivity].
  f_equal. induction cs as [| c cs IH]; [reflexivity |].
  cbn [Py.for_each]. rewrite IH. reflexivity.
Qed.

(** What the loop returns for an element: a string as it is, a tag
    with its new attributes and what the loop returned for its contents. *)
Lemma links_cases (base_url : string) (d d' : node) :
  absolute_links urljoin base_url d = Py.Ok d' ->
  match d with
  | Tag name attrs cs =>
      exists attrs' cs',
        link_attrs urljoin base_url name attrs = Py.Ok attrs'
        /\ Py.for_each (absolute_links urljoin base_url) cs = Py.Ok cs'
        /\ d' = Tag name attrs' cs'
  | _ => d' = d
  end.
Proof.
  destruct d as [s | s | name attrs cs | class s];
    try (intros H; injection H as <-; reflexivity).
  rewrite absolute_links_Tag.
  destruct (link_attrs urljoin base_url name attrs) as [attrs' |];
    cbn [Py.bind]; [| discriminate].
  destruct (Py.for_each (absolute_links urljoin base_url) cs) as [cs' |];
    cbn [Py.bind]; [| discriminate].
  intros H. injection H as <-. eauto.
Qed.

(** What the loop returns for a tag is a tag of the same name, with the
    attributes [link_attrs] gave. *)
Lemma links_Tag (base_url : string) (d : node) (name : string)
      (attrs : list (string * string)) (cs : list node) :
  absolute_links urljoin base_url d = Py.Ok (Tag name attrs cs) ->
  exists attrs0 cs0, d = Tag name attrs0 cs0
                     /\ link_attrs urljoin base_url name attrs0 = Py.Ok attrs.
Proof.
  destruct d as [s | s | nm a c | class s]; try discriminate.
  rewrite absolute_links_Tag.
  destruct (link_attrs urljoin base_url nm a) as [attrs' |] eqn:E;
    cbn [Py.bind]; [| discriminate].
  destruct (Py.for_each (absolute_links urljoin base_url) c) as [cs' |];
    cbn [Py.bind]; [| discriminate].
  intros H. injection H as <- <- <-. eauto.
Qed.

Lemma links_of_string (base_url : string) (d d' : node) :
  absolute_links urljoin base_url d = Py.Ok d' ->
  match d with Tag _ _ _ => True | _ => d' = d end.
Proof.
  destruct d; try exact (fun _ => I); intros H; injection H as <-; reflexivity.
Qed.

Lemma absolute_links_origin (base_url : string) (n n' d : node) :
  absolute_links urljoin base_url n = Py.Ok n' ->
  In d (descendants n') ->
  exists d0, In d0 (descendants n) /\ absolute_links urljoin base_url d0 = Py.Ok d.
Proof.
  revert n' d.
  induction n as [s | s | name attrs cs IH | class s] using node_induction;
    intros n' d Hn H;
    try (injection Hn as <-; contradiction).
  rewrite absolute_links_Tag in Hn.
  destruct (link_attrs urljoin base_url name attrs) as [attrs' |];
    cbn [Py.bind] in Hn; [| discriminate].
  destruct (Py.for_each (absolute_links urljoin base_url) cs) as [cs' |] eqn:F;
    cbn [Py.bind] in Hn; [| discriminate].
  injection Hn as <-.
  apply descendants_inv in H. destruct H as [c' [Hc' Hd]].
  destruct (for_each_source _ _ _ _ F Hc') as [c [Hc Ec]].
  destruct Hd as [-> | Hd].
  - exists c. split; [exact (child_is_descendant _ _ _ _ Hc) | exact Ec].
  - rewrite Forall_forall in IH.
    destruct (IH c Hc c' d Ec Hd) as [d0 [H0 E]].
    exists d0. split; [exact (descendant_of_child _ _ _ _ _ Hc H0) | exact E].
Qed.

Lemma links_below_origin (base_url : string) (soup soup' d : node) :
  links_below urljoin base_url soup = Py.Ok soup' ->
  In d (descendants soup') ->
  exists d0, In d0 (descendants soup) /\ absolute_links urljoin base_url d0 = Py.Ok d.
Proof.
  intros Hs H. destruct soup as [s | s | name attrs cs | class s];
    try (injection Hs as <-; contradiction).
  cbn [links_below] in Hs.
  destruct (Py.for_each (absolute_links urljoin base_url) cs) as [cs' |] eqn:F;
    cbn [Py.bind] in Hs; [| discriminate].
  injection Hs as <-.
  apply descendants_inv in H. destruct H as [c' [Hc' Hd]].
  destruct (for_each_source _ _ _ _ F Hc') as [c [Hc Ec]].
  destruct Hd as [-> | Hd].
  - exists c. split; [exact (child_is_descendant _ _ _ _ Hc) | exact Ec].
  - destruct (absolute_links_origin base_url c c' d Ec Hd) as [d0 [H0 E]].
    exists d0. split; [exact (descendant_of_child _ _ _ _ _ Hc H0) | exact E].
Qed.

(** What [clean_html] returns is made of the parsed page in five steps. *)
Lemma clean_html_steps (html_content base_url : string) (page : node) :
  clean_html html_parser urljoin html_content base_url = Py.Ok page ->
  exists soup linked,
    html_parser html_content = Py.Ok soup
    /\ links_below urljoin base_url
         (remove is_hidden
            (remove holds_comment_mark (remove (is_tag_named REMOVED) soup)))
       = Py.Ok linked
    /\ page = below replace_images linked.
Proof.
  unfold clean_html. intros H.
  destruct (html_parser html_content) as [soup |]; cbn [Py.bind] in H; [| discriminate].
  cbv zeta in H.
  destruct (links_below urljoin base_url _) as [linked |] eqn:L;
    cbn [Py.bind] in H; [| discriminate].
  injection H as <-. exists soup, linked. repeat split. exact L.
Qed.

(** Every element of the cleaned page comes from an element of the
    parsed page that none of the three removals takes. *)
Lemma clean_html_origin (html_content base_url : string) (page d : node) :
  clean_html html_parser urljoin html_content base_url = Py.Ok page ->
  In d (descendants page) ->
  exists soup d0 d1,
    html_parser html_content = Py.Ok soup
    /\ In d0 (descendants soup)
    /\ is_tag_named REMOVED d0 = false
    /\ holds_comment_mark d0 = false
    /\ is_hidden d0 = false
    /\ absolute_links urljoin base_url
         (remove is_hidden
            (remove holds_comment_mark (remove (is_tag_named REMOVED) d0)))
       = Py.Ok d1
    /\ d = replace_images d1.
Proof.
  intros Hc H. apply clean_html_steps in Hc.
  destruct Hc as [soup [linked [Hp [Hl ->]]]].
  apply (below_origin _ _ _ replace_images_origin) in H.
  destruct H as [d1 [H E5]].
  destruct (links_below_origin _ _ _ _ Hl H) as [d3 [H3 E4]].
  apply remove_origin in H3. destruct H3 as [d2 [H2 [P3 E3]]].
  apply remove_origin in H2. destruct H2 as [d1' [H1 [P2 E2]]].
  apply remove_origin in H1. destruct H1 as [d0 [H0 [P1 E1]]].
  exists soup, d0, d1. subst d1' d2 d3.
  rewrite !hidden_after_remove in P3.
  rewrite mark_after_remove in P2.
  repeat split; assumption.
Qed.

Lemma named_after_links (names : list string) (base_url : string) (d d' : node) :
  absolute_links urljoin base_url d = Py.Ok d' ->
  is_tag_named names d' = is_tag_named names d.
Proof.
  destruct d' as [s | s | name attrs cs | class s]; intros H.
  - pose proof (links_of_string _ _ _ H) as E.
    destruct d; try (rewrite <- E; reflexivity).
    rewrite absolute_links_Tag in H.
    destruct (link_attrs _ _ _ _); cbn [Py.bind] in H; [| discriminate].
    destruct (Py.for_each _ _); cbn [Py.bind] in H; discriminate.
  - pose proof (links_of_string _ _ _ H) as E.
    destruct d; try (rewrite <- E; reflexivity).
    rewrite absolute_links_Tag in H.
    destruct (link_attrs _ _ _ _); cbn [Py.bind] in H; [| discriminate].
    destruct (Py.for_each _ _); cbn [Py.bind] in H; discriminate.
  - apply links_Tag in H. destruct H as [attrs0 [cs0 [-> _]]]. reflexivity.
  - pose proof (links_of_string _ _ _ H) as E.
    destruct d; try (rewrite <- E; reflexivity).
    rewrite absolute_links_Tag in H.
    destruct (link_attrs _ _ _ _); cbn [Py.bind] in H; [| discriminate].
    destruct (Py.for_each _ _); cbn [Py.bind] in H; discriminate.
Qed.

(** The loop over the links leaves every attribute but href as it is. *)
Lemma link_attrs_other (base_url name key : string)
      (attrs attrs' : list (string * string)) :
  link_attrs urljoin base_url name attrs = Py.Ok attrs' ->
  String.eqb key "href" = false ->
  attrs_get key attrs' = attrs_get key attrs.
Proof.
  unfold link_attrs. intros H Hk.
  destruct (String.eqb name "a"); [| injection H as <-; reflexivity].
  destruct (attrs_get "href" attrs) as [href |]; [| injection H as <-; reflexivity].
  destruct (urljoin base_url href) as [joined |]; cbn [Py.bind] in H; [| discriminate].
  injection H as <-. apply attrs_get_set_other. exact Hk.
Qed.

Lemma hidden_after_links (base_url : string) (d d' : node) :
  absolute_links urljoin base_url d = Py.Ok d' ->
  is_hidden d' = is_hidden d.
Proof.
  destruct d as [s | s | name attrs cs | class s];
    try (intros H; injection H as <-; reflexivity).
  rewrite absolute_links_Tag.
  destruct (link_attrs urljoin base_url name attrs) as [attrs' |] eqn:E;
    cbn [Py.bind]; [| discriminate].
  destruct (Py.for_each _ _); cbn [Py.bind]; [| discriminate].
  intros H. injection H as <-. cbn [is_hidden].
  rewrite (link_attrs_other _ _ "style" _ _ E eq_refl). reflexivity.
Qed.

(** No element of a removed name is left, and no image. *)
Lemma clean_html_names (html_content base_url : string) (page : node) :
  clean_html html_parser urljoin html_content base_url = Py.Ok page ->
  find_all ("img" :: REMOVED) page = [].
Proof.
  intros Hc. apply find_all_nil. intros d H.
  destruct (clean_html_origin _ _ _ _ Hc H) as [soup [d0 [d1 [_ [_ [P1 [_ [_ [L ->]]]]]]]]].
  destruct (replace_images d1) as [s | s | name attrs cs | class s] eqn:Ed;
    [reflexivity | reflexivity | | reflexivity].
  apply replace_images_Tag in Ed. destruct Ed as [Hname [cs0 Ed]].
  assert (Hy : is_tag_named REMOVED d1 = false).
  { rewrite (named_after_links _ _ _ _ L), !named_after_remove. exact P1. }
  rewrite Ed in Hy. simpl in Hy.
  cbn [is_tag_named existsb]. rewrite Hname. exact Hy.
Qed.

(** A link that is left comes from a link of the parsed page, and its
    href is what [urljoin] returned for the base URL and the href of
    that link. *)
Lemma clean_html_links (html_content base_url : string) (page : node)
      (attrs : list (string * string)) (cs : list node) (href : string) :
  clean_html html_parser urljoin html_content base_url = Py.Ok page ->
  In (Tag "a" attrs cs) (descendants page) ->
  attrs_get "href" attrs = Some href ->
  exists soup attrs0 cs0 href0,
    html_parser html_content = Py.Ok soup
    /\ In (Tag "a" attrs0 cs0) (descendants soup)
    /\ attrs_get "href" attrs0 = Some href0
    /\ urljoin base_url href0 = Py.Ok href
    /\ attrs = set_attr "href" href attrs0.
Proof.
  intros Hc H Hh.
  destruct (clean_html_origin _ _ _ _ Hc H) as [soup [d0 [d1 [Hp [H0 [_ [_ [_ [L E]]]]]]]]].
  symmetry in E. apply replace_images_Tag in E. destruct E as [_ [cs1 ->]].
  apply links_Tag in L. destruct L as [attrs0 [cs2 [E L]]].
  destruct d0 as [s | s | nm a c | class s]; try discriminate E.
  rewrite !remove_Tag in E. injection E as -> -> _.
  unfold link_attrs in L. cbn [String.eqb Ascii.eqb Bool.eqb] in L.
  destruct (attrs_get "href" attrs0) as [href0 |] eqn:G.
  - destruct (urljoin base_url href0) as [joined |] eqn:J;
      cbn [Py.bind] in L; [| discriminate].
    injection L as <-.
    rewrite attrs_get_set_same in Hh by congruence. injection Hh as ->.
    exists soup, attrs0, c, href0. repeat split; assumption.
  - injection L as <-. congruence.
Qed.

(** No element with a hiding style is left. *)
Lemma clean_html_hidden (html_content base_url : string) (page d : node) :
  clean_html html_parser urljoin html_content base_url = Py.Ok page ->
  In d (descendants page) ->
  is_hidden d = false.
Proof.
  intros Hc H.
  destruct (clean_html_origin _ _ _ _ Hc H) as [soup [d0 [d1 [_ [_ [_ [_ [P3 [L ->]]]]]]]]].
  assert (Hy : is_hidden d1 = false)
    by (rewrite (hidden_after_links _ _ _ L), !hidden_after_remove; exact P3).
  destruct d1 as [s | s | name attrs cs | class s];
    [reflexivity | reflexivity | | reflexivity].
  simpl replace_images. destruct (String.eqb name "img"); [reflexivity | exact Hy].
Qed.

(** What the parser raises for the page is raised by the cleaning. *)
Lemma clean_html_unparsed (html_content base_url : string) (e : Py.exn) :
  html_parser html_content = Py.Raise e ->
  clean_html html_parser urljoin html_content base_url = Py.Raise e.
Proof. intros H. unfold clean_html. rewrite H. reflexivity. Qed.

End Clean.
End SanitizerFacts.
(* ===================================================================== *)
(** ** The handler of GET /read *)
(* ===================================================================== *)

Module ReadFacts.
Local Open Scope string_scope.
Import Py Http WebFetcher ReadEndpoint.

(** A URL that has a scheme is kept. *)
Lemma with_scheme_kept (url : string) :
  PyStr.startswith "http://" url || PyStr.startswith "https://" url = true ->
  with_scheme url = url.
Proof. intros H. unfold with_scheme. rewrite H. reflexivity. Qed.

(** The URL that is fetched has a scheme. *)
Lemma with_scheme_starts (url : string) :
  PyStr.startswith "http://" (with_scheme url)
  || PyStr.startswith "https://" (with_scheme url) = true.
Proof.
  unfold with_scheme.
  destruct (PyStr.startswith "http://" url || PyStr.startswith "https://" url) eqn:E;
    [exact E |].
  unfold PyStr.startswith at 2.
  rewrite (ParserFacts.strip_prefix_app "https://" url). apply orb_true_r.
Qed.

Lemma with_scheme_idempotent (url : string) :
  with_scheme (with_scheme url) = with_scheme url.
Proof. apply with_scheme_kept, with_scheme_starts. Qed.

Section Handler.
Variables (urlparse : string -> result (string * string))
          (html_parser : string -> result Soup.node)
          (urljoin : string -> string -> result string)
          (to_str : Soup.node -> string)
          (json_loads : string -> result pyval)
          (json_dumps : pyval -> string)
          (repr : pyval -> string)
          (exn_text : exn -> string)
          (http_exception_text : Z -> string -> string).

(** The three steps of [process_html] in their order: what it returns
    is the document of the title and the Markdown of the cleaned page,
    and what it raises is what the first failing step raised. *)
Lemma process_html_steps (html_content base_url : string) :
  match Sanitizer.clean_html html_parser urljoin html_content base_url with
  | Raise e =>
      Pipeline.process_html html_parser urljoin to_str html_content base_url = Raise e
  | Ok soup =>
      match HTMLCleaner.extract_title soup with
      | Raise e =>
          Pipeline.process_html html_parser urljoin to_str html_content base_url
          = Raise e
      | Ok title =>
          match Pipeline.html_to_markdown html_parser to_str soup with
          | Raise e =>
              Pipeline.process_html html_parser urljoin to_str html_content base_url
              = Raise e
          | Ok content =>
              Pipeline.process_html html_parser urljoin to_str html_content base_url
              = Ok (ReadApi.document title base_url content)
          end
      end
  end.
Proof.
  unfold Pipeline.process_html.
  destruct (Sanitizer.clean_html _ _ _ _) as [soup |]; cbn [bind]; [| reflexivity].
  destruct (HTMLCleaner.extract_title soup) as [title |]; cbn [bind]; [| reflexivity].
  destruct (Pipeline.html_to_markdown _ _ soup); reflexivity.
Qed.

(** The cleaner gives a document under the base URL, or raises. *)
Lemma process_html_document (html_content base_url : string) :
  (exists title content,
      Pipeline.process_html html_parser urljoin to_str html_content base_url
      = Ok (ReadApi.document title base_url content))
  \/ (exists e,
         Pipeline.process_html html_parser urljoin to_str html_content base_url
         = Raise e).
Proof.
  pose proof (process_html_steps html_content base_url) as H.
  destruct (Sanitizer.clean_html _ _ _ _) as [soup |]; [| right; eauto].
  destruct (HTMLCleaner.extract_title soup) as [title |]; [| right; eauto].
  destruct (Pipeline.html_to_markdown _ _ soup); [left | right]; eauto.
Qed.

(** The body of the handler raises the same for both formats, or returns
    a document for one and the content of that document for the other. *)
Lemma read_body_formats (net : network) (url : string) :
  (exists r, forall format, read_body urlparse html_parser urljoin to_str json_loads json_dumps repr net url format = Raised r)
  \/ (exists title content,
         read_body urlparse html_parser urljoin to_str json_loads json_dumps repr net url json = Return (ReadApi.document title url content)
         /\ read_body urlparse html_parser urljoin to_str json_loads json_dumps repr net url markdown = Return (PStr content)).
Proof.
  unfold ReadEndpoint.read_body.
  destruct (fst (fetch_url urlparse net url 30)) as [[[content content_type] |] | e];
    [| left; eauto | left; eauto].
  destruct (PyStr.contains "text/html" content_type).
  - destruct (process_html_document content url) as [[t [c ->]] | [e ->]];
      [right; exists t, c; split; reflexivity | left; eauto].
  - destruct (PayloadFacts.extract_returns_document json_loads json_dumps repr
                content content_type url) as [[t [c ->]] | [e [_ [_ ->]]]];
      [right; exists t, c; split; reflexivity | left; eauto].
Qed.

(** The two formats of the handler agree: the same error for both, or a
    document under the URL with its scheme and the content of that
    document. *)
Lemma read_url_formats (net : network) (url : string) :
  (exists detail, forall format, read_url urlparse html_parser urljoin to_str json_loads json_dumps repr
    exn_text http_exception_text net url format = HTTPException 500 detail)
  \/ (exists title content,
         read_url urlparse html_parser urljoin to_str json_loads json_dumps repr
    exn_text http_exception_text net url json
         = Returned (ReadApi.document title (with_scheme url) content)
         /\ read_url urlparse html_parser urljoin to_str json_loads json_dumps repr
    exn_text http_exception_text net url markdown = Returned (PStr content)).
Proof.
  unfold ReadEndpoint.read_url. cbv zeta.
  destruct (read_body_formats net (with_scheme url)) as [[r H] | [t [c [Hj Hm]]]].
  - left. eexists. intros format. rewrite H. reflexivity.
  - right. exists t, c. rewrite Hj, Hm. split; reflexivity.
Qed.

(** A URL and the same URL with its scheme are read alike. *)
Lemma read_url_scheme (net : network) (url : string) (format : OutputFormat) :
  read_url urlparse html_parser urljoin to_str json_loads json_dumps repr
    exn_text http_exception_text net (with_scheme url) format = read_url urlparse html_parser urljoin to_str json_loads json_dumps repr
    exn_text http_exception_text net url format.
Proof.
  unfold ReadEndpoint.read_url. rewrite with_scheme_idempotent. reflexivity.
Qed.

(** A fetch that gives nothing ends as status 500: the exception with
    status 404 the handler raises is caught by the handler itself. *)
Lemma fetch_nothing_is_500 (net : network) (url : string) (format : OutputFormat) :
  fst (fetch_url urlparse net (with_scheme url) 30) = Ok None ->
  read_url urlparse html_parser urljoin to_str json_loads json_dumps repr
    exn_text http_exception_text net url format
  = HTTPException 500
      ("Error processing URL " ++ with_scheme url ++ ": "
       ++ http_exception_text 404
            ("Failed to fetch URL or URL not found: " ++ with_scheme url)).
Proof.
  intros H. unfold ReadEndpoint.read_url, ReadEndpoint.read_body. cbv zeta.
  rewrite H. reflexivity.
Qed.

(** A page that cannot be fetched, because the request fails or the
    status is not 200, is reported with status 500. *)
Lemma unfetched_is_500 (net : network) (url scheme netloc : string)
      (format : OutputFormat) :
  urlparse (with_scheme url) = Ok (scheme, netloc) ->
  PyStr.truthy scheme = true -> PyStr.truthy netloc = true ->
  (exists e, net (request_for (with_scheme url) 30) = Failed e)
  \/ (exists response, net (request_for (with_scheme url) 30) = Responded response
                       /\ status response <> 200%Z) ->
  read_url urlparse html_parser urljoin to_str json_loads json_dumps repr
    exn_text http_exception_text net url format
  = HTTPException 500
      ("Error processing URL " ++ with_scheme url ++ ": "
       ++ http_exception_text 404
            ("Failed to fetch URL or URL not found: " ++ with_scheme url)).
Proof.
  intros Hu Hs Hn Hnet. apply fetch_nothing_is_500.
  unfold fetch_url. rewrite Hu, Hs, Hn. cbn [negb orb].
  destruct Hnet as [[e ->] | [response [-> Hst]]]; [reflexivity |].
  apply Z.eqb_neq in Hst. rewrite Hst. reflexivity.
Qed.

(** A URL without a host is reported with status 500 and the text of
    the [ValueError]; nothing is sent. *)
Lemma invalid_url_is_500 (net : network) (url scheme netloc : string)
      (format : OutputFormat) :
  urlparse (with_scheme url) = Ok (scheme, netloc) ->
  PyStr.truthy scheme && PyStr.truthy netloc = false ->
  read_url urlparse html_parser urljoin to_str json_loads json_dumps repr
    exn_text http_exception_text net url format
  = HTTPException 500
      ("Error processing URL " ++ with_scheme url ++ ": "
       ++ exn_text (ValueError "Invalid URL provided")).
Proof.
  intros Hu H. unfold ReadEndpoint.read_url, ReadEndpoint.read_body. cbv zeta.
  rewrite (FetchFacts.invalid_url_raises urlparse net _ 30 scheme netloc Hu H).
  reflexivity.
Qed.

End Handler.
End ReadFacts.

(* ===================================================================== *)
(** ** The API keys *)
(* ===================================================================== *)

Module SecurityFacts.
Local Open Scope string_scope.
Import Security.

(** A key of the environment is not empty and has no space at its ends. *)
Lemma keys_of_trimmed (value key : string) :
  In key (keys_of value) -> PyStr.truthy key = true /\ PyStr.strip key = key.
Proof.
  unfold keys_of. intros H. apply in_map_iff in H.
  destruct H as [k [<- Hk]]. apply filter_In in Hk. destruct Hk as [_ Hk].
  split; [exact Hk | apply StripFacts.strip_idempotent].
Qed.

(** When keys are required the configuration holds one. *)
Lemma init_has_key (fields : SecurityConfig) :
  auth_enabled (init fields) = true -> api_keys (init fields) <> [].
Proof.
  unfold init. destruct (auth_enabled fields) eqn:E.
  - destruct (api_keys fields) eqn:K; simpl; [discriminate |].
    rewrite K. discriminate.
  - rewrite E. discriminate.
Qed.

(** A request passes the check only with a key of the configuration that
    is not empty, unless the check is switched off. *)
Lemma get_api_key_pass (security : SecurityConfig) (header : option string)
      (granted : option string) :
  get_api_key security header = Pass granted ->
  (auth_enabled security = false /\ granted = None)
  \/ (exists key, header = Some key /\ granted = Some key
                  /\ PyStr.truthy key = true /\ In key (api_keys security)).
Proof.
  unfold get_api_key. destruct (auth_enabled security); cbn [negb].
  - destruct header as [key |]; [| discriminate].
    destruct (PyStr.truthy key) eqn:T; cbn [negb]; [| discriminate].
    destruct (existsb (String.eqb key) (api_keys security)) eqn:E; [| discriminate].
    intros H. injection H as <-. right. exists key. repeat split; [exact T |].
    apply existsb_exists in E. destruct E as [k [Hk E]].
    apply String.eqb_eq in E. subst k. exact Hk.
  - intros H. injection H as <-. left. split; reflexivity.
Qed.

(** Every refusal has status 401. *)
Lemma get_api_key_reject (security : SecurityConfig) (header : option string)
      (status_code : Z) (detail : string) :
  get_api_key security header = Reject status_code detail -> status_code = 401%Z.
Proof.
  unfold get_api_key. destruct (auth_enabled security); cbn [negb]; [| discriminate].
  destruct header as [key |]; [| intros H; injection H as <- _; reflexivity].
  destruct (PyStr.truthy key); cbn [negb];
    [| intros H; injection H as <- _; reflexivity].
  destruct (existsb (String.eqb key) (api_keys security));
    [discriminate | intros H; injection H as <- _; reflexivity].
Qed.

(** A key of the configuration that is not empty passes. *)
Lemma get_api_key_accepts (security : SecurityConfig) (key : string) :
  auth_enabled security = true -> PyStr.truthy key = true ->
  In key (api_keys security) ->
  get_api_key security (Some key) = Pass (Some key).
Proof.
  intros Ha Ht Hin. unfold get_api_key. rewrite Ha, Ht. cbn [negb].
  assert (E : existsb (String.eqb key) (api_keys security) = true).
  { apply existsb_exists. exists key. split; [exact Hin | apply String.eqb_refl]. }
  rewrite E. reflexivity.
Qed.

End SecurityFacts.
(* ===================================================================== *)
(** ** The pipeline and the country code *)
(* ===================================================================== *)

Module PipelineFacts.
Local Open Scope string_scope.
Import PyStr.

(** [html_to_markdown] returns the trimmed conversion of the content
    with its tables replaced, and raises what the replacement of the
    tables raises. *)
Lemma html_to_markdown_steps (html_parser : string -> Py.result Soup.node)
      (to_str : Soup.node -> string) (soup : Soup.node) :
  Pipeline.html_to_markdown html_parser to_str soup
  = match HTMLCleaner._convert_tables html_parser (Pipeline.main_content soup) with
    | Py.Ok converted => Py.Ok (strip (Markdown._convert_content (to_str converted)))
    | Py.Raise e => Py.Raise e
    end.
Proof.
  unfold Pipeline.html_to_markdown.
  destruct (HTMLCleaner._convert_tables _ _); reflexivity.
Qed.

(** The Markdown of a page is trimmed and holds no run of three line
    feeds. *)
Lemma html_to_markdown_spacing (html_parser : string -> Py.result Soup.node)
      (to_str : Soup.node -> string) (soup : Soup.node) (markdown : string) :
  Pipeline.html_to_markdown html_parser to_str soup = Py.Ok markdown ->
  contains (LF ++ LF ++ LF) markdown = false /\ strip markdown = markdown.
Proof.
  rewrite html_to_markdown_steps.
  destruct (HTMLCleaner._convert_tables _ _) as [converted |]; [| discriminate].
  intros H. injection H as <-. split.
  - apply ScanFacts.strip_contains, MarkdownFacts.convert_content_spacing.
  - apply StripFacts.strip_idempotent.
Qed.

(** A page whose content holds no table is converted without a call of
    the parser. *)
Lemma html_to_markdown_without_table (html_parser : string -> Py.result Soup.node)
      (to_str : Soup.node -> string) (soup : Soup.node) :
  Soup.find_all ["table"] (Pipeline.main_content soup) = [] ->
  Pipeline.html_to_markdown html_parser to_str soup
  = Py.Ok (strip (Markdown._convert_content (to_str (Pipeline.main_content soup)))).
Proof.
  intros H. rewrite html_to_markdown_steps.
  rewrite (TableFacts.convert_tables_without_table html_parser _ H). reflexivity.
Qed.

End PipelineFacts.

Module CountryFacts.
Local Open Scope string_scope.
Import PyStr BraveSearchClient.

Lemma split_without (sep : ascii) (b : string) :
  all_chars (is_not sep) b = true -> split sep b = [b].
Proof.
  induction b as [| c b IH]; intros H; [reflexivity |].
  simpl in H. apply andb_true_iff in H as [Hc Hb].
  unfold is_not in Hc. apply negb_true_iff in Hc.
  simpl. rewrite Hc, (IH Hb). reflexivity.
Qed.

Lemma split_at_first (sep : ascii) (a r : string) :
  all_chars (is_not sep) a = true ->
  split sep (a ++ String sep r) = a :: split sep r.
Proof.
  induction a as [| c a IH]; intros H.
  - simpl. rewrite Ascii.eqb_refl. reflexivity.
  - simpl in H. apply andb_true_iff in H as [Hc Ha].
    unfold is_not in Hc. apply negb_true_iff in Hc.
    simpl. rewrite Hc, (IH Ha). reflexivity.
Qed.

Lemma contains_without (sep : ascii) (b : string) :
  all_chars (is_not sep) b = true -> contains (String sep EmptyString) b = false.
Proof.
  induction b as [| c b IH]; intros H; [reflexivity |].
  simpl in H. apply andb_true_iff in H as [Hc Hb].
  unfold is_not in Hc. apply negb_true_iff in Hc.
  rewrite ScanFacts.contains_cons, ScanFacts.startswith_cons, Ascii.eqb_sym, Hc.
  exact (IH Hb).
Qed.

Lemma contains_at (sep : ascii) (a r : string) :
  contains (String sep EmptyString) (a ++ String sep r) = true.
Proof.
  apply ScanFacts.contains_app_r.
  rewrite ScanFacts.contains_cons, ScanFacts.startswith_cons, Ascii.eqb_refl.
  destruct r; reflexivity.
Qed.

(** A language without a dash gives US. *)
Lemma country_default (language : string) :
  all_chars (is_not "-") language = true -> _extract_country_code language = "US".
Proof.
  intros H. unfold _extract_country_code.
  rewrite (contains_without "-" language H). reflexivity.
Qed.

(** The code is the part behind the first dash, in upper case. *)
Lemma country_second_part (a b : string) :
  all_chars (is_not "-") a = true -> all_chars (is_not "-") b = true ->
  _extract_country_code (a ++ "-" ++ b) = upper b.
Proof.
  intros Ha Hb. unfold _extract_country_code.
  change (a ++ "-" ++ b) with (a ++ String "-" b).
  rewrite (contains_at "-" a b), (split_at_first "-" a b Ha), (split_without "-" b Hb).
  reflexivity.
Qed.

(** Of a tag of three parts or more it is the second part, not the last. *)
Lemma country_of_longer_tag (a b rest : string) :
  all_chars (is_not "-") a = true -> all_chars (is_not "-") b = true ->
  _extract_country_code (a ++ "-" ++ b ++ "-" ++ rest) = upper b.
Proof.
  intros Ha Hb. unfold _extract_country_code.
  change (a ++ "-" ++ b ++ "-" ++ rest) with (a ++ String "-" (b ++ String "-" rest)).
  rewrite (contains_at "-" a _), (split_at_first "-" a _ Ha), (split_at_first "-" b _ Hb).
  reflexivity.
Qed.

End CountryFacts.

(* ===================================================================== *)
(** ** Lists *)
(* ===================================================================== *)

Module ListFacts.

(** A test that does not hold for all elements fails for one of them. *)
Lemma forallb_false {A} (f : A -> bool) (l : list A) :
  forallb f l = false -> exists x, In x l /\ f x = false.
Proof.
  induction l as [| a l IH]; simpl; [discriminate |].
  destruct (f a) eqn:E.
  - intros H. destruct (IH H) as [x [Hx Hf]]. exists x. auto.
  - intros _. exists a. auto.
Qed.

End ListFacts.
(* ===================================================================== *)
(** ** What the sanitizer keeps *)
(* ===================================================================== *)

Module KeptFacts.
Local Open Scope string_scope.
Import Soup Sanitizer TreeFacts LoopFacts SanitizerFacts.

Lemma taken_parts (c : node) :
  taken c = false ->
  is_tag_named REMOVED c = false /\ holds_comment_mark c = false
  /\ is_hidden c = false.
Proof.
  unfold taken. intros H.
  apply orb_false_iff in H as [H H3]. apply orb_false_iff in H as [H1 H2]. auto.
Qed.

Lemma taken_after_remove (p : node -> bool) (c : node) :
  taken (remove p c) = taken c.
Proof.
  unfold taken.
  rewrite named_after_remove, mark_after_remove, hidden_after_remove. reflexivity.
Qed.

Lemma kept_child_of_remove (p : node -> bool) (cs : list node) (c : node) :
  In c cs -> p c = false ->
  In (remove p c) (map (remove p) (filter (fun x => negb (p x)) cs)).
Proof.
  intros Hc Hp. apply in_map. apply filter_In. split; [exact Hc |].
  rewrite Hp. reflexivity.
Qed.

(** What is kept below an element is kept below it after a removal that
    takes away only what the three loops take away. *)
Lemma kept_after_remove (p : node -> bool) (n d : node) :
  (forall c, taken c = false -> p c = false) ->
  kept_below n d -> kept_below (remove p n) (remove p d).
Proof.
  intros Hp H. induction H as [name attrs cs c Hc Ht | name attrs cs c d Hc Ht Hi H IH];
    rewrite remove_Tag.
  - apply kept_child.
    + exact (kept_child_of_remove p cs c Hc (Hp c Ht)).
    + rewrite taken_after_remove. exact Ht.
  - apply (kept_deeper _ _ _ (remove p c)).
    + exact (kept_child_of_remove p cs c Hc (Hp c Ht)).
    + rewrite taken_after_remove. exact Ht.
    + rewrite named_after_remove. exact Hi.
    + exact IH.
Qed.

(** The root counts by its contents only. *)
Lemma kept_below_root (name name' : string) (attrs attrs' : list (string * string))
      (cs : list node) (d : node) :
  kept_below (Tag name attrs cs) d -> kept_below (Tag name' attrs' cs) d.
Proof.
  intros H. inversion H; subst.
  - apply kept_child; assumption.
  - apply (kept_deeper _ _ _ c); assumption.
Qed.

(** What is kept is found below the element after the loop over the
    images, replaced if it is an image. *)
Lemma kept_after_images (n d : node) :
  kept_below n d -> In (replace_images d) (descendants (below replace_images n)).
Proof.
  intros H. induction H as [name attrs cs c Hc Ht | name attrs cs c d Hc Ht Hi H IH];
    cbn [below].
  - apply child_is_descendant. apply in_map. exact Hc.
  - apply (descendant_of_child _ _ _ (replace_images c)).
    + apply in_map. exact Hc.
    + destruct c as [s | s | nm at' cs' | class s];
        [inversion H | inversion H | | inversion H].
      cbn [is_tag_named existsb] in Hi. rewrite orb_false_r in Hi.
      cbn [replace_images]. rewrite Hi. exact IH.
Qed.

Section Clean.
Variables (html_parser : string -> Py.result node)
          (urljoin : string -> string -> Py.result string).

Lemma mark_after_links (base_url : string) (c c' : node) :
  absolute_links urljoin base_url c = Py.Ok c' ->
  holds_comment_mark c' = holds_comment_mark c.
Proof.
  intros H. apply links_cases in H.
  destruct c as [s | s | name attrs cs | class s]; try (rewrite H; reflexivity).
  destruct H as [attrs' [cs' [_ [_ ->]]]]. reflexivity.
Qed.

Lemma taken_after_links (base_url : string) (c c' : node) :
  absolute_links urljoin base_url c = Py.Ok c' -> taken c' = taken c.
Proof.
  intros H. unfold taken.
  rewrite (named_after_links urljoin _ _ _ _ H), (mark_after_links _ _ _ H),
    (hidden_after_links urljoin _ _ _ H).
  reflexivity.
Qed.

(** What is kept among the contents is kept among what the loop over
    the links returned for them. *)
Lemma kept_after_links (base_url : string) (cs cs' : list node) (d : node) :
  Py.for_each (absolute_links urljoin base_url) cs = Py.Ok cs' ->
  forall name attrs name' attrs',
    kept_below (Tag name attrs cs) d ->
    exists d', absolute_links urljoin base_url d = Py.Ok d'
               /\ kept_below (Tag name' attrs' cs') d'.
Proof.
  intros F name attrs name' attrs' H.
  remember (Tag name attrs cs) as n eqn:En.
  revert name attrs name' attrs' cs cs' F En.
  induction H as [nm at0 l c Hc Ht | nm at0 l c d Hc Ht Hi H IH];
    intros name attrs name' attrs' cs cs' F En; injection En as -> -> ->.
  - destruct (for_each_image _ _ _ _ F Hc) as [c' [Hc' Ec]].
    exists c'. split; [exact Ec |].
    apply kept_child; [exact Hc' |].
    rewrite (taken_after_links _ _ _ Ec). exact Ht.
  - destruct (for_each_image _ _ _ _ F Hc) as [c' [Hc' Ec]].
    pose proof (links_cases urljoin _ _ _ Ec) as K.
    destruct c as [s | s | cn ca cc | class s];
      [inversion H | inversion H | | inversion H].
    destruct K as [ca' [cc' [_ [Fc ->]]]].
    destruct (IH cn ca cn ca' cc cc' Fc eq_refl) as [d' [Ed Kd]].
    exists d'. split; [exact Ed |].
    apply (kept_deeper _ _ _ (Tag cn ca' cc')); [exact Hc' | | | exact Kd].
    + rewrite (taken_after_links _ _ _ Ec). exact Ht.
    + exact Hi.
Qed.

Lemma kept_below_links (base_url : string) (n n' d : node) :
  links_below urljoin base_url n = Py.Ok n' ->
  kept_below n d ->
  exists d', absolute_links urljoin base_url d = Py.Ok d' /\ kept_below n' d'.
Proof.
  intros L H.
  destruct n as [s | s | name attrs cs | class s];
    [inversion H | inversion H | | inversion H].
  cbn [links_below] in L.
  destruct (Py.for_each (absolute_links urljoin base_url) cs) as [cs' |] eqn:F;
    cbn [Py.bind] in L; [| discriminate].
  injection L as <-.
  exact (kept_after_links base_url cs cs' d F name attrs name attrs H).
Qed.

(** Every element of the parsed page that is kept is found in the
    cleaned page, as the loops changed it. *)
Lemma clean_html_keeps (html_content base_url : string) (soup page d : node) :
  html_parser html_content = Py.Ok soup ->
  clean_html html_parser urljoin html_content base_url = Py.Ok page ->
  kept_below soup d ->
  exists d',
    absolute_links urljoin base_url
      (remove is_hidden
         (remove holds_comment_mark (remove (is_tag_named REMOVED) d)))
    = Py.Ok d'
    /\ In (replace_images d') (descendants page).
Proof.
  intros Hp Hc H. apply (clean_html_steps html_parser urljoin) in Hc.
  destruct Hc as [soup0 [linked [Hp0 [L ->]]]].
  rewrite Hp in Hp0. injection Hp0 as <-.
  assert (K : kept_below
                (remove is_hidden
                   (remove holds_comment_mark (remove (is_tag_named REMOVED) soup)))
                (remove is_hidden
                   (remove holds_comment_mark (remove (is_tag_named REMOVED) d)))).
  { apply kept_after_remove; [intros c Hc; apply (taken_parts c Hc) |].
    apply kept_after_remove; [intros c Hc; apply (taken_parts c Hc) |].
    apply kept_after_remove; [intros c Hc; apply (taken_parts c Hc) |].
    exact H. }
  destruct (kept_below_links base_url _ _ _ L K) as [d' [Ed Kd]].
  exists d'. split; [exact Ed |]. apply kept_after_images. exact Kd.
Qed.

(** A comment that is kept stays as it is: the loop over the comments
    takes away only a comment whose body holds the opening mark. *)
Lemma clean_html_keeps_comment (html_content base_url body : string)
      (soup page : node) :
  html_parser html_content = Py.Ok soup ->
  clean_html html_parser urljoin html_content base_url = Py.Ok page ->
  kept_below soup (Comment body) ->
  In (Comment body) (descendants page).
Proof.
  intros Hp Hc H.
  destruct (clean_html_keeps html_content base_url soup page (Comment body) Hp Hc H)
    as [d' [Ed Hin]].
  injection Ed as <-. exact Hin.
Qed.

End Clean.
End KeptFacts.

(* ===================================================================== *)
(** * Properties of the sources beyond the specification *)
(* ===================================================================== *)

Local Open Scope string_scope.

(** ** app/utils/web_fetcher.py *)

(** X1. Whatever [fetch_url] returns as content comes with a media type
    of the list of text types: the declared type when the body was read,
    text/plain with each of the three placeholders. *)
Theorem X1_fetch_outcome_has_text_type :
  forall (urlparse : string -> Py.result (string * string)) (net : Http.network)
         (url : string) (timeout : Z) (content content_type : string),
    fst (WebFetcher.fetch_url urlparse net url timeout)
    = Py.Ok (Some (content, content_type)) ->
    FetchOutcome.is_text content_type = true.
Proof.
  intros urlparse net url timeout content content_type H.
  exact (FetchFacts.outcome_type_is_text urlparse net url timeout content content_type H).
Qed.

(** X1, witness: the page of the sample site. *)
Lemma X1_home_page_witness :
  fst (WebFetcher.fetch_url Samples.parse_https Samples.site "https://example.org/" 30)
  = Py.Ok (Some (Samples.home_page, "text/html"))
  /\ FetchOutcome.is_text "text/html" = true.
Proof.
  split; [reflexivity |].
  exact (X1_fetch_outcome_has_text_type Samples.parse_https Samples.site
           "https://example.org/" 30 Samples.home_page "text/html" eq_refl).
Defined.

(** X2. [fetch_url] raises for a URL without a scheme or without a host,
    before anything is sent, and for no other URL: with both, every
    failure of the network, of the server or of the decoding ends as a
    returned value. *)
Theorem X2_fetch_raises_only_for_bad_url :
  forall (urlparse : string -> Py.result (string * string)) (net : Http.network)
         (url : string) (timeout : Z) (scheme netloc : string),
    urlparse url = Py.Ok (scheme, netloc) ->
    if PyStr.truthy scheme && PyStr.truthy netloc
    then exists outcome, fst (WebFetcher.fetch_url urlparse net url timeout) = Py.Ok outcome
    else WebFetcher.fetch_url urlparse net url timeout
         = (Py.Raise (Py.ValueError "Invalid URL provided"), []).
Proof.
  intros urlparse net url timeout scheme netloc Hu.
  destruct (PyStr.truthy scheme && PyStr.truthy netloc) eqn:E.
  - apply andb_true_iff in E as [Hs Hn].
    exact (FetchFacts.valid_url_never_raises urlparse net url timeout scheme netloc Hu Hs Hn).
  - exact (FetchFacts.invalid_url_raises urlparse net url timeout scheme netloc Hu E).
Qed.

(** X2, witness: a URL without a scheme. *)
Lemma X2_no_scheme_witness :
  WebFetcher.fetch_url Samples.parse_https Samples.offline "example.org" 30
  = (Py.Raise (Py.ValueError "Invalid URL provided"), []).
Proof.
  exact (X2_fetch_raises_only_for_bad_url Samples.parse_https Samples.offline
           "example.org" 30 EmptyString EmptyString eq_refl).
Defined.

(** X3. The body of a response is read only when the status is 200 and
    the declared media type is one of the text types. *)
Theorem X3_body_read_only_if_text :
  forall (urlparse : string -> Py.result (string * string)) (net : Http.network)
         (url : string) (timeout : Z),
    In WebFetcher.ReadBody (snd (WebFetcher.fetch_url urlparse net url timeout)) ->
    exists response,
      net (WebFetcher.request_for url timeout) = Http.Responded response
      /\ Http.status response = 200%Z
      /\ FetchOutcome.is_text (FetchOutcome.content_type_of response) = true.
Proof.
  intros urlparse net url timeout H.
  exact (FetchFacts.body_read_only_if_text urlparse net url timeout H).
Qed.

(** X3, witness: the page of the sample site is read. *)
Lemma X3_page_read_witness :
  exists response,
    Samples.site (WebFetcher.request_for "https://example.org/" 30)
    = Http.Responded response
    /\ Http.status response = 200%Z
    /\ FetchOutcome.is_text (FetchOutcome.content_type_of response) = true.
Proof.
  apply (X3_body_read_only_if_text Samples.parse_https Samples.site
           "https://example.org/" 30).
  left. reflexivity.
Defined.

(** X4. When [fetch_url] returns [None] it has written a log record. *)
Theorem X4_fetch_failure_is_logged :
  forall (urlparse : string -> Py.result (string * string)) (net : Http.network)
         (url : string) (timeout : Z),
    fst (WebFetcher.fetch_url urlparse net url timeout) = Py.Ok None ->
    existsb FetchOutcome.is_log (snd (WebFetcher.fetch_url urlparse net url timeout))
    = true.
Proof.
  intros urlparse net url timeout H.
  exact (FetchFacts.failure_is_logged urlparse net url timeout H).
Qed.

(** X4, witness: a page the sample site does not have. *)
Lemma X4_missing_page_witness :
  fst (WebFetcher.fetch_url Samples.parse_https Samples.site
         "https://example.org/missing" 30) = Py.Ok None
  /\ existsb FetchOutcome.is_log
             (snd (WebFetcher.fetch_url Samples.parse_https Samples.site
                     "https://example.org/missing" 30)) = true.
Proof.
  split; [reflexivity |].
  exact (X4_fetch_failure_is_logged Samples.parse_https Samples.site
           "https://example.org/missing" 30 eq_refl).
Defined.

(** ** The adapters and app/api/search.py *)

(** X5. Whatever the adapter and the backend, a search returns a list in
    which every element is a dict of exactly the keys title, url and
    snippet, in this order. *)
Theorem X5_results_are_normalised :
  forall (settings : Config.Settings) (c : SearchClientFactory.client)
         (net : Http.network) (query : string) (num_results : option Z)
         (language time_range : option string),
    exists results,
      SearchClientFactory.client_search settings c net query num_results
                                        language time_range = Py.Ok results
      /\ Forall Results.is_search_result results.
Proof.
  intros settings c net query num_results language time_range.
  destruct (EndpointFacts.client_returns settings c net query num_results
              language time_range) as [l Hl].
  exists l. split; [exact Hl |].
  exact (ResultFacts.client_results settings net query num_results language
           time_range c l Hl).
Qed.

(** X6. The handler of GET /search answers with an [HTTPException]
    exactly when the selector cannot make the client, which is when it
    makes the SearXNG client (named or as the default) from a user name
    that holds a colon, both credentials being configured: the answer
    then has status 500 and the text of the [ValueError]. Once the client
    is made the [except] branch is not reached, since the adapters return
    and formatting their results cannot raise. *)
Theorem X6_search_endpoint_errors :
  forall (repr : Py.pyval -> string) (exn_text : Py.exn -> string)
         (settings : Config.Settings) (net : Http.network) (q : string)
         (format : SearchApi.OutputFormat) (max_results : Z) (language : string)
         (time_range : option string),
    (Replies.is_error
       (SearchApi.search repr exn_text settings net q format max_results language
                         time_range) = true
     <-> Config.provider_is (Config.provider (Config.search settings))
                            Config.DUCKDUCKGO = false
         /\ Config.provider_is (Config.provider (Config.search settings))
                               Config.BRAVE = false
         /\ SearXNGClient.refused_login settings = true)
    /\ forall e,
         SearchClientFactory.get_client settings = Py.Raise e ->
         SearchApi.search repr exn_text settings net q format max_results language
                          time_range
         = SearchApi.HTTPException 500
             ("Search error for query '" ++ q ++ "': " ++ exn_text e).
Proof.
  intros repr exn_text settings net q format max_results language time_range.
  split.
  - rewrite <- EndpointFacts.get_client_raises.
    destruct (SearchClientFactory.get_client settings) as [c | e] eqn:Hc.
    + rewrite (EndpointFacts.search_with_client repr exn_text settings net q format
                 max_results language time_range c Hc).
      split; [discriminate | intros [e H]; discriminate].
    + rewrite (EndpointFacts.search_without_client repr exn_text settings net q
                 format max_results language time_range e Hc).
      split; [intros _; eexists; reflexivity | reflexivity].
  - intros e Hc.
    exact (EndpointFacts.search_without_client repr exn_text settings net q format
             max_results language time_range e Hc).
Qed.

(** X6, witness: a misspelt provider and a colon in the SearXNG user
    name. *)
Lemma X6_colon_login_witness :
  SearchApi.search (fun _ => EmptyString) Samples.message_of Examples.colon_settings
    Samples.offline "rocq" SearchApi.json 5%Z "en-US" None
  = SearchApi.HTTPException 500
      ("Search error for query 'rocq': A " ++ PyStr.DQ ++ ":" ++ PyStr.DQ
       ++ " is not allowed in login (RFC 1945#section-11.1)").
Proof.
  exact (proj2 (X6_search_endpoint_errors (fun _ => EmptyString) Samples.message_of
                  Examples.colon_settings Samples.offline "rocq" SearchApi.json 5%Z
                  "en-US" None)
               _ eq_refl).
Defined.

(** X7. The SearXNG adapter maps the entries of [results] in order, each
    to the record of its title, url and content with the empty string for
    a missing field, and cuts the list at the requested number; one entry
    that is not an object voids the whole response. *)
Theorem X7_searxng_entries :
  forall (settings : Config.Settings) (self : SearXNGClient.t) (net : Http.network)
         (query : string) (num_results : option Z)
         (language time_range : option string)
         (r : Http.response) (top : list (string * Py.pyval))
         (entries : list Py.pyval),
    Backend.always net r -> Http.status r = 200%Z ->
    Http.json r = Py.Ok (Py.PDict top) ->
    Py.items_get "results" top = Some (Py.PList entries) ->
    SearXNGClient.search settings self net query num_results language time_range
    = Py.Ok (if forallb Results.is_dict entries
             then Py.slice_to (map Results.searxng_record entries)
                              (match num_results with
                               | Some n => n
                               | None =>
                                   Config.searxng_max_results (Config.searxng settings)
                               end)
             else []).
Proof.
  intros settings self net query num_results language time_range r top entries
         Hnet Hst Hjson Hres.
  destruct (forallb Results.is_dict entries) eqn:E.
  - exact (EntryFacts.searxng_maps_entries settings net query num_results language
             time_range r top entries Hnet Hst Hjson self Hres E).
  - destruct (ListFacts.forallb_false Results.is_dict entries E) as [x [Hx Hd]].
    exact (EntryFacts.searxng_bad_entry settings net query num_results language
             time_range r top entries Hnet Hst Hjson self x Hres Hx Hd).
Qed.

(** X7, witness: one good entry and one string give no result at all. *)
Lemma X7_mixed_entries_witness :
  SearXNGClient.search Samples.settings Examples.searxng_client
    (Samples.constantly
       (Samples.decoded (Py.PDict [("results", Py.PList Samples.mixed_entries)])))
    "rocq" None None None
  = Py.Ok [].
Proof.
  exact (X7_searxng_entries Samples.settings Examples.searxng_client
           (Samples.constantly
              (Samples.decoded (Py.PDict [("results", Py.PList Samples.mixed_entries)])))
           "rocq" None None None
           (Samples.decoded (Py.PDict [("results", Py.PList Samples.mixed_entries)]))
           [("results", Py.PList Samples.mixed_entries)] Samples.mixed_entries
           (fun _ => eq_refl) eq_refl eq_refl eq_refl).
Defined.

(** X8. The Brave adapter, given a credential, maps every entry of
    [web.results] in order to the record of its title, url and
    description, without cutting the list; one entry that is not an
    object voids the whole response. *)
Theorem X8_brave_entries :
  forall (settings : Config.Settings) (self : BraveSearchClient.t) (net : Http.network)
         (query : string) (num_results : option Z)
         (language time_range : option string)
         (r : Http.response) (top web : list (string * Py.pyval))
         (entries : list Py.pyval),
    Config.opt_truthy (BraveSearchClient.self_api_key self) = true ->
    Backend.always net r -> Http.status r = 200%Z ->
    Http.json r = Py.Ok (Py.PDict top) ->
    Py.items_get "web" top = Some (Py.PDict web) ->
    Py.items_get "results" web = Some (Py.PList entries) ->
    BraveSearchClient.search settings self net query num_results language time_range
    = Py.Ok (if forallb Results.is_dict entries
             then map Results.brave_record entries
             else []).
Proof.
  intros settings self net query num_results language time_range r top web entries
         Hk Hnet Hst Hjson Hweb Hres.
  destruct (forallb Results.is_dict entries) eqn:E.
  - exact (EntryFacts.brave_maps_entries settings net query num_results language
             time_range r top entries Hnet Hst Hjson self web Hk Hweb Hres E).
  - destruct (ListFacts.forallb_false Results.is_dict entries E) as [x [Hx Hd]].
    exact (EntryFacts.brave_bad_entry settings net query num_results language
             time_range r top entries Hnet Hst Hjson self web x Hweb Hres Hx Hd).
Qed.

(** X8, witness: two entries are returned for a request of one. *)
Lemma X8_two_entries_witness :
  BraveSearchClient.search Samples.settings (BraveSearchClient.init Samples.settings)
    (Samples.constantly (Samples.decoded Examples.two_results))
    "rocq" (Some 1%Z) None None
  = Py.Ok [search_result (Py.PStr "one") (Py.PStr "https://1.example/")
                         (Py.PStr "first");
           search_result (Py.PStr "two") (Py.PStr "https://2.example/")
                         (Py.PStr "second")].
Proof.
  refine (X8_brave_entries Samples.settings (BraveSearchClient.init Samples.settings)
            (Samples.constantly (Samples.decoded Examples.two_results))
            "rocq" (Some 1%Z) None None
            (Samples.decoded Examples.two_results) _ _ _
            eq_refl (fun _ => eq_refl) eq_refl eq_refl eq_refl eq_refl).
Defined.

(** X9. The SearXNG adapter consults the backend at one request only: a
    GET of [/search] under the instance URL with the query, the format
    json, the language (en-US when none is given) and the time range when
    it is one of day, week, month and year; any other time range is left
    out. Two backends that agree on such requests give the same search. *)
Theorem X9_searxng_request :
  forall (settings : Config.Settings) (net net' : Http.network) (query : string)
         (num_results : option Z) (self : SearXNGClient.t)
         (language time_range : option string),
    (forall rq,
        Http.meth rq = Http.GET ->
        Http.url rq = SearXNGClient.self_instance_url self ++ "/search" ->
        Py.items_get "q" (Http.params rq) = Some (Py.PStr query) ->
        Py.items_get "format" (Http.params rq) = Some (Py.PStr "json") ->
        Py.items_get "language" (Http.params rq)
        = Some (Py.PStr (match language with Some l => l | None => "en-US" end)) ->
        Py.items_get "time_range" (Http.params rq)
        = match time_range with
          | Some t =>
              if existsb (String.eqb t) ["day"; "week"; "month"; "year"]
              then Some (Py.PStr t) else None
          | None => None
          end ->
        net rq = net' rq) ->
    SearXNGClient.search settings self net query num_results language time_range
    = SearXNGClient.search settings self net' query num_results language time_range.
Proof.
  intros settings net net' query num_results self language time_range H.
  exact (RequestFacts.searxng_request settings net net' query num_results self
           language time_range H).
Qed.

(** X9, witness: a proxy that lets only the search URL through
    changes nothing, also for a time range that is not known. *)
Lemma X9_proxy_witness :
  SearXNGClient.search Samples.settings Examples.searxng_client
    (Samples.constantly (Samples.decoded (Py.PDict [])))
    "rocq" None None (Some "decade")
  = SearXNGClient.search Samples.settings Examples.searxng_client
      (Samples.only_at "https://searx.be/search"
         (Samples.constantly (Samples.decoded (Py.PDict []))))
      "rocq" None None (Some "decade").
Proof.
  apply (X9_searxng_request Samples.settings
           (Samples.constantly (Samples.decoded (Py.PDict [])))
           (Samples.only_at "https://searx.be/search"
              (Samples.constantly (Samples.decoded (Py.PDict []))))
           "rocq" None Examples.searxng_client None (Some "decade")).
  intros rq _ Hu _ _ _ _. unfold Samples.only_at. rewrite Hu. reflexivity.
Defined.





(** X12. The country code the Brave adapter derives from a language tag
    is US for a tag without a dash, and otherwise the part between the
    first dash and the second, in upper case: for a tag of three parts it
    is the middle part, not the last. *)
Theorem X12_country_code :
  forall a b : string,
    PyStr.all_chars (PyStr.is_not "-") a = true ->
    PyStr.all_chars (PyStr.is_not "-") b = true ->
    BraveSearchClient._extract_country_code a = "US"
    /\ BraveSearchClient._extract_country_code (a ++ "-" ++ b) = PyStr.upper b
    /\ forall rest,
         BraveSearchClient._extract_country_code (a ++ "-" ++ b ++ "-" ++ rest)
         = PyStr.upper b.
Proof.
  intros a b Ha Hb. split; [| split].
  - exact (CountryFacts.country_default a Ha).
  - exact (CountryFacts.country_second_part a b Ha Hb).
  - intros rest. exact (CountryFacts.country_of_longer_tag a b rest Ha Hb).
Qed.

(** X12, witness: the tag zh-Hant-TW gives HANT. *)
Lemma X12_script_tag_witness :
  BraveSearchClient._extract_country_code "zh-Hant-TW" = "HANT".
Proof.
  exact (proj2 (proj2 (X12_country_code "zh" "Hant" eq_refl eq_refl)) "TW").
Defined.

(** ** app/utils/html_parser.py *)

(** X13. The title [extract_title] returns has no space at its ends, and
    it is empty exactly when the text it is taken from is all spaces: the
    string of the title element, or without a title element the text of
    the first h1. *)
Theorem X13_title_is_trimmed :
  forall soup : Soup.node,
    (forall title, HTMLCleaner.extract_title soup = Py.Ok title ->
                   PyStr.strip title = title)
    /\ (HTMLCleaner.extract_title soup = Py.Ok EmptyString
        <-> (exists t s,
                Soup.find "title" soup = Some t /\ Soup.tag_string t = Some s
                /\ PyStr.all_chars PyStr.is_space s = true)
            \/ (exists h,
                   Soup.find "title" soup = None /\ Soup.find "h1" soup = Some h
                   /\ PyStr.all_chars PyStr.is_space (Soup.get_text h) = true)).
Proof.
  intros soup. split.
  - intros title H. exact (TitleFacts.title_is_trimmed soup title H).
  - exact (TitleFacts.empty_title_iff soup).
Qed.

(** X14. With a [thead] in the table no row is skipped: after the two
    header lines every [tr] of the table gives its line, the row of the
    [thead] included, which is so written twice. *)
Theorem X14_thead_row_is_repeated :
  forall table h : Soup.node,
    Soup.find "thead" table = Some h ->
    HTMLCleaner.markdown_table table
    = ((if HTMLCleaner.nonempty (HTMLCleaner.cell_texts ["th"] h)
        then [HTMLCleaner.line (HTMLCleaner.cell_texts ["th"] h);
              HTMLCleaner.line (map (fun _ => "---") (HTMLCleaner.cell_texts ["th"] h))]
        else [])
       ++ flat_map TableRows.body_line (Soup.find_all ["tr"] table))%list.
Proof.
  intros table h H. exact (TableFacts.thead_table_lines table h H).
Qed.

(** X14, witness: a table with the head A and the row 1. *)
Lemma X14_headed_table_witness :
  HTMLCleaner.markdown_table Samples.headed_table
  = ["| A |"; "| --- |"; "| A |"; "| 1 |"].
Proof.
  exact (X14_thead_row_is_repeated Samples.headed_table
           (Soup.Tag "thead" [] [Soup.Tag "tr" [] [Soup.Tag "th" [] [Soup.Text "A"]]]) eq_refl).
Defined.

(** X15. Content that holds no table goes through [_convert_tables]
    unchanged: nothing is parsed, so nothing is raised. *)
Theorem X15_content_without_table :
  forall (html_parser : string -> Py.result Soup.node) (content : Soup.node),
    Soup.find_all ["table"] content = [] ->
    HTMLCleaner._convert_tables html_parser content = Py.Ok content.
Proof.
  intros html_parser content H.
  exact (TableFacts.convert_tables_without_table html_parser content H).
Qed.

(** X15, witness: a paragraph. *)
Lemma X15_paragraph_witness :
  HTMLCleaner._convert_tables Samples.parse_sample Samples.paragraph
  = Py.Ok Samples.paragraph.
Proof.
  exact (X15_content_without_table Samples.parse_sample Samples.paragraph eq_refl).
Defined.

(** What the parser raises for the lines of a table ends the
    conversion. *)
Example unparsed_table_lines :
  HTMLCleaner.markdown_table
    (Soup.Tag "table" [] [Soup.Tag "tr" [] [Soup.Tag "td" [] [Soup.Text "<![x"]]])
  = ["| <![x |"; "| --- |"; "| <![x |"]
  /\ HTMLCleaner._convert_tables Samples.parse_sample Samples.marked_table
     = Py.Raise (Py.OtherException "ParserRejectedMarkup").
Proof. split; reflexivity. Qed.

(** X16. [_clean_text] gives a normal form: every space character of the
    result is the blank, no two blanks follow one another, and the result
    has no space at its ends. *)
Theorem X16_clean_text_normal_form :
  forall text : string,
    PyStr.all_chars (fun c => negb (PyStr.is_space c) || Ascii.eqb c " ")
                    (Markdown._clean_text text) = true
    /\ PyStr.contains "  " (Markdown._clean_text text) = false
    /\ PyStr.strip (Markdown._clean_text text) = Markdown._clean_text text.
Proof.
  intros text. exact (MarkdownFacts.clean_text_normal text).
Qed.

(** X17. The text [_convert_content] returns holds no run of three line
    feeds, and the Markdown [html_to_markdown] returns holds none either
    and has no space at its ends. [html_to_markdown] returns whenever the
    replacement of the tables does, and always for content without a
    table. *)
Theorem X17_no_run_of_line_feeds :
  forall (html_parser : string -> Py.result Soup.node) (to_str : Soup.node -> string)
         (html_content : string) (soup : Soup.node),
    PyStr.contains (PyStr.LF ++ PyStr.LF ++ PyStr.LF)
                   (Markdown._convert_content html_content) = false
    /\ match Pipeline.html_to_markdown html_parser to_str soup with
       | Py.Ok markdown =>
           PyStr.contains (PyStr.LF ++ PyStr.LF ++ PyStr.LF) markdown = false
           /\ PyStr.strip markdown = markdown
       | Py.Raise e =>
           HTMLCleaner._convert_tables html_parser (Pipeline.main_content soup)
           = Py.Raise e
           /\ Soup.find_all ["table"] (Pipeline.main_content soup) <> []
       end.
Proof.
  intros html_parser to_str html_content soup. split.
  - exact (MarkdownFacts.convert_content_spacing html_content).
  - destruct (Pipeline.html_to_markdown html_parser to_str soup) as [markdown | e] eqn:E.
    + exact (PipelineFacts.html_to_markdown_spacing html_parser to_str soup markdown E).
    + rewrite PipelineFacts.html_to_markdown_steps in E. split.
      * destruct (HTMLCleaner._convert_tables _ _);
          [discriminate | injection E as ->; reflexivity].
      * intros H.
        rewrite (TableFacts.convert_tables_without_table html_parser _ H) in E.
        discriminate.
Qed.

(** X18. A text that holds neither [<] nor [&] is changed by
    [_convert_content] in one way only: its runs of three line feeds or
    more become two line feeds. *)
Theorem X18_plain_text_passes :
  forall text : string,
    PyStr.all_chars (PyStr.is_not "<") text = true ->
    PyStr.all_chars (PyStr.is_not "&") text = true ->
    Markdown._convert_content text
    = PyStr.sub PyRe.match_line_feeds (PyStr.LF ++ PyStr.LF) text.
Proof.
  intros text Hlt Hamp. exact (MarkdownFacts.convert_content_plain text Hlt Hamp).
Qed.

(** X18, witness: four line feeds between two words. *)
Lemma X18_four_line_feeds_witness :
  Markdown._convert_content
    ("a  b" ++ PyStr.LF ++ PyStr.LF ++ PyStr.LF ++ PyStr.LF ++ "c")
  = "a  b" ++ PyStr.LF ++ PyStr.LF ++ "c".
Proof.
  exact (X18_plain_text_passes
           ("a  b" ++ PyStr.LF ++ PyStr.LF ++ PyStr.LF ++ PyStr.LF ++ "c")
           eq_refl eq_refl).
Defined.

(** X19. In the page [clean_html] returns there is no image and no
    element of the ten removed names. *)
Theorem X19_cleaned_page_names :
  forall (html_parser : string -> Py.result Soup.node)
         (urljoin : string -> string -> Py.result string)
         (html_content base_url : string) (page : Soup.node),
    Sanitizer.clean_html html_parser urljoin html_content base_url = Py.Ok page ->
    Soup.find_all ("img" :: Sanitizer.REMOVED) page = [].
Proof.
  intros html_parser urljoin html_content base_url page H.
  exact (SanitizerFacts.clean_html_names html_parser urljoin html_content base_url
           page H).
Qed.

(** X19, witness: the sample page, cleaned. *)
Lemma X19_sample_page_witness :
  Sanitizer.clean_html Samples.parse_sample Samples.join_root Samples.nav_markup
                       "https://example.org"
  = Py.Ok Samples.cleaned_page
  /\ Soup.find_all ("img" :: Sanitizer.REMOVED) Samples.cleaned_page = [].
Proof.
  split; [reflexivity |].
  exact (X19_cleaned_page_names Samples.parse_sample Samples.join_root
           Samples.nav_markup "https://example.org" Samples.cleaned_page eq_refl).
Defined.

(** X20. In the page [clean_html] returns every link with an href comes
    from a link of the parsed page with an href, and its href is what
    [urljoin] returned for the base URL and the href of that link; its
    other attributes are those of that link. *)
Theorem X20_cleaned_links :
  forall (html_parser : string -> Py.result Soup.node)
         (urljoin : string -> string -> Py.result string)
         (html_content base_url : string) (page : Soup.node)
         (attrs : list (string * string)) (cs : list Soup.node) (href : string),
    Sanitizer.clean_html html_parser urljoin html_content base_url = Py.Ok page ->
    In (Soup.Tag "a" attrs cs) (Soup.descendants page) ->
    Soup.attrs_get "href" attrs = Some href ->
    exists (soup : Soup.node) (attrs0 : list (string * string))
           (cs0 : list Soup.node) (href0 : string),
      html_parser html_content = Py.Ok soup
      /\ In (Soup.Tag "a" attrs0 cs0) (Soup.descendants soup)
      /\ Soup.attrs_get "href" attrs0 = Some href0
      /\ urljoin base_url href0 = Py.Ok href
      /\ attrs = Sanitizer.set_attr "href" href attrs0.
Proof.
  intros html_parser urljoin html_content base_url page attrs cs href Hc H Hh.
  exact (SanitizerFacts.clean_html_links html_parser urljoin html_content base_url
           page attrs cs href Hc H Hh).
Qed.

(** X20, witness: the link of the sample page, whose href /about is
    joined to the base URL. *)
Lemma X20_about_link_witness :
  Sanitizer.clean_html Samples.parse_sample Samples.join_root Samples.nav_markup
                       "https://example.org"
  = Py.Ok Samples.cleaned_page
  /\ exists (soup : Soup.node) (attrs0 : list (string * string))
            (cs0 : list Soup.node) (href0 : string),
      Samples.parse_sample Samples.nav_markup = Py.Ok soup
      /\ In (Soup.Tag "a" attrs0 cs0) (Soup.descendants soup)
      /\ Soup.attrs_get "href" attrs0 = Some href0
      /\ Samples.join_root "https://example.org" href0
         = Py.Ok "https://example.org/about"
      /\ [("id", "nav"); ("href", "https://example.org/about")]
         = Sanitizer.set_attr "href" "https://example.org/about" attrs0.
Proof.
  split; [reflexivity |].
  apply (X20_cleaned_links Samples.parse_sample Samples.join_root
           Samples.nav_markup "https://example.org" Samples.cleaned_page
           [("id", "nav"); ("href", "https://example.org/about")]
           [Soup.Text "About"] "https://example.org/about").
  - reflexivity.
  - right. left. reflexivity.
  - reflexivity.
Defined.

(** X21. In the page [clean_html] returns no element has a style that
    holds [display:none] or [visibility:hidden], spaces after the colon
    allowed. *)
Theorem X21_cleaned_page_hidden :
  forall (html_parser : string -> Py.result Soup.node)
         (urljoin : string -> string -> Py.result string)
         (html_content base_url : string) (page : Soup.node),
    Sanitizer.clean_html html_parser urljoin html_content base_url = Py.Ok page ->
    Forall (fun d => Sanitizer.is_hidden d = false) (Soup.descendants page).
Proof.
  intros html_parser urljoin html_content base_url page Hc.
  apply Forall_forall. intros d H.
  exact (SanitizerFacts.clean_html_hidden html_parser urljoin html_content base_url
           page d Hc H).
Qed.

(** X21, witness: the hidden block of the sample page is gone. *)
Lemma X21_hidden_block_witness :
  In (Soup.Tag "div" [("style", "display: none")] [Soup.Text "secret"])
     (Soup.descendants Samples.parsed_page)
  /\ Forall (fun d => Sanitizer.is_hidden d = false)
            (Soup.descendants Samples.cleaned_page).
Proof.
  split; [simpl; tauto |].
  exact (X21_cleaned_page_hidden Samples.parse_sample Samples.join_root
           Samples.nav_markup "https://example.org" Samples.cleaned_page eq_refl).
Defined.

(** X22. [process_html] cleans the page, looks for the title and
    converts the page, in this order. What it returns is the document,
    under the base URL, of the title and the Markdown of the cleaned
    page: both have no space at their ends and the content holds no run
    of three line feeds. What it raises is what the first failing step
    raised: the cleaning (the parser, or [urljoin] on a link), else the
    search for the title, else the conversion. *)
Theorem X22_processed_page :
  forall (html_parser : string -> Py.result Soup.node)
         (urljoin : string -> string -> Py.result string)
         (to_str : Soup.node -> string) (html_content base_url : string),
    match Pipeline.process_html html_parser urljoin to_str html_content base_url with
    | Py.Ok v =>
        exists (page : Soup.node) (title content : string),
          Sanitizer.clean_html html_parser urljoin html_content base_url = Py.Ok page
          /\ HTMLCleaner.extract_title page = Py.Ok title
          /\ Pipeline.html_to_markdown html_parser to_str page = Py.Ok content
          /\ v = ReadApi.document title base_url content
          /\ PyStr.strip title = title
          /\ PyStr.strip content = content
          /\ PyStr.contains (PyStr.LF ++ PyStr.LF ++ PyStr.LF) content = false
    | Py.Raise e =>
        Sanitizer.clean_html html_parser urljoin html_content base_url = Py.Raise e
        \/ exists page : Soup.node,
             Sanitizer.clean_html html_parser urljoin html_content base_url
             = Py.Ok page
             /\ (HTMLCleaner.extract_title page = Py.Raise e
                 \/ (exists title, HTMLCleaner.extract_title page = Py.Ok title)
                    /\ Pipeline.html_to_markdown html_parser to_str page
                       = Py.Raise e)
    end.
Proof.
  intros html_parser urljoin to_str html_content base_url.
  pose proof (ReadFacts.process_html_steps html_parser urljoin to_str
                html_content base_url) as H.
  destruct (Sanitizer.clean_html html_parser urljoin html_content base_url)
    as [page | e]; [| rewrite H; left; reflexivity].
  destruct (HTMLCleaner.extract_title page) as [title | e] eqn:T;
    [| rewrite H; right; exists page; split; [reflexivity | left; exact T]].
  destruct (Pipeline.html_to_markdown html_parser to_str page) as [content | e] eqn:M;
    rewrite H.
  - exists page, title, content.
    destruct (PipelineFacts.html_to_markdown_spacing html_parser to_str page content M)
      as [H1 H2].
    repeat split; try assumption.
    exact (TitleFacts.title_is_trimmed _ _ T).
  - right. exists page. split; [reflexivity |]. right. split; [eauto | exact M].
Qed.

(** X22, witness: a page with a title and a link that [urljoin] refuses;
    the [ValueError] of the cleaning is what [process_html] raises. *)
Lemma X22_refused_link_witness :
  Pipeline.process_html Samples.parse_sample Samples.join_root
                        (fun _ => EmptyString) Samples.bracket_markup
                        "https://example.org"
  = Py.Raise (Py.ValueError "Invalid IPv6 URL")
  /\ Sanitizer.clean_html Samples.parse_sample Samples.join_root
                          Samples.bracket_markup "https://example.org"
     = Py.Raise (Py.ValueError "Invalid IPv6 URL").
Proof.
  pose proof (X22_processed_page Samples.parse_sample Samples.join_root
                (fun _ => EmptyString) Samples.bracket_markup
                "https://example.org") as H.
  assert (E : Pipeline.process_html Samples.parse_sample Samples.join_root
                (fun _ => EmptyString) Samples.bracket_markup "https://example.org"
              = Py.Raise (Py.ValueError "Invalid IPv6 URL")) by reflexivity.
  rewrite E in H. split; [exact E |].
  destruct H as [H | [page [H _]]]; [exact H | discriminate H].
Defined.

(** ** app/api/read.py *)

(** X23. Whatever the type of the content, the extractor gives a
    document under the given URL, or passes on an error of [json.loads]
    that is not a decoding error; a content whose type holds text/plain
    comes back untouched with a title that is not empty and has no space
    at its ends. *)
Theorem X23_extracted_document :
  forall (json_loads : string -> Py.result Py.pyval) (json_dumps : Py.pyval -> string)
         (repr : Py.pyval -> string) (content content_type url : string),
    ((exists title body,
         ReadApi.extract_text_content json_loads json_dumps repr content content_type url
         = Py.Ok (ReadApi.document title url body))
     \/ (exists e,
            json_loads content = Py.Raise e /\ e <> Py.JSONDecodeError
            /\ ReadApi.extract_text_content json_loads json_dumps repr
                 content content_type url = Py.Raise e))
    /\ (PyStr.contains "text/plain" content_type = true ->
        exists title,
          ReadApi.extract_text_content json_loads json_dumps repr content content_type url
          = Py.Ok (ReadApi.document title url content)
          /\ PyStr.truthy title = true
          /\ PyStr.strip title = title).
Proof.
  intros json_loads json_dumps repr content content_type url. split.
  - exact (PayloadFacts.extract_returns_document json_loads json_dumps repr
             content content_type url).
  - intros H. unfold ReadApi.extract_text_content. rewrite H.
    eexists. split; [reflexivity |]. split.
    + apply PayloadFacts.first_line_title_truthy. reflexivity.
    + apply PayloadFacts.first_line_title_trimmed. reflexivity.
Qed.

(** X24. The two formats of GET /read agree: either both give the same
    [HTTPException], of status 500, or the format json gives a document
    under the URL with its scheme and the format md gives the content of
    that document. *)
Theorem X24_read_formats_agree :
  forall (urlparse : string -> Py.result (string * string))
         (html_parser : string -> Py.result Soup.node)
         (urljoin : string -> string -> Py.result string)
         (to_str : Soup.node -> string)
         (json_loads : string -> Py.result Py.pyval) (json_dumps : Py.pyval -> string)
         (repr : Py.pyval -> string) (exn_text : Py.exn -> string)
         (http_exception_text : Z -> string -> string)
         (net : Http.network) (url : string),
    (exists detail, forall format,
        ReadEndpoint.read_url urlparse html_parser urljoin to_str json_loads json_dumps
          repr exn_text http_exception_text net url format
        = ReadEndpoint.HTTPException 500 detail)
    \/ (exists title content,
           ReadEndpoint.read_url urlparse html_parser urljoin to_str json_loads
             json_dumps repr exn_text http_exception_text net url ReadEndpoint.json
           = ReadEndpoint.Returned
               (ReadApi.document title (ReadEndpoint.with_scheme url) content)
           /\ ReadEndpoint.read_url urlparse html_parser urljoin to_str json_loads
                json_dumps repr exn_text http_exception_text net url
                ReadEndpoint.markdown
              = ReadEndpoint.Returned (Py.PStr content)).
Proof.
  intros. apply ReadFacts.read_url_formats.
Qed.

(** X25. A page that cannot be fetched, because the request fails or the
    status is not 200, is answered with status 500, not 404: the
    [HTTPException] of status 404 the handler raises is caught by the
    handler's own [except Exception], and its text ends up in the
    detail. *)
Theorem X25_unfetched_page_is_500 :
  forall (urlparse : string -> Py.result (string * string))
         (html_parser : string -> Py.result Soup.node)
         (urljoin : string -> string -> Py.result string)
         (to_str : Soup.node -> string)
         (json_loads : string -> Py.result Py.pyval) (json_dumps : Py.pyval -> string)
         (repr : Py.pyval -> string) (exn_text : Py.exn -> string)
         (http_exception_text : Z -> string -> string)
         (net : Http.network) (url scheme netloc : string)
         (format : ReadEndpoint.OutputFormat),
    urlparse (ReadEndpoint.with_scheme url) = Py.Ok (scheme, netloc) ->
    PyStr.truthy scheme = true -> PyStr.truthy netloc = true ->
    (exists e, net (WebFetcher.request_for (ReadEndpoint.with_scheme url) 30)
               = Http.Failed e)
    \/ (exists response,
           net (WebFetcher.request_for (ReadEndpoint.with_scheme url) 30)
           = Http.Responded response
           /\ Http.status response <> 200%Z) ->
    ReadEndpoint.read_url urlparse html_parser urljoin to_str json_loads json_dumps
      repr exn_text http_exception_text net url format
    = ReadEndpoint.HTTPException 500
        ("Error processing URL " ++ ReadEndpoint.with_scheme url ++ ": "
         ++ http_exception_text 404%Z
              ("Failed to fetch URL or URL not found: "
               ++ ReadEndpoint.with_scheme url)).
Proof.
  intros urlparse html_parser urljoin to_str json_loads json_dumps repr exn_text
         http_exception_text net url scheme netloc format Hu Hs Hn Hnet.
  exact (ReadFacts.unfetched_is_500 urlparse html_parser urljoin to_str json_loads
           json_dumps repr exn_text http_exception_text net url scheme netloc format
           Hu Hs Hn Hnet).
Qed.

(** X25, witness: a page the sample site does not have, asked for
    without a scheme. *)
Lemma X25_missing_page_is_500_witness :
  ReadEndpoint.read_url Samples.parse_https Samples.parse_sample Samples.join_root
    (fun _ => EmptyString) Examples.loads_X Examples.dumps_X (fun _ => EmptyString)
    (fun _ => EmptyString) Samples.status_and_detail Samples.site
    "example.org/missing" ReadEndpoint.json
  = ReadEndpoint.HTTPException 500
      "Error processing URL https://example.org/missing: 404: Failed to fetch URL or URL not found: https://example.org/missing".
Proof.
  refine (X25_unfetched_page_is_500 Samples.parse_https Samples.parse_sample
            Samples.join_root (fun _ => EmptyString) Examples.loads_X Examples.dumps_X
            (fun _ => EmptyString) (fun _ => EmptyString) Samples.status_and_detail
            Samples.site "example.org/missing" "https" "example.org"
            ReadEndpoint.json eq_refl eq_refl eq_refl _).
  right. eexists. split; [reflexivity | discriminate].
Defined.

(** X26. The handler reads a URL and the same URL with https:// put in
    front alike when the URL has no scheme; the URL it fetches always
    starts with http:// or https://. *)
Theorem X26_read_url_scheme :
  forall (urlparse : string -> Py.result (string * string))
         (html_parser : string -> Py.result Soup.node)
         (urljoin : string -> string -> Py.result string)
         (to_str : Soup.node -> string)
         (json_loads : string -> Py.result Py.pyval) (json_dumps : Py.pyval -> string)
         (repr : Py.pyval -> string) (exn_text : Py.exn -> string)
         (http_exception_text : Z -> string -> string)
         (net : Http.network) (url : string) (format : ReadEndpoint.OutputFormat),
    ReadEndpoint.read_url urlparse html_parser urljoin to_str json_loads json_dumps
      repr exn_text http_exception_text net (ReadEndpoint.with_scheme url) format
    = ReadEndpoint.read_url urlparse html_parser urljoin to_str json_loads json_dumps
        repr exn_text http_exception_text net url format
    /\ PyStr.startswith "http://" (ReadEndpoint.with_scheme url)
       || PyStr.startswith "https://" (ReadEndpoint.with_scheme url) = true.
Proof.
  intros. split.
  - apply ReadFacts.read_url_scheme.
  - apply ReadFacts.with_scheme_starts.
Qed.

(** X27. A URL that has no host once its scheme is in place is answered
    with status 500 and the text of the [ValueError] of the fetcher;
    nothing is sent. *)
Theorem X27_invalid_url_is_500 :
  forall (urlparse : string -> Py.result (string * string))
         (html_parser : string -> Py.result Soup.node)
         (urljoin : string -> string -> Py.result string)
         (to_str : Soup.node -> string)
         (json_loads : string -> Py.result Py.pyval) (json_dumps : Py.pyval -> string)
         (repr : Py.pyval -> string) (exn_text : Py.exn -> string)
         (http_exception_text : Z -> string -> string)
         (net net' : Http.network) (url scheme netloc : string)
         (format : ReadEndpoint.OutputFormat),
    urlparse (ReadEndpoint.with_scheme url) = Py.Ok (scheme, netloc) ->
    PyStr.truthy scheme && PyStr.truthy netloc = false ->
    ReadEndpoint.read_url urlparse html_parser urljoin to_str json_loads json_dumps
      repr exn_text http_exception_text net url format
    = ReadEndpoint.HTTPException 500
        ("Error processing URL " ++ ReadEndpoint.with_scheme url ++ ": "
         ++ exn_text (Py.ValueError "Invalid URL provided"))
    /\ ReadEndpoint.read_url urlparse html_parser urljoin to_str json_loads json_dumps
         repr exn_text http_exception_text net url format
       = ReadEndpoint.read_url urlparse html_parser urljoin to_str json_loads json_dumps
           repr exn_text http_exception_text net' url format.
Proof.
  intros urlparse html_parser urljoin to_str json_loads json_dumps repr exn_text
         http_exception_text net net' url scheme netloc format Hu H.
  rewrite (ReadFacts.invalid_url_is_500 urlparse html_parser urljoin to_str json_loads
             json_dumps repr exn_text http_exception_text net url scheme netloc format
             Hu H).
  rewrite (ReadFacts.invalid_url_is_500 urlparse html_parser urljoin to_str json_loads
             json_dumps repr exn_text http_exception_text net' url scheme netloc format
             Hu H).
  split; reflexivity.
Qed.

(** X27, witness: the empty URL. *)
Lemma X27_empty_url_witness :
  ReadEndpoint.read_url Samples.parse_https Samples.parse_sample Samples.join_root
    (fun _ => EmptyString) Examples.loads_X Examples.dumps_X (fun _ => EmptyString)
    Samples.message_of Samples.status_and_detail Samples.site
    EmptyString ReadEndpoint.markdown
  = ReadEndpoint.HTTPException 500
      "Error processing URL https://: Invalid URL provided".
Proof.
  exact (proj1 (X27_invalid_url_is_500 Samples.parse_https Samples.parse_sample
                  Samples.join_root (fun _ => EmptyString) Examples.loads_X
                  Examples.dumps_X (fun _ => EmptyString) Samples.message_of
                  Samples.status_and_detail Samples.site Samples.offline
                  EmptyString "https" EmptyString ReadEndpoint.markdown
                  eq_refl eq_refl)).
Defined.

(** ** app/core/security.py and app/core/config.py *)

(** X28. [get_api_key] lets a request pass only with a header that is
    not empty and is one of the configured keys, unless the check is
    switched off, in which case every request passes and the handler gets
    [None]; every refusal has status 401. *)
Theorem X28_api_key_check :
  forall (security : Security.SecurityConfig) (header : option string),
    match Security.get_api_key security header with
    | Security.Pass granted =>
        (Security.auth_enabled security = false /\ granted = None)
        \/ (Security.auth_enabled security = true
            /\ exists key,
                header = Some key /\ granted = Some key
                /\ PyStr.truthy key = true
                /\ In key (Security.api_keys security))
    | Security.Reject status_code detail =>
        status_code = 401%Z /\ Security.auth_enabled security = true
    end.
Proof.
  intros security header.
  destruct (Security.get_api_key security header) as [granted | code detail] eqn:E.
  - destruct (Security.auth_enabled security) eqn:A.
    + destruct (SecurityFacts.get_api_key_pass security header granted E)
        as [[Ha _] | H]; [congruence | right; split; [reflexivity | exact H]].
    + left. split; [reflexivity |].
      unfold Security.get_api_key in E. rewrite A in E. injection E as <-. reflexivity.
  - split; [exact (SecurityFacts.get_api_key_reject security header code detail E) |].
    unfold Security.get_api_key in E.
    destruct (Security.auth_enabled security); [reflexivity | discriminate].
Qed.

(** X29. The keys read from API_KEYS are not empty and have no space at
    their ends; a configuration that requires keys holds at least one;
    and when it requires keys and API_KEYS names none, the default key
    passes the check if it is not empty. *)
Theorem X29_configured_keys :
  forall (API_KEYS DEFAULT_API_KEY AUTH_ENABLED : option string) (token : string),
    let security := Security.from_env API_KEYS DEFAULT_API_KEY AUTH_ENABLED token in
    (forall key, In key (Security.keys_of (Security.getenv API_KEYS EmptyString)) ->
                 PyStr.truthy key = true /\ PyStr.strip key = key)
    /\ (Security.auth_enabled security = true -> Security.api_keys security <> [])
    /\ (Security.auth_enabled security = true ->
        Security.keys_of (Security.getenv API_KEYS EmptyString) = [] ->
        PyStr.truthy (Security.default_key security) = true ->
        Security.get_api_key security (Some (Security.default_key security))
        = Security.Pass (Some (Security.default_key security))).
Proof.
  intros API_KEYS DEFAULT_API_KEY AUTH_ENABLED token security.
  split; [| split].
  - intros key H. exact (SecurityFacts.keys_of_trimmed _ key H).
  - exact (SecurityFacts.init_has_key _).
  - intros Ha Hk Ht.
    apply SecurityFacts.get_api_key_accepts; [exact Ha | exact Ht |].
    revert Ha. unfold security, Security.from_env, Security.init.
    cbn [Security.auth_enabled Security.api_keys Security.default_key].
    rewrite Hk.
    destruct (String.eqb (PyStr.lower (Security.getenv AUTH_ENABLED "True")) "true");
      cbn [Security.auth_enabled Security.api_keys Security.default_key];
      [intros _; left; reflexivity | discriminate].
Qed.

(** ** app/utils/html_parser.py: what the sanitizer keeps *)

(** X30. Every element of the parsed page that the three removing loops
    do not take away, below elements that are not taken away and are no
    images, is found in the page [clean_html] returns, as the loops
    changed it. So a comment stays in the page unless its body holds the
    opening mark of a comment: the loop over the comments does not remove
    the comments of the page. *)
Theorem X30_cleaned_page_keeps :
  forall (html_parser : string -> Py.result Soup.node)
         (urljoin : string -> string -> Py.result string)
         (html_content base_url : string) (soup page d : Soup.node),
    html_parser html_content = Py.Ok soup ->
    Sanitizer.clean_html html_parser urljoin html_content base_url = Py.Ok page ->
    Sanitizer.kept_below soup d ->
    (exists d' : Soup.node,
        Sanitizer.absolute_links urljoin base_url
          (Sanitizer.remove Sanitizer.is_hidden
             (Sanitizer.remove Sanitizer.holds_comment_mark
                (Sanitizer.remove (Soup.is_tag_named Sanitizer.REMOVED) d)))
        = Py.Ok d'
        /\ In (Sanitizer.replace_images d') (Soup.descendants page))
    /\ forall body,
         d = Soup.Comment body -> In (Soup.Comment body) (Soup.descendants page).
Proof.
  intros html_parser urljoin html_content base_url soup page d Hp Hc H. split.
  - exact (KeptFacts.clean_html_keeps html_parser urljoin html_content base_url
             soup page d Hp Hc H).
  - intros body ->.
    exact (KeptFacts.clean_html_keeps_comment html_parser urljoin html_content
             base_url body soup page Hp Hc H).
Qed.

(** X30, witness: the comment of the sample page is in the cleaned
    page. *)
Lemma X30_comment_stays_witness :
  In (Soup.Comment " navigation ") (Soup.descendants Samples.cleaned_page).
Proof.
  refine (proj2 (X30_cleaned_page_keeps Samples.parse_sample Samples.join_root
                   Samples.nav_markup "https://example.org"
                   Samples.parsed_page Samples.cleaned_page
                   (Soup.Comment " navigation ") eq_refl eq_refl _)
                " navigation " eq_refl).
  eapply Sanitizer.kept_deeper.
  - left. reflexivity.
  - reflexivity.
  - reflexivity.
  - apply Sanitizer.kept_child; [right; left; reflexivity | reflexivity].
Defined.
